(** * arib: ARIB STD-B24 closed captions to ASS subtitles

    A shallow embedding of the caption parser (closed_caption.py), of the
    ASS formatter (ass.py) and of the per-PES handler (ts2ass.py), with the
    properties of the specification stated over it.

    Conventions of the embedding.
    - Python [str] values are [string]s holding the UTF-8 bytes of the text.
    - Python [int]s are [Z].  Elapsed times are Python floats in the source.
      A finite double is a rational and is held in [Q] as the rational it
      is; an operation on floats rounds its exact result to the nearest
      double (module [Float]).
    - A byte stream [f] (the list the readers consume from the front) is a
      [list byte]; a reader returns the value read with the rest of the
      stream, or raises.
    - Exceptions are the [Raise] branch of [result]. *)

From Stdlib Require Import ZArith QArith Qabs Qminmax Qround Qpower Lqa.
From Stdlib Require Import String Ascii List Bool Lia DecimalString DecimalZ.
From Stdlib.Strings Require Import Byte.
Import ListNotations.

Local Open Scope string_scope.
Local Open Scope Z_scope.

(** ** Exceptions *)

Inductive exn : Type :=
| EOFError        (* read.EOFError: the stream ended inside a field *)
| ValueError
| IndexError
| FileOpenError
| OtherException
| OutOfFuel.      (* no exception: a loop of the model ran out of fuel *)

Inductive result (A : Type) : Type :=
| Ok (a : A)
| Raise (e : exn).
Arguments Ok {A} a.
Arguments Raise {A} e.

(** ** Python text helpers *)

Module Py.

(** The character U+0022, which a string literal cannot hold. *)
Definition dquote : string := String (ascii_of_nat 34) EmptyString.

(** A line feed. *)
Definition nl : string := String (ascii_of_nat 10) EmptyString.

(** [str(z)] for an int. *)
Definition str_int (z : Z) : string := NilEmpty.string_of_int (Z.to_int z).

Fixpoint zeros (n : nat) : string :=
  match n with
  | O => EmptyString
  | S n' => String "0" (zeros n')
  end.

(** Sign-aware zero padding of the format flag [0]: the sign comes first
    and the digits are padded up to the field width. *)
Definition pad0 (width : nat) (neg : bool) (body : string) : string :=
  let sign := if neg then "-" else "" in
  sign ++ zeros (width - String.length sign - String.length body) ++ body.

(** [format(z, "02d")]. *)
Definition fmt_02d (z : Z) : string :=
  pad0 2 (z <? 0) (str_int (Z.abs z)).

(** [x < y] on numbers, as a boolean. *)
Definition ltb (x y : Q) : bool :=
  match Qcompare x y with Lt => true | _ => false end.

(** [int(x)] of a number: truncation towards zero. *)
Definition int_of (q : Q) : Z := Z.quot (Qnum q) (Z.pos (Qden q)).

(** Rounding to the nearest integer, ties to even, of a non-negative
    number. *)
Definition round_half_even (q : Q) : Z :=
  let n := Qfloor q in
  match Qcompare ((q - inject_Z n) * 2) 1 with
  | Lt => n
  | Gt => n + 1
  | Eq => if Z.even n then n else n + 1
  end.

(** [format(x, ".2f")] without padding: the digits of |x| rounded to two
    decimals. *)
Definition digits_2f (q : Q) : string :=
  let n := round_half_even (Qabs q * 100) in
  str_int (n / 100) ++ "." ++ pad0 2 false (str_int (n mod 100)).

(** [format(x, "02.2f")]: field width 2 counts the whole field. *)
Definition fmt_02_2f (q : Q) : string :=
  pad0 2 (ltb q 0) (digits_2f q).

End Py.

(** ** Python floats *)

(** A Python float is an IEEE 754 double.  The doubles of the model are the
    rationals m * 2^e with |m| < 2^53, and an operation gives the double
    nearest to its exact result, a tie going to the even significand.  The
    exponent is not bounded: overflow to infinity (from 2^1024) and the
    subnormal numbers (below 2^-1022) are outside the model, as are NaN
    and the infinities. *)
Module Float.

Definition pow2 (k : Z) : Q := (2 ^ k)%Q.

(** The integer k with 2^k <= q < 2^(k+1), for q > 0. *)
Definition ilog2 (q : Q) : Z :=
  let k := Z.log2 (Qnum q) - Z.log2 (Z.pos (Qden q)) in
  if Qle_bool (pow2 k) q then k else k - 1.

(** The nearest multiple of 2^e, where 2^(e+52) <= q < 2^(e+53). *)
Definition round_pos (q : Q) : Q :=
  let e := ilog2 q - 52 in
  (inject_Z (Py.round_half_even (q / pow2 e)) * pow2 e)%Q.

(** The double nearest to [q]. *)
Definition round (q : Q) : Q :=
  Qred match Qcompare q 0 with
       | Eq => 0
       | Gt => round_pos q
       | Lt => - round_pos (- q)
       end.

(** [float(z)] of an int. *)
Definition of_int (z : Z) : Q := round (inject_Z z).

Definition add (x y : Q) : Q := round (x + y).
Definition sub (x y : Q) : Q := round (x - y).
Definition div (x y : Q) : Q := round (x / y).

End Float.

(** A double: rounding leaves it as it is. *)
Definition is_double (q : Q) : Prop := (Float.round q == q)%Q.

(** The relative error of a rounding: 2^-53. *)
Definition half_ulp : Q := 1 # 9007199254740992.

(** ** ass.py: time formatting *)

(** [asstime(seconds)] *)
Definition asstime (seconds : Q) : string :=
  let hrs := Py.int_of (seconds / 3600) in
  let seconds := (seconds - inject_Z (3600 * hrs))%Q in
  let mins := Py.int_of (seconds / 60) in
  let seconds := (seconds - inject_Z (60 * mins))%Q in
  Py.str_int hrs ++ ":" ++ Py.fmt_02d mins ++ ":" ++ Py.fmt_02_2f seconds.


(** ** ass.py: positions and the caption area *)

(** A Python number that is either an [int] or a [float]: the two print
    differently. *)
Inductive pynum : Type :=
| PyInt (z : Z)
| PyFloat (q : Q).

Module Num.

Definition val (n : pynum) : Q :=
  match n with
  | PyInt z => inject_Z z
  | PyFloat q => q
  end.

Definition add (a b : pynum) : pynum :=
  match a, b with
  | PyInt x, PyInt y => PyInt (x + y)
  | _, _ => PyFloat (val a + val b)
  end.

Definition mul (a b : pynum) : pynum :=
  match a, b with
  | PyInt x, PyInt y => PyInt (x * y)
  | _, _ => PyFloat (val a * val b)
  end.

(** [a / float(2)] *)
Definition half (a : pynum) : pynum := PyFloat (val a / 2).

Fixpoint frac_digits (fuel : nat) (r : Q) : string :=
  match fuel with
  | O => EmptyString
  | S fuel' =>
      if Qeq_bool r 0 then EmptyString
      else let d := Qfloor (r * 10) in
           Py.str_int d ++ frac_digits fuel' (Qred (r * 10 - inject_Z d))
  end.

(** [str(x)] of a float whose decimal expansion is finite and short (an
    integer or a multiple of a small power of 1/2, below 1e16), which is
    what [repr] prints for it. *)
Definition str_float (q : Q) : string :=
  let a := Qabs q in
  let n := Qfloor a in
  let fd := frac_digits (Pos.to_nat (Qden (Qred a))) (Qred (a - inject_Z n)) in
  (if Py.ltb q 0 then "-" else "") ++ Py.str_int n ++ "."
    ++ (if String.eqb fd "" then "0" else fd).

(** [str(n)], as [format] inserts it for an empty format spec. *)
Definition str (n : pynum) : string :=
  match n with
  | PyInt z => Py.str_int z
  | PyFloat q => str_float q
  end.

End Num.

(** Screen position in pixels. *)
Record Pos : Type := mkPos { _x : pynum; _y : pynum }.

(** Screen width, height of an area in pixels. *)
Record Size : Type := mkSize { _w : Z; _h : Z }.

Inductive TextSize : Type := SMALL | MEDIUM | NORMAL.

Definition TextSize_eqb (a b : TextSize) : bool :=
  match a, b with
  | SMALL, SMALL | MEDIUM, MEDIUM | NORMAL, NORMAL => true
  | _, _ => false
  end.

Record ClosedCaptionArea : Type := mkClosedCaptionArea {
  _UL : Pos;
  _Dimensions : Size;
  _CharacterDim : Size;
  _char_spacing : Z;
  _line_spacing : Z
}.

(** [ClosedCaptionArea()]: the values of horizontal mode. *)
Definition ClosedCaptionArea_init : ClosedCaptionArea :=
  {| _UL := mkPos (PyInt 170) (PyInt 30);
     _Dimensions := mkSize 620 480;
     _CharacterDim := mkSize 36 36;
     _char_spacing := 4;
     _line_spacing := 24 |}.

Definition RowCol2ScreenPos (self : ClosedCaptionArea) (row col : Z)
    (size : TextSize) : Pos :=
  let r := row + 1 in
  let c := col in
  let w := PyInt (_w (_CharacterDim self) + _char_spacing self) in
  let h := PyInt (_h (_CharacterDim self) + _line_spacing self) in
  let h := if TextSize_eqb size SMALL then Num.half h else h in
  let w := if TextSize_eqb size SMALL || TextSize_eqb size MEDIUM
           then Num.half w else w in
  mkPos (Num.add (_x (_UL self)) (Num.mul (PyInt c) w))
        (Num.add (_y (_UL self)) (Num.mul (PyInt r) h)).

(** ** ass.py: the output file *)

(** The text of a list of lines, each ended by a line feed. *)
Definition text_of_lines (ls : list string) : string :=
  String.concat "" (map (fun l => l ++ Py.nl) ls).

(** An open .ass file: what has been written to it, in order. *)
Record ASSFile : Type := mkASSFile { written : list string }.

Definition ASSFile_write (self : ASSFile) (line : string) : ASSFile :=
  {| written := written self ++ [line] |}.

Definition header_text (width height : Z) (title : string) : string :=
  text_of_lines
    [ "[Script Info]";
      "; *****************************************************************************";
      "; File generated via arib-ts2ass";
      "; https://github.com/johnoneil/arib";
      "; *****************************************************************************";
      "Title: Japanese Closed Caption Subtitlies";
      "ScriptType: v4.00+";
      "WrapStyle: 0";
      "PlayResX: " ++ Py.str_int width;
      "PlayResY: " ++ Py.str_int height;
      "ScaledBorderAndShadow: yes";
      "Video Aspect Ratio: 0";
      "Video Zoom: 1";
      "Video Position: 0";
      "Last Style Storage: Default";
      "Video File: " ++ title;
      "";
      "" ].

Definition styles_text : string :=
  text_of_lines
    [ "[V4+ Styles]";
      "Format: Name, Fontname, Fontsize, PrimaryColour, SecondaryColour, OutlineColour, BackColour, Bold, Italic, Underline, StrikeOut, ScaleX, ScaleY, Spacing, Angle, BorderStyle, Outline, Shadow, Alignment, MarginL, MarginR, MarginV, Encoding";
      "Style: normal,MS UI Gothic,37,&H00FFFFFF,&H000000FF,&H00000000,&H88000000,0,0,0,0,100,100,0,0,1,2,2,1,10,10,10,0";
      "Style: medium,MS UI Gothic,37,&H00FFFFFF,&H000000FF,&H00000000,&H88000000,0,0,0,0,50,100,0,0,1,2,2,1,10,10,10,0";
      "Style: small,MS UI Gothic,18,&H00FFFFFF,&H000000FF,&H00000000,&H88000000,0,0,0,0,100,100,0,0,1,2,2,1,10,10,10,0";
      "";
      "" ].

Definition event_header_text : string :=
  text_of_lines
    [ "[Events]";
      "Format: Layer, Start, End, Style, Name, MarginL, MarginR, MarginV, Effect, Text" ].

(** [ASSFile(filepath)], with the default width and height.  Whether
    [codecs.open] and the three writes succeed is for the file system to
    say: [writable] is its answer.  Any exception among them is turned into
    FileOpenError. *)
Definition ASSFile_init (writable : bool) (filepath : string) : result ASSFile :=
  if writable then
    let f := {| written := [] |} in
    let f := ASSFile_write f (header_text 960 540 filepath) in
    let f := ASSFile_write f styles_text in
    Ok (ASSFile_write f event_header_text)
  else Raise FileOpenError.

(** ** ass.py: the formatter state *)

(** A [Dialog] holds its text [_s]; its [_x] and [_y] are never set. *)
Definition Dialog : Type := string.

Record ASSFormatter : Type := mkASSFormatter {
  _color : string;
  _tmax : Z;
  _CCArea : ClosedCaptionArea;
  _pos : Pos;
  _elapsed_time_s : Q;
  _ass_file : option ASSFile;
  _current_lines : list Dialog;
  _current_style : string;
  _current_color : string;
  _current_textsize : TextSize;
  _filename : string;
  _width : Z;
  _height : Z;
  _verbose : bool;
  stdout : list string;  (* what the formatter has printed *)
  writable : bool        (* the file system: can [_filename] be opened
                            for writing? *)
}.

Definition set_elapsed_time_s (v : Q) (s : ASSFormatter) : ASSFormatter :=
  mkASSFormatter (_color s) (_tmax s) (_CCArea s) (_pos s) v (_ass_file s)
    (_current_lines s) (_current_style s) (_current_color s)
    (_current_textsize s) (_filename s) (_width s) (_height s) (_verbose s)
    (stdout s) (writable s).

Definition set_ass_file (v : option ASSFile) (s : ASSFormatter) : ASSFormatter :=
  mkASSFormatter (_color s) (_tmax s) (_CCArea s) (_pos s) (_elapsed_time_s s) v
    (_current_lines s) (_current_style s) (_current_color s)
    (_current_textsize s) (_filename s) (_width s) (_height s) (_verbose s)
    (stdout s) (writable s).

Definition set_current_lines (v : list Dialog) (s : ASSFormatter) : ASSFormatter :=
  mkASSFormatter (_color s) (_tmax s) (_CCArea s) (_pos s) (_elapsed_time_s s)
    (_ass_file s) v (_current_style s) (_current_color s)
    (_current_textsize s) (_filename s) (_width s) (_height s) (_verbose s)
    (stdout s) (writable s).

Definition set_current_style (v : string) (s : ASSFormatter) : ASSFormatter :=
  mkASSFormatter (_color s) (_tmax s) (_CCArea s) (_pos s) (_elapsed_time_s s)
    (_ass_file s) (_current_lines s) v (_current_color s)
    (_current_textsize s) (_filename s) (_width s) (_height s) (_verbose s)
    (stdout s) (writable s).

Definition set_current_color (v : string) (s : ASSFormatter) : ASSFormatter :=
  mkASSFormatter (_color s) (_tmax s) (_CCArea s) (_pos s) (_elapsed_time_s s)
    (_ass_file s) (_current_lines s) (_current_style s) v
    (_current_textsize s) (_filename s) (_width s) (_height s) (_verbose s)
    (stdout s) (writable s).

Definition set_current_textsize (v : TextSize) (s : ASSFormatter) : ASSFormatter :=
  mkASSFormatter (_color s) (_tmax s) (_CCArea s) (_pos s) (_elapsed_time_s s)
    (_ass_file s) (_current_lines s) (_current_style s) (_current_color s)
    v (_filename s) (_width s) (_height s) (_verbose s) (stdout s)
    (writable s).

Definition set_stdout (v : list string) (s : ASSFormatter) : ASSFormatter :=
  mkASSFormatter (_color s) (_tmax s) (_CCArea s) (_pos s) (_elapsed_time_s s)
    (_ass_file s) (_current_lines s) (_current_style s) (_current_color s)
    (_current_textsize s) (_filename s) (_width s) (_height s) (_verbose s) v
    (writable s).

(** [ASSFormatter(tmax=..., video_filename=..., verbose=...)], in a file
    system where the output file can be opened, or cannot. *)
Definition ASSFormatter_init (tmax : Z) (video_filename : string)
    (verbose : bool) (writable : bool) : ASSFormatter :=
  {| _color := "white";
     _tmax := tmax;
     _CCArea := ClosedCaptionArea_init;
     _pos := mkPos (PyInt 0) (PyInt 0);
     _elapsed_time_s := 0;
     _ass_file := None;
     _current_lines := [""];
     _current_style := "normal";
     _current_color := "{\c&Hffffff&}";
     _current_textsize := NORMAL;
     _filename := video_filename;
     _width := 960;
     _height := 540;
     _verbose := verbose;
     stdout := [];
     writable := writable |}.

(** What a handler leaves behind: the formatter, and the exception when one
    was raised (the formatter keeps what was done before it). *)
Inductive outcome : Type :=
| Done (formatter : ASSFormatter)
| Raised (e : exn) (formatter : ASSFormatter).

Definition and_then (o : outcome) (k : ASSFormatter -> outcome) : outcome :=
  match o with
  | Done formatter => k formatter
  | Raised e formatter => Raised e formatter
  end.

Definition open_file (self : ASSFormatter) : outcome :=
  match _ass_file self with
  | Some _ => Done self
  | None =>
      let self :=
        if _verbose self
        then set_stdout (stdout self
                          ++ ["Found nonempty ARIB closed caption data in file.";
                              "Writing .ass file: " ++ _filename self]) self
        else self in
      match ASSFile_init (writable self) (_filename self) with
      | Ok f => Done (set_ass_file (Some f) self)
      | Raise e => Raised e self
      end
  end.

Definition file_written (self : ASSFormatter) : bool :=
  match _ass_file self with Some _ => true | None => false end.

(** ** The caption tokens the formatter dispatches on *)

(** The objects of the decoded statement body, by their type.  A character
    carries its text ([str] of the object), [APS] its row and column, [CSI]
    its text, a [DRCS] character the number of its set and whatever text
    the decoder resolved for its glyph. *)
Inductive caption : Type :=
| Kanji (s : string)
| Alphanumeric (s : string)
| Hiragana (s : string)
| Katakana (s : string)
| DRCS (set : nat) (glyph : string)
| APS (row col : Z)
| MSZ
| NSZ
| SSZ
| SP
| CS
| CSI (s : string)
| BKF | RDF | GRF | YLF | BLF | MGF | CNF | WHF
| Unhandled.   (* a type that is not in DISPLAYED_CC_STATEMENTS *)

(** [formatter._current_lines[-1] += s] *)
Definition iadd_last (formatter : ASSFormatter) (s : string) : outcome :=
  match _current_lines formatter with
  | [] => Raised IndexError formatter
  | ls => Done (set_current_lines (removelast ls ++ [last ls "" ++ s]) formatter)
  end.

Definition kanji (formatter : ASSFormatter) (k : string) : outcome :=
  and_then (open_file formatter) (fun formatter => iadd_last formatter k).

Definition alphanumeric (formatter : ASSFormatter) (a : string) : outcome :=
  and_then (open_file formatter) (fun formatter => iadd_last formatter a).

Definition hiragana (formatter : ASSFormatter) (h : string) : outcome :=
  and_then (open_file formatter) (fun formatter => iadd_last formatter h).

Definition katakana (formatter : ASSFormatter) (k : string) : outcome :=
  and_then (open_file formatter) (fun formatter => iadd_last formatter k).

Definition medium (formatter : ASSFormatter) : outcome :=
  and_then (open_file formatter) (fun formatter =>
  and_then (iadd_last formatter ("{\rmedium}" ++ _current_color formatter))
    (fun formatter =>
       Done (set_current_textsize MEDIUM (set_current_style "medium" formatter)))).

Definition normal (formatter : ASSFormatter) : outcome :=
  and_then (open_file formatter) (fun formatter =>
  and_then (iadd_last formatter ("{\rnormal}" ++ _current_color formatter))
    (fun formatter =>
       Done (set_current_textsize NORMAL (set_current_style "normal" formatter)))).

Definition small (formatter : ASSFormatter) : outcome :=
  and_then (open_file formatter) (fun formatter =>
  and_then (iadd_last formatter ("{\rsmall}" ++ _current_color formatter))
    (fun formatter =>
       Done (set_current_textsize SMALL (set_current_style "small" formatter)))).

Definition space (formatter : ASSFormatter) : outcome :=
  and_then (open_file formatter) (fun formatter => iadd_last formatter " ").

(** U+FFFD REPLACEMENT CHARACTER *)
Definition replacement_character : string :=
  String (ascii_of_nat 239) (String (ascii_of_nat 191)
    (String (ascii_of_nat 189) EmptyString)).

Definition drcs (formatter : ASSFormatter) (c : nat * string) : outcome :=
  iadd_last formatter replacement_character.

(** The eight colour handlers differ by their override only. *)
Definition colour (override : string) (formatter : ASSFormatter) : outcome :=
  and_then (open_file formatter) (fun formatter =>
  and_then (iadd_last formatter override)
    (fun formatter => Done (set_current_color override formatter))).

Definition black := colour "{\c&H000000&}".
Definition red := colour "{\c&H0000ff&}".
Definition green := colour "{\c&H00ff00&}".
Definition yellow := colour "{\c&H00ffff&}".
Definition blue := colour "{\c&Hff0000&}".
Definition magenta := colour "{\c&Hff00ff&}".
Definition cyan := colour "{\c&Hffff00&}".
Definition white := colour "{\c&Hffffff&}".

Definition position_set (formatter : ASSFormatter) (row col : Z) : outcome :=
  let pos := RowCol2ScreenPos (_CCArea formatter) row col
               (_current_textsize formatter) in
  let line := "{\r" ++ _current_style formatter ++ "}"
              ++ _current_color formatter
              ++ "{\pos(" ++ Num.str (_x pos) ++ "," ++ Num.str (_y pos) ++ ")}" in
  Done (set_current_lines (_current_lines formatter ++ [line]) formatter).

(** *** The search for [<CS:"x;y a">] *)

Module Regex.

(** [\d] in a [str] pattern matches every Unicode decimal digit (category
    Nd), not the ASCII digits only.  These are the code point ranges of
    Nd in Unicode 14.0, the version of Python 3.11. *)
Definition decimal_ranges : list (Z * Z) :=
  [
    (0x0030, 0x0039); (0x0660, 0x0669); (0x06F0, 0x06F9); (0x07C0, 0x07C9);
    (0x0966, 0x096F); (0x09E6, 0x09EF); (0x0A66, 0x0A6F); (0x0AE6, 0x0AEF);
    (0x0B66, 0x0B6F); (0x0BE6, 0x0BEF); (0x0C66, 0x0C6F); (0x0CE6, 0x0CEF);
    (0x0D66, 0x0D6F); (0x0DE6, 0x0DEF); (0x0E50, 0x0E59); (0x0ED0, 0x0ED9);
    (0x0F20, 0x0F29); (0x1040, 0x1049); (0x1090, 0x1099); (0x17E0, 0x17E9);
    (0x1810, 0x1819); (0x1946, 0x194F); (0x19D0, 0x19D9); (0x1A80, 0x1A89);
    (0x1A90, 0x1A99); (0x1B50, 0x1B59); (0x1BB0, 0x1BB9); (0x1C40, 0x1C49);
    (0x1C50, 0x1C59); (0xA620, 0xA629); (0xA8D0, 0xA8D9); (0xA900, 0xA909);
    (0xA9D0, 0xA9D9); (0xA9F0, 0xA9F9); (0xAA50, 0xAA59); (0xABF0, 0xABF9);
    (0xFF10, 0xFF19); (0x104A0, 0x104A9); (0x10D30, 0x10D39); (0x11066, 0x1106F);
    (0x110F0, 0x110F9); (0x11136, 0x1113F); (0x111D0, 0x111D9); (0x112F0, 0x112F9);
    (0x11450, 0x11459); (0x114D0, 0x114D9); (0x11650, 0x11659); (0x116C0, 0x116C9);
    (0x11730, 0x11739); (0x118E0, 0x118E9); (0x11950, 0x11959); (0x11C50, 0x11C59);
    (0x11D50, 0x11D59); (0x11DA0, 0x11DA9); (0x16A60, 0x16A69); (0x16AC0, 0x16AC9);
    (0x16B50, 0x16B59); (0x1D7CE, 0x1D7FF); (0x1E140, 0x1E149); (0x1E2F0, 0x1E2F9);
    (0x1E950, 0x1E959); (0x1FBF0, 0x1FBF9) ].

Definition is_decimal (cp : Z) : bool :=
  existsb (fun r => (fst r <=? cp) && (cp <=? snd r)) decimal_ranges.

Definition byte_of (c : ascii) : Z := Z.of_nat (nat_of_ascii c).

(** A continuation byte of UTF-8. *)
Definition is_cont (c : ascii) : bool :=
  (128 <=? byte_of c) && (byte_of c <=? 191).

(** The first character of a text held as UTF-8: its code point, its bytes
    and the rest of the text. *)
Definition first_char (s : string) : option (Z * string * string) :=
  match s with
  | EmptyString => None
  | String a s1 =>
      let x := byte_of a in
      if x <? 128 then Some (x, String a EmptyString, s1)
      else if (194 <=? x) && (x <=? 223) then
        match s1 with
        | String b s2 =>
            if is_cont b
            then Some ((x - 192) * 64 + (byte_of b - 128),
                       String a (String b EmptyString), s2)
            else None
        | _ => None
        end
      else if (224 <=? x) && (x <=? 239) then
        match s1 with
        | String b (String c s3) =>
            let cp := (x - 224) * 4096 + (byte_of b - 128) * 64
                      + (byte_of c - 128) in
            if is_cont b && is_cont c && (2048 <=? cp)
               && negb ((55296 <=? cp) && (cp <=? 57343))
            then Some (cp, String a (String b (String c EmptyString)), s3)
            else None
        | _ => None
        end
      else if (240 <=? x) && (x <=? 244) then
        match s1 with
        | String b (String c (String d s4)) =>
            let cp := (x - 240) * 262144 + (byte_of b - 128) * 4096
                      + (byte_of c - 128) * 64 + (byte_of d - 128) in
            if is_cont b && is_cont c && is_cont d
               && (65536 <=? cp) && (cp <=? 1114111)
            then Some (cp, String a (String b (String c (String d EmptyString))),
                       s4)
            else None
        | _ => None
        end
      else None
  end.

(** A decimal digit at the front: its text and what follows it. *)
Definition digit_at (s : string) : option (string * string) :=
  match first_char s with
  | Some (cp, d, r) => if is_decimal cp then Some (d, r) else None
  | None => None
  end.

(** The longest run of at most [k] digits at the front, and what follows
    it. *)
Fixpoint take_digits (k : nat) (s : string) : string * string :=
  match k with
  | O => (EmptyString, s)
  | S k' =>
      match digit_at s with
      | Some (d, r) => let '(ds, r') := take_digits k' r in (d ++ ds, r')
      | None => (EmptyString, s)
      end
  end.

(** [s] without the prefix [p], when it starts with it. *)
Fixpoint strip (p s : string) : option string :=
  match p, s with
  | EmptyString, _ => Some s
  | String a p', String b s' => if Ascii.eqb a b then strip p' s' else None
  | String _ _, EmptyString => None
  end.

(** [\d{1,4}] followed by the literal [lit]: the digits matched and the
    rest.  The literals here start with a character that is no digit, so
    giving digits back cannot help: the run of digits has to stop, after
    one to four of them, right at the literal. *)
Definition digits_then (lit s : string) : option (string * string) :=
  let '(d, r) := take_digits 4 s in
  if negb (String.eqb d EmptyString)
  then match strip lit r with
       | Some r' => Some (d, r')
       | None => None
       end
  else None.

(** A match of [a_regex] that starts at the front of [s]. *)
Definition a_match_here (s : string) : option (string * string) :=
  match strip ("<CS:" ++ Py.dquote) s with
  | None => None
  | Some r =>
      match digits_then ";" r with
      | None => None
      | Some (gx, r') =>
          match digits_then (" a" ++ Py.dquote ++ ">") r' with
          | None => None
          | Some (gy, _) => Some (gx, gy)
          end
      end
  end.

(** [re.search(a_regex, cmd)]: the leftmost match, as its groups [x] and
    [y].  The search moves on byte by byte: the pattern starts with an
    ASCII character, which no byte inside a longer character equals. *)
Fixpoint a_search (cmd : string) : option (string * string) :=
  match a_match_here cmd with
  | Some g => Some g
  | None =>
      match cmd with
      | EmptyString => None
      | String _ cmd' => a_search cmd'
      end
  end.

End Regex.

Definition control_character (formatter : ASSFormatter) (csi : string) : outcome :=
  let cmd := csi in
  match Regex.a_search cmd with
  | Some (gx, gy) =>
      let line := "{\r" ++ _current_style formatter ++ "}"
                  ++ _current_color formatter
                  ++ "{\pos(" ++ gx ++ "," ++ gy ++ ")}{\an1}" in
      Done (set_current_lines (_current_lines formatter ++ [line]) formatter)
  | None => Done formatter
  end.

(** *** Clear screen *)

Definition dialogue_line (start_time end_time line : string) : string :=
  "Dialogue: 0," ++ start_time ++ "," ++ end_time
    ++ ",normal,,0000,0000,0000,," ++ line ++ "\N" ++ Py.nl.

(** The number passed to [asstime] for the end time.  The difference and
    the sum are float operations; the comparison of the float with the int
    [_tmax] is exact. *)
Definition end_seconds (formatter : ASSFormatter) (timestamp : Q) : Q :=
  if Py.ltb (inject_Z (_tmax formatter))
            (Float.sub timestamp (_elapsed_time_s formatter))
  then Float.add (_elapsed_time_s formatter) (Float.of_int (_tmax formatter))
  else timestamp.

(** One turn of the loop over the reversed lines. *)
Definition flush_line (start_time end_time : string)
    (formatter : ASSFormatter) (l : Dialog) : ASSFormatter :=
  if (String.length l =? 0)%nat then formatter
  else
    let line := dialogue_line start_time end_time l in
    let formatter :=
      match _ass_file formatter with
      | Some f => set_ass_file (Some (ASSFile_write f line)) formatter
      | None => formatter
      end in
    set_current_lines [""] formatter.

Definition clear_screen (formatter : ASSFormatter) (timestamp : Q) : outcome :=
  let end_time := asstime (end_seconds formatter timestamp) in
  let start_time := asstime (_elapsed_time_s formatter) in
  match _current_lines formatter with
  | [] => Raised IndexError formatter
  | l0 :: _ =>
      let formatter :=
        if (negb (String.length l0 =? 0)%nat
            || negb (length (_current_lines formatter) =? 0)%nat)
           && negb (String.eqb start_time end_time)
        then fold_left (flush_line start_time end_time)
               (rev (_current_lines formatter)) formatter
        else formatter in
      Done (set_current_color "{\c&Hffffff&}"
             (set_current_textsize NORMAL
               (set_elapsed_time_s timestamp formatter)))
  end.

(** *** Dispatch *)

(** The handler of [DISPLAYED_CC_STATEMENTS] for the type of [c], applied. *)
Definition handle (formatter : ASSFormatter) (c : caption) (timestamp : Q)
    : outcome :=
  match c with
  | Kanji k => kanji formatter k
  | Alphanumeric a => alphanumeric formatter a
  | Hiragana h => hiragana formatter h
  | Katakana k => katakana formatter k
  | APS row col => position_set formatter row col
  | MSZ => medium formatter
  | NSZ => normal formatter
  | SP => space formatter
  | SSZ => small formatter
  | CS => clear_screen formatter timestamp
  | CSI s => control_character formatter s
  | BKF => black formatter
  | RDF => red formatter
  | GRF => green formatter
  | YLF => yellow formatter
  | BLF => blue formatter
  | MGF => magenta formatter
  | CNF => cyan formatter
  | WHF => white formatter
  | DRCS n g => drcs formatter (n, g)
  | Unhandled => Done formatter
  end.

(** [ASSFormatter.format(captions, timestamp)] *)
Fixpoint format (self : ASSFormatter) (captions : list caption)
    (timestamp : Q) : outcome :=
  match captions with
  | [] => Done self
  | c :: captions' =>
      and_then (handle self c timestamp)
        (fun self => format self captions' timestamp)
  end.

(** A sequence of tokens, each fed with its own timestamp. *)
Fixpoint feed (self : ASSFormatter) (tokens : list (caption * Q)) : outcome :=
  match tokens with
  | [] => Done self
  | (c, timestamp) :: tokens' =>
      and_then (format self [c] timestamp) (fun self => feed self tokens')
  end.

Definition final (o : outcome) : ASSFormatter :=
  match o with Done f => f | Raised _ f => f end.

Definition file_chunks (self : ASSFormatter) : list string :=
  match _ass_file self with Some f => written f | None => [] end.


(** ** Observations on the formatter *)

(** The Dialogue events of the output file. *)
Definition is_dialogue (chunk : string) : bool :=
  String.prefix "Dialogue: " chunk.

Definition dialogues (self : ASSFormatter) : list string :=
  filter is_dialogue (file_chunks self).

Definition nonempty (l : Dialog) : bool := negb (String.length l =? 0)%nat.

(** [sub in s] *)
Fixpoint contains (sub s : string) : bool :=
  String.prefix sub s
  || match s with
     | EmptyString => false
     | String _ s' => contains sub s'
     end.

(** The style that goes with a text size. *)
Definition style_of (size : TextSize) : string :=
  match size with
  | NORMAL => "normal"
  | MEDIUM => "medium"
  | SMALL => "small"
  end.

Definition consistent (self : ASSFormatter) : Prop :=
  _current_style self = style_of (_current_textsize self).

(** The formatted start and end times of a clear screen differ. *)
Definition times_differ (self : ASSFormatter) (timestamp : Q) : bool :=
  negb (String.eqb (asstime (_elapsed_time_s self))
                   (asstime (end_seconds self timestamp))).

(** A Dialogue event before it is formatted: start and end in seconds, and
    the text. *)
Definition event : Type := (Q * Q * string)%type.

Definition render (ev : event) : string :=
  let '(s, e, l) := ev in dialogue_line (asstime s) (asstime e) l.

(** The events a clear screen at [timestamp] sends to the file. *)
Definition flushed (self : ASSFormatter) (timestamp : Q) : list event :=
  if file_written self && times_differ self timestamp
  then map (fun l => (_elapsed_time_s self, end_seconds self timestamp, l))
           (filter nonempty (rev (_current_lines self)))
  else [].

(** The events of a sequence of tokens, clear screen by clear screen. *)
Fixpoint events (self : ASSFormatter) (tokens : list (caption * Q))
    : list event :=
  match tokens with
  | [] => []
  | (c, timestamp) :: tokens' =>
      (match c with CS => flushed self timestamp | _ => [] end)
      ++ match handle self c timestamp with
         | Done self' => events self' tokens'
         | Raised _ _ => []
         end
  end.

(** The sum over the clear screens of a sequence of tokens of a weight taken
    on the state the clear screen finds. *)
Fixpoint sum_at_clear (w : ASSFormatter -> Q -> nat) (self : ASSFormatter)
    (tokens : list (caption * Q)) : nat :=
  (match tokens with
   | [] => 0
   | (c, timestamp) :: tokens' =>
       (match c with CS => w self timestamp | _ => 0 end)
       + match handle self c timestamp with
         | Done self' => sum_at_clear w self' tokens'
         | Raised _ _ => 0
         end
   end)%nat.

(** Weight 1 for a clear screen that finds a non-empty buffer and distinct
    formatted times. *)
Definition has_content (self : ASSFormatter) (timestamp : Q) : nat :=
  if existsb nonempty (_current_lines self) && times_differ self timestamp
  then 1%nat else 0%nat.

(** The number of non-empty buffers, for a clear screen that finds the file
    open and distinct formatted times. *)
Definition buffers_written (self : ASSFormatter) (timestamp : Q) : nat :=
  if file_written self && times_differ self timestamp
  then length (filter nonempty (_current_lines self)) else 0%nat.

(** The timestamps do not decrease and start at [lo] or later. *)
Fixpoint nondecreasing_from (lo : Q) (ts : list Q) : Prop :=
  match ts with
  | [] => True
  | t :: ts' => (lo <= t)%Q /\ nondecreasing_from t ts'
  end.

(** A character or a space: the printable tokens other than DRCS. *)
Definition printable_not_drcs (c : caption) : bool :=
  match c with
  | Kanji _ | Alphanumeric _ | Hiragana _ | Katakana _ | SP => true
  | _ => false
  end.

(** The tokens whose handler opens the output file. *)
Definition opens_file (c : caption) : bool :=
  match c with
  | Kanji _ | Alphanumeric _ | Hiragana _ | Katakana _ | SP
  | MSZ | NSZ | SSZ
  | BKF | RDF | GRF | YLF | BLF | MGF | CNF | WHF => true
  | _ => false
  end.

(** *** Reading a time of the file back *)

(** An ASCII digit. *)
Definition is_ascii_digit (c : ascii) : bool :=
  let n := nat_of_ascii c in (48 <=? n)%nat && (n <=? 57)%nat.

(** Every character of the string is an ASCII digit. *)
Fixpoint all_digits (s : string) : bool :=
  match s with
  | EmptyString => true
  | String c s' => is_ascii_digit c && all_digits s'
  end.

(** The longest run of ASCII digits at the front, and what follows it. *)
Fixpoint span_digits (s : string) : string * string :=
  match s with
  | EmptyString => (EmptyString, EmptyString)
  | String c s' =>
      if is_ascii_digit c
      then let '(d, r) := span_digits s' in (String c d, r)
      else (EmptyString, s)
  end.

(** The number that a run of ASCII digits writes. *)
Definition digits_value (s : string) : option Z :=
  option_map Z.of_uint (NilEmpty.uint_of_string s).

(** A run of ASCII digits, not empty, followed by the literal [lit]: the
    number, the count of its digits and the rest. *)
Definition number_then (lit s : string) : option (Z * nat * string) :=
  let '(d, r) := span_digits s in
  match d, digits_value d, Regex.strip lit r with
  | String _ _, Some v, Some r' => Some (v, String.length d, r')
  | _, _, _ => None
  end.

(** The seconds that a time of the file, [h:mm:s.cc], stands for. *)
Definition parse_time (s : string) : option Q :=
  match number_then ":" s with
  | Some (h, _, r1) =>
      match number_then ":" r1 with
      | Some (m, 2%nat, r2) =>
          match number_then "." r2 with
          | Some (sec, _, r3) =>
              match number_then "" r3 with
              | Some (c, 2%nat, EmptyString) =>
                  Some (inject_Z (3600 * h + 60 * m + sec) + inject_Z c / 100)%Q
              | _ => None
              end
          | None => None
          end
      | _ => None
      end
  | None => None
  end.

(** The Dialogue line written from [start] to [end_], both read back, lasts
    at least nothing and at most [tmax] seconds and a hundredth. *)
Definition lasts_within (tmax : Z) (line : string) : Prop :=
  exists (start_time end_time text : string) (a b : Q),
    line = dialogue_line start_time end_time text
    /\ parse_time start_time = Some a
    /\ parse_time end_time = Some b
    /\ (a <= b)%Q /\ (b <= a + inject_Z tmax + (1 # 100))%Q.

(** *** Sample token sequences *)

(** Two characters in two buffers, then a clear screen after one second. *)
Definition two_buffer_tokens : list (caption * Q) :=
  [(Alphanumeric "A", 0%Q); (APS 0 0, 0%Q); (Alphanumeric "B", 0%Q);
   (CS, 1%Q)].

(** A DRCS character, then a clear screen. *)
Definition drcs_only_tokens : list (caption * Q) :=
  [(DRCS 1 "", 0%Q); (CS, 1%Q)].

(** Small size, a DRCS character, then a clear screen. *)
Definition size_drcs_tokens : list (caption * Q) :=
  [(SSZ, 0%Q); (DRCS 1 "", 0%Q); (CS, 1%Q)].

(** A character, then a clear screen after [t] seconds. *)
Definition one_line_tokens (t : Q) : list (caption * Q) :=
  [(Alphanumeric "A", 0%Q); (CS, t)].

(** A clear screen at 0.075 s as the clock has it, the float of 6750 ticks
    of 90 kHz, then a character, then a clear screen at 100 s. *)
Definition rounded_tokens : list (caption * Q) :=
  let x := Float.div (Float.of_int 6750) 90000 in
  [(CS, x); (Alphanumeric "A", x); (CS, 100%Q)].

(** ** The byte reader *)

(** A reader consumes bytes from the front of the stream. *)
Definition reader (A : Type) : Type := list byte -> result (A * list byte).

Definition ret {A : Type} (a : A) : reader A := fun f => Ok (a, f).

Definition raise {A : Type} (e : exn) : reader A := fun _ => Raise e.

Definition rbind {A B : Type} (m : reader A) (k : A -> reader B) : reader B :=
  fun f =>
    match m f with
    | Ok (a, f') => k a f'
    | Raise e => Raise e
    end.

Notation "x <- m ;; k" := (rbind m (fun x => k))
  (at level 61, m at next level, right associativity).

(** [for i in range(n): acc.append(m)] *)
Fixpoint times {A : Type} (n : nat) (m : reader A) : reader (list A) :=
  match n with
  | O => ret []
  | S n' => a <- m ;; l <- times n' m ;; ret (a :: l)
  end.

Definition byte_val (b : byte) : Z := Z.of_N (Byte.to_N b).

(** The big-endian value of a sequence of bytes. *)
Definition be_val (bs : list byte) : Z :=
  fold_left (fun acc b => acc * 256 + byte_val b) bs 0.

Module read.

(** Modelled from the spec: the byte reader (module read) is not among the
    sources.  It is a byte-sequential reader with fixed-width unsigned
    big-endian integer reads; a read past the end of the stream raises
    EOFError. *)
Definition buffer (n : nat) : reader (list byte) :=
  fun f =>
    if (n <=? length f)%nat then Ok (firstn n f, skipn n f)
    else Raise EOFError.

Definition unsigned (n : nat) : reader Z :=
  bs <- buffer n ;; ret (be_val bs).

Definition ucb : reader Z := unsigned 1.    (* one byte *)
Definition uic : reader Z := unsigned 1.    (* one byte *)
Definition usb : reader Z := unsigned 2.    (* 16 bits *)
Definition ui3b : reader Z := unsigned 3.   (* 24 bits *)
Definition uib : reader Z := unsigned 4.    (* 32 bits *)
Definition ulb : reader Z := unsigned 8.    (* 64 bits *)

End read.

(** ** closed_caption.py *)

(** [str(l)] of a list of ints. *)
Definition str_list (l : list Z) : string :=
  "[" ++ String.concat ", " (map Py.str_int l) ++ "]".

Definition utf8 (bs : list nat) : string :=
  string_of_list_ascii (map ascii_of_nat bs).

(** [chr(b)] of a byte value, as text. *)
Definition chr (b : Z) : string :=
  if b <? 128 then utf8 [Z.to_nat b]
  else utf8 [Z.to_nat (192 + b / 64); Z.to_nat (128 + b mod 64)].

(** [DRCSFont.character_hashes]: the known glyphs, by the hash of their
    pixels.  The keys of the dict are distinct. *)
Definition character_hashes : list (Z * string) :=
    [ (-3174437220813644284, "♬");
      (3626218632846089044, "[ｽﾋﾟｰｶｰ]");
      (-7036522249175460012, "[ｽﾋﾟｰｶｰ]");
      (7569189553178784666, "[ﾊﾟｿｺﾝ]");
      (-7054764751876937278, "[ﾃﾚﾋﾞ]");
      (7675785349947576464, "[携帯]");
      (-8588766517861681222, "｟");
      (-137322149189423910, "｠");
      (-8884896295922033014, "⟪");
      (-5876459750587952470, "⟫");
      (2149867084803144864, "[ﾃﾚﾋﾞ]");
      (-6623079553638809300, "[ﾏｲｸ]");
      (-3827305093498498888, "𝔹");
      (-775118510460996568, "｟");
      (-4397084408988046416, "｠");
      (-6328951014288157962, "[ﾊﾟｿｺﾝ]");
      (1113567731799993878, "①");
      (6707059547002745896, "[ﾗｼﾞｵ]");
      (6692026985814559272, "[携帯]") ].

(** [d[k]] when [k in d]. *)
Fixpoint dict_get {V : Type} (d : list (Z * V)) (k : Z) : option V :=
  match d with
  | [] => None
  | (k', v) :: d' => if k =? k' then Some v else dict_get d' k
  end.

Record DRCSFont : Type := mkDRCSFont {
  _font_id : Z;
  _mode : Z;
  _depth : Z;
  _width_px : Z;     (* _width *)
  _height_px : Z;    (* _height *)
  _pixels : list Z;
  _hash : Z;
  _character : string
}.

Record DRCSCharacter : Type := mkDRCSCharacter {
  _character_code : Z;
  _number_of_font : Z;
  _fonts : list DRCSFont
}.

Record DRCS1ByteCharacter : Type := mkDRCS1ByteCharacter {
  drcs_unit_separator : Z;
  drcs_data_unit_type : Z;
  drcs_data_unit_size : Z;
  _characters : list DRCSCharacter;
  _number_of_code : Z
}.

Record StatementBody : Type := mkStatementBody {
  sb_unit_separator : Z;
  sb_data_unit_type : Z;
  sb_data_unit_size : Z;
  sb_payload : list caption
}.

(** What [DataUnit.load_unit] returns. *)
Inductive unit_payload : Type :=
| PStatementBody (b : StatementBody)
| PDRCS (d : DRCS1ByteCharacter)
| PNone.

Record DataUnit : Type := mkDataUnit {
  _unit_separator : Z;
  _data_unit_type : Z;
  _data_unit_size : Z;
  _payload : unit_payload
}.

(** [DataUnit.size()]: size of the inflated data unit in bytes. *)
Definition DataUnit_size (u : DataUnit) : Z := _data_unit_size u + 5.

Record CaptionStatementData : Type := mkCaptionStatementData {
  _TMD : Z;
  STM : Z;
  _data_unit_loop_length : Z;
  _data_units : list DataUnit
}.

Record Language : Type := mkLanguage {
  _language_tag : Z;
  _DMF : Z;
  _DC : Z;
  _language_code : string;
  _format : Z;
  _rollup_mode : Z
}.

Record CaptionManagementData : Type := mkCaptionManagementData {
  TMD : Z;
  _OTM : option Z;       (* set only when TMD is 0b10 *)
  _num_languages : Z;
  _languages : list Language;
  m_data_unit_loop_length : Z;
  m_data_units : list DataUnit
}.

Definition StatementBody_ID : Z := 0x20.
Definition DRCS1ByteCharacter_ID : Z := 0x30.

Section Parser.

(** Python's [hash] of a [str]: it is not fixed by the sources (and is
    salted per process), so it is a parameter. *)
Variable hash : string -> Z.

(** The statement decoder (module decoder) is not among the sources.
    [decode d f] is one call of [decoder.decode(f)] in the state [d]: the
    new state, and the statement returned with its [len], or [None] when
    it returned nothing. *)
Variable decoder : Type.
Variable Decoder_new : decoder.
Variable decode : decoder -> reader (decoder * option (caption * Z)).

(** The fuel of the loop of [parse_contents], the one loop here whose
    end depends on the decoder. *)
Variable fuel : nat.

(** [DRCSFont(f)], with DRCS_DEBUG off. *)
Definition DRCSFont_init : reader DRCSFont :=
  b <- read.ucb ;;
  let font_id := Z.shiftr (Z.land b 0xF0) 8 in
  let mode := Z.land b 0x0F in
  if (mode =? 0) || (mode =? 1) then
    depth <- read.ucb ;;
    width <- read.ucb ;;
    height <- read.ucb ;;
    pixels <- times (Z.to_nat (Z.quot (width * height) 4)) read.ucb ;;
    let tmp_str := str_list pixels in
    let h := hash tmp_str in
    let character :=
      match dict_get character_hashes h with
      | Some c => c
      | None => replacement_character
      end in
    ret (mkDRCSFont font_id mode depth width height pixels h character)
  else raise ValueError.

(** [DRCSCharacter(f)] *)
Definition DRCSCharacter_init : reader DRCSCharacter :=
  character_code <- read.usb ;;
  number_of_font <- read.ucb ;;
  fonts <- times (Z.to_nat number_of_font) DRCSFont_init ;;
  ret (mkDRCSCharacter character_code number_of_font fonts).

(** [DRCS1ByteCharacter(f, data_unit)], given the fields of the data unit
    read so far. *)
Definition DRCS1ByteCharacter_init (unit_separator data_unit_type
    data_unit_size : Z) : reader DRCS1ByteCharacter :=
  if negb (data_unit_type =? DRCS1ByteCharacter_ID) then raise ValueError
  else
    number_of_code <- read.ucb ;;
    characters <- times (Z.to_nat number_of_code) DRCSCharacter_init ;;
    ret (mkDRCS1ByteCharacter unit_separator data_unit_type data_unit_size
           characters number_of_code).

(** The loop of [StatementBody.parse_contents]. *)
Fixpoint parse_loop (n : nat) (d : decoder) (bytes_read bytes_to_read : Z)
    (statements : list caption) : reader (list caption) :=
  if bytes_read <? bytes_to_read then
    match n with
    | O => raise OutOfFuel
    | S n' =>
        r <- decode d ;;
        match r with
        | (d', Some (statement, len)) =>
            if len =? 0
            then parse_loop n' d' bytes_read bytes_to_read statements
            else parse_loop n' d' (bytes_read + len) bytes_to_read
                   (statements ++ [statement])
        | (d', None) => parse_loop n' d' bytes_read bytes_to_read statements
        end
    end
  else ret statements.

Definition parse_contents (bytes_to_read : Z) : reader (list caption) :=
  parse_loop fuel Decoder_new 0 bytes_to_read [].

(** [StatementBody(f, data_unit)] *)
Definition StatementBody_init (unit_separator data_unit_type
    data_unit_size : Z) : reader StatementBody :=
  if negb (data_unit_type =? 0x20) then raise ValueError
  else
    payload <- parse_contents data_unit_size ;;
    ret (mkStatementBody unit_separator data_unit_type data_unit_size payload).

Definition load_unit (unit_separator data_unit_type data_unit_size : Z)
    : reader unit_payload :=
  if data_unit_type =? StatementBody_ID then
    b <- StatementBody_init unit_separator data_unit_type data_unit_size ;;
    ret (PStatementBody b)
  else if data_unit_type =? DRCS1ByteCharacter_ID then
    d <- DRCS1ByteCharacter_init unit_separator data_unit_type data_unit_size ;;
    ret (PDRCS d)
  else
    _ <- read.buffer (Z.to_nat data_unit_size) ;;
    ret PNone.

(** [DataUnit(f)] *)
Definition DataUnit_init : reader DataUnit :=
  unit_separator <- read.ucb ;;
  if negb (unit_separator =? 0x1F) then raise ValueError
  else
    data_unit_type <- read.ucb ;;
    data_unit_size <- read.ui3b ;;
    payload <- load_unit unit_separator data_unit_type data_unit_size ;;
    ret (mkDataUnit unit_separator data_unit_type data_unit_size payload).

(** [while bytes_read < length: units.append(DataUnit(f)); ...].  Every
    unit adds at least 5 to [bytes_read], so [length] turns are enough. *)
Fixpoint data_unit_loop (n : nat) (bytes_read length : Z)
    (data_units : list DataUnit) : reader (list DataUnit) :=
  if bytes_read <? length then
    match n with
    | O => raise OutOfFuel
    | S n' =>
        u <- DataUnit_init ;;
        data_unit_loop n' (bytes_read + DataUnit_size u) length
          (data_units ++ [u])
    end
  else ret data_units.

(** The head of [CaptionStatementData(f)]: TMD, STM and the length of the
    data unit loop. *)
Definition CaptionStatementData_head : reader (Z * Z * Z) :=
  b <- read.ucb ;;
  let TMD := Z.shiftr b 6 in
  if (TMD =? 0x1) || (TMD =? 0x2) then
    d <- read.ulb ;;
    ret (TMD, Z.shiftr d 28, Z.land d 0xFFFFFFFF)
  else
    l <- read.ui3b ;;
    ret (TMD, 0, l).

(** [CaptionStatementData(f)] *)
Definition CaptionStatementData_init : reader CaptionStatementData :=
  hd <- CaptionStatementData_head ;;
  let '(TMD, STM, data_unit_loop_length) := hd in
  data_units <- data_unit_loop (Z.to_nat data_unit_loop_length) 0
                  data_unit_loop_length [] ;;
  ret (mkCaptionStatementData TMD STM data_unit_loop_length data_units).

(** [Language(f)] *)
Definition Language_init : reader Language :=
  d <- read.ucb ;;
  let language_tag := Z.shiftr d 5 in
  let DMF := Z.land d 0x7 in
  DC <- (if (DMF =? 12) || (DMF =? 13) || (DMF =? 14)   (* 0b1100 .. 0b1110 *)
         then read.ucb else ret 0) ;;
  c1 <- read.ucb ;;
  c2 <- read.ucb ;;
  c3 <- read.ucb ;;
  let language_code := "" ++ chr c1 ++ chr c2 ++ chr c3 in
  formats <- read.ucb ;;
  ret (mkLanguage language_tag DMF DC language_code
         (Z.shiftr formats 4) (Z.land formats 0x3)).

(** [CaptionManagementData(f)] *)
Definition CaptionManagementData_init : reader CaptionManagementData :=
  b <- read.ucb ;;
  let TMD := Z.shiftr b 6 in
  OTM <- (if TMD =? 2   (* 0b10 *)
          then t <- read.uib ;;
               c <- read.uic ;;
               let ub := Z.shiftr c 4 in
               ret (Some (Z.lor t (Z.shiftl ub 32)))
          else ret None) ;;
  num_languages <- read.ucb ;;
  languages <- times (Z.to_nat num_languages) Language_init ;;
  data_unit_loop_length <- read.ui3b ;;
  data_units <- data_unit_loop (Z.to_nat data_unit_loop_length) 0
                  data_unit_loop_length [] ;;
  ret (mkCaptionManagementData TMD OTM num_languages languages
         data_unit_loop_length data_units).

End Parser.

(** ** ts2ass.py: the handler of an elementary stream packet *)

(** What the handler prints. *)
Inductive printed : Type :=
| Line (s : string)
| Traceback (e : exn).     (* traceback.print_exc *)

(** The globals of the module that the handler reads or writes. *)
Record globals : Type := mkGlobals {
  pid : Z;
  SILENT : bool;
  ass : option ASSFormatter;
  elapsed_time_s : Q;
  tmax : Z;
  outfilename : string;
  printed_lines : list printed;
  outfile_writable : bool   (* the file system: can [outfilename] be
                               opened for writing? *)
}.

Definition set_pid (v : Z) (g : globals) : globals :=
  mkGlobals v (SILENT g) (ass g) (elapsed_time_s g) (tmax g) (outfilename g)
    (printed_lines g) (outfile_writable g).

Definition set_ass (v : option ASSFormatter) (g : globals) : globals :=
  mkGlobals (pid g) (SILENT g) v (elapsed_time_s g) (tmax g) (outfilename g)
    (printed_lines g) (outfile_writable g).

Definition print (l : printed) (g : globals) : globals :=
  mkGlobals (pid g) (SILENT g) (ass g) (elapsed_time_s g) (tmax g)
    (outfilename g) (printed_lines g ++ [l]) (outfile_writable g).

(** A data group, by what its [payload()] is; [is_management_data()] tells
    the two apart. *)
Inductive DataGroup : Type :=
| StatementGroup (caption : CaptionStatementData)
| ManagementGroup (management_data : CaptionManagementData).

Definition exception_message : string :=
  "Exception thrown while handling DataGroup in ES. This may be due to many factors"
  ++ "such as file corruption or the .ts file using as yet unsupported features.".

Section Handler.

(** [ES.get_pes_payload] and the constructor of [DataGroup] are not among
    the sources. *)
Variable packet : Type.
Variable get_pes_payload : packet -> result (list byte).
Variable DataGroup_init : list byte -> result DataGroup.

(** The loop over the data units of a caption statement. *)
Fixpoint format_data_units (g : globals) (units : list DataUnit)
    : globals * option exn :=
  match units with
  | [] => (g, None)
  | data_unit :: units' =>
      match _payload data_unit with
      | PStatementBody body =>
          let a := match ass g with
                   | Some a => a
                   | None => ASSFormatter_init (tmax g) (outfilename g)
                               (negb (SILENT g)) (outfile_writable g)
                   end in
          match format a (sb_payload body) (elapsed_time_s g) with
          | Done a' => format_data_units (set_ass (Some a') g) units'
          | Raised e a' => (set_ass (Some a') g, Some e)
          end
      | _ => format_data_units g units'
      end
  end.

(** The loop over the languages of the management data. *)
Fixpoint print_languages (g : globals) (current_pid : Z)
    (languages : list Language) : globals :=
  match languages with
  | [] => g
  | language :: languages' =>
      let g :=
        if negb (SILENT g)
        then print (Line "Will now only process this PID to improve performance.")
               (print (Line ("Closed caption management data for language: "
                             ++ _language_code language
                             ++ " available in PID: "
                             ++ Py.str_int current_pid)) g)
        else g in
      print_languages g current_pid languages'
  end.

(** The body of the [try]. *)
Definition try_body (g : globals) (current_pid : Z) (p : packet)
    : globals * option exn :=
  match get_pes_payload p with
  | Raise e => (g, Some e)
  | Ok payload =>
      let f := payload in
      match DataGroup_init f with
      | Raise e => (g, Some e)
      | Ok (StatementGroup caption) =>
          format_data_units g (_data_units caption)
      | Ok (ManagementGroup management_data) =>
          let numlang := Z.of_nat (length (_languages management_data)) in
          if (pid g <? 0) && (0 <? numlang)
          then (set_pid current_pid
                  (print_languages g current_pid (_languages management_data)),
                None)
          else (g, None)
      end
  end.

(** [OnESPacket(current_pid, packet, header_size)]: the globals it leaves,
    and the exception it lets through. *)
Definition OnESPacket (g : globals) (current_pid : Z) (p : packet)
    : globals * option exn :=
  if (0 <=? pid g) && negb (current_pid =? pid g) then (g, None)
  else
    match try_body g current_pid p with
    | (g', None) => (g', None)
    | (g', Some EOFError) => (g', None)
    | (g', Some FileOpenError) => (g', Some FileOpenError)
    | (g', Some OutOfFuel) => (g', Some OutOfFuel)
    | (g', Some e) =>
        if negb (SILENT g') && (0 <=? pid g')
        then (print (Traceback e) (print (Line exception_message) g'), None)
        else (g', None)
    end.

End Handler.

(** ** Sample inputs *)

(** Small size, then a clear screen. *)
Definition small_clear_tokens : list (caption * Q) :=
  [(SSZ, 0%Q); (CS, 1%Q)].

(** A character, a DRCS character with the given glyph text, then a clear
    screen. *)
Definition drcs_note_tokens (glyph : string) : list (caption * Q) :=
  [(Alphanumeric "A", 0%Q); (DRCS 1 glyph, 0%Q); (CS, 1%Q)].

(** A hash under which every glyph is the music note of the table. *)
Definition music_note_hash : string -> Z := fun _ => -3174437220813644284.

(** A font of mode 1, depth 2, 4 by 4 pixels. *)
Definition music_note_font_bytes : list byte :=
  [x01; x02; x04; x04; x05; x06; x07; xff].

(** A decoder that finds the stream at its end. *)
Definition no_decode : unit -> reader (unit * option (caption * Z)) :=
  fun _ => raise EOFError.

(** Caption statement data (TMD 0) of two data units: a DRCS unit of two
    characters, the first with a font of mode 2, and a statement body. *)
Definition unsupported_drcs_statement : list byte :=
  [ x00; x00; x00; x1c;
    x1f; x30; x00; x00; x10;
      x02;
      x00; x41; x01; x02;
      x00; x42; x01; x00; x02; x04; x04; x05; x06; x07; xff;
    x1f; x20; x00; x00; x02; x21; x21 ].

(** A data group that is caption statement data and nothing else. *)
Definition statement_group (f : list byte) : result DataGroup :=
  match CaptionStatementData_init music_note_hash unit tt no_decode 0 f with
  | Ok (caption, _) => Ok (StatementGroup caption)
  | Raise e => Raise e
  end.

(** The globals once the PID 0x130 is chosen, before any caption. *)
Definition sample_globals : globals :=
  mkGlobals 0x130 false None 0 5 "out.ass" [] true.

(** ** ts2ass.py: the clock *)

(** The globals that [OnTSPacket] reads or writes. *)
Record clock : Type := mkClock {
  initial_timestamp : option Z;
  clock_elapsed_time_s : Q;     (* elapsed_time_s *)
  time_offset : Q
}.

(** [OnTSPacket(packet)], given the value of [TS.get_pcr(packet)].  The
    elapsed time is [float(delta) / 90000.0 + time_offset], in floats. *)
Definition OnTSPacket (k : clock) (pcr : Z) : clock :=
  if 0 <? pcr then
    let current_timestamp := pcr in
    let initial :=
      match initial_timestamp k with
      | Some i => if i =? 0 then current_timestamp else i
      | None => current_timestamp
      end in
    let delta := current_timestamp - initial in
    mkClock (Some initial)
      (Float.add (Float.div (Float.of_int delta) 90000) (time_offset k))
      (time_offset k)
  else k.

(** The clock when the module is loaded and [main] has set the offset. *)
Definition clock_init (offset : Q) : clock := mkClock None 0 offset.

(** ** More observations *)

(** The time of the last clear screen of a sequence of tokens, or [s] when
    there is none. *)
Definition last_clear_time (s : Q) (tokens : list (caption * Q)) : Q :=
  fold_left (fun acc ct => match fst ct with CS => snd ct | _ => acc end)
    tokens s.

(** The colour overrides of the eight colour handlers. *)
Definition colour_overrides : list string :=
  [ "{\c&H000000&}"; "{\c&H0000ff&}"; "{\c&H00ff00&}"; "{\c&H00ffff&}";
    "{\c&Hff0000&}"; "{\c&Hff00ff&}"; "{\c&Hffff00&}"; "{\c&Hffffff&}" ].

(** The names of the styles of the file. *)
Definition style_names : list string := ["normal"; "medium"; "small"].

(** The text of a character token. *)
Definition char_text (c : caption) : option string :=
  match c with
  | Kanji s | Alphanumeric s | Hiragana s | Katakana s => Some s
  | _ => None
  end.

(** The text of one to four Unicode decimal digits. *)
Definition digit_run (d : string) : bool :=
  let '(x, r) := Regex.take_digits 4 d in
  negb (String.eqb x EmptyString) && String.eqb r EmptyString.

(** The text of the control sequence that sets the position [x;y]. *)
Definition csi_position_text (gx gy : string) : string :=
  "<CS:" ++ Py.dquote ++ gx ++ ";" ++ gy ++ " a" ++ Py.dquote ++ ">".

(** The texts of the character tokens of a list, joined. *)
Fixpoint joined_text (cs : list caption) : string :=
  match cs with
  | [] => ""
  | c :: cs' =>
      match char_text c with Some s => s | None => "" end ++ joined_text cs'
  end.

(** The sum of the sizes of data units. *)
Definition total_size (units : list DataUnit) : Z :=
  fold_right (fun u acc => DataUnit_size u + acc) 0 units.

(** The tokens of the statement bodies of data units, in order. *)
Fixpoint statement_tokens (units : list DataUnit) : list caption :=
  match units with
  | [] => []
  | u :: units' =>
      match _payload u with
      | PStatementBody body => (sb_payload body ++ statement_tokens units')%list
      | _ => statement_tokens units'
      end
  end.

(** Some data unit is a statement body. *)
Definition has_statement_body (units : list DataUnit) : bool :=
  existsb (fun u => match _payload u with
                    | PStatementBody _ => true
                    | _ => false
                    end) units.

(** The file right after it is opened: the header, the styles and the
    event header. *)
Definition ASSFile_head (filepath : string) : ASSFile :=
  {| written := [header_text 960 540 filepath; styles_text;
                 event_header_text] |}.

(** The formatter once [open_file] has printed what it prints when it is
    verbose. *)
Definition announced (self : ASSFormatter) : ASSFormatter :=
  if _verbose self
  then set_stdout (stdout self
                    ++ ["Found nonempty ARIB closed caption data in file.";
                        "Writing .ass file: " ++ _filename self]) self
  else self.

(** The formatter [open_file] leaves when the file is open or opens. *)
Definition opened (self : ASSFormatter) : ASSFormatter :=
  match _ass_file self with
  | Some _ => self
  | None => set_ass_file (Some (ASSFile_head (_filename self))) (announced self)
  end.

(** The file is open, or the file system lets it be opened. *)
Definition can_write (self : ASSFormatter) : bool :=
  file_written self || writable self.

(** * Properties *)

(** ** The caption area *)

(** C9. With the caption area of horizontal mode, row r and column c are
    at (170 + c*40, 30 + (r+1)*60) for NORMAL text; for MEDIUM text x is
    170 + c*20 and y is the NORMAL one; for SMALL text the position is
    (170 + c*20, 30 + (r+1)*30).  NORMAL coordinates are ints, the halved
    ones floats. *)
Theorem RowCol2ScreenPos_values (r c : Z) :
  RowCol2ScreenPos ClosedCaptionArea_init r c NORMAL
    = mkPos (PyInt (170 + c * 40)) (PyInt (30 + (r + 1) * 60))
  /\ (Num.val (_x (RowCol2ScreenPos ClosedCaptionArea_init r c MEDIUM))
        == inject_Z (170 + c * 20))%Q
  /\ _y (RowCol2ScreenPos ClosedCaptionArea_init r c MEDIUM)
       = PyInt (30 + (r + 1) * 60)
  /\ (Num.val (_x (RowCol2ScreenPos ClosedCaptionArea_init r c SMALL))
        == inject_Z (170 + c * 20))%Q
  /\ (Num.val (_y (RowCol2ScreenPos ClosedCaptionArea_init r c SMALL))
        == inject_Z (30 + (r + 1) * 30))%Q.
Proof.
  cbv [RowCol2ScreenPos ClosedCaptionArea_init TextSize_eqb orb
       _UL _CharacterDim _char_spacing _line_spacing _w _h _x _y
       Num.add Num.mul Num.half Num.val].
  change (36 + 4) with 40. change (36 + 24) with 60.
  repeat split.
  all: unfold Qeq; cbn -[Z.mul Z.add]; lia.
Qed.

(** ** Time formatting *)

(** C3. The seconds field is printed with the format [02.2f], whose width 2
    counts the whole field, so seconds below ten get no leading zero:
    [asstime(0)] is 0:00:0.00 and [asstime(3723.45)] is 1:02:3.45. *)
Theorem asstime_seconds_unpadded :
  asstime 0 = "0:00:0.00" /\ asstime (372345 # 100) = "1:02:3.45".
Proof. split; vm_compute; reflexivity. Qed.

(** ** Caption statement data *)

Lemma read_ucb_cons (b : byte) (f : list byte) :
  read.ucb (b :: f) = Ok (byte_val b, f).
Proof.
  unfold read.ucb, read.unsigned, read.buffer, rbind, ret, be_val; simpl.
  reflexivity.
Qed.

Lemma read_unsigned_app (n : nat) (bs f : list byte) :
  length bs = n -> read.unsigned n (bs ++ f)%list = Ok (be_val bs, f).
Proof.
  intros H. unfold read.unsigned, read.buffer, rbind, ret.
  rewrite length_app.
  replace (n <=? length bs + length f)%nat with true
    by (symmetry; apply Nat.leb_le; lia).
  subst n. rewrite firstn_app, Nat.sub_diag, firstn_all; simpl.
  rewrite app_nil_r, skipn_app, Nat.sub_diag, skipn_all; simpl.
  reflexivity.
Qed.

(** With TMD 1 or 2 the eight bytes after the TMD byte are read as one
    word d: STM is d >> 28 and the length kept is d & 0xFFFFFFFF. *)
Lemma CaptionStatementData_head_timed (b : byte) (bs f : list byte) :
  length bs = 8%nat ->
  Z.shiftr (byte_val b) 6 = 1 \/ Z.shiftr (byte_val b) 6 = 2 ->
  CaptionStatementData_head (b :: bs ++ f)%list
    = Ok ((Z.shiftr (byte_val b) 6, Z.shiftr (be_val bs) 28,
           Z.land (be_val bs) 0xFFFFFFFF), f).
Proof.
  intros Hlen Htmd. unfold CaptionStatementData_head, rbind at 1.
  rewrite read_ucb_cons.
  replace ((Z.shiftr (byte_val b) 6 =? 1) || (Z.shiftr (byte_val b) 6 =? 2))
    with true by (destruct Htmd as [-> | ->]; reflexivity).
  unfold rbind, read.ulb. rewrite (read_unsigned_app 8 bs f Hlen).
  reflexivity.
Qed.

(** C2. On the statement whose TMD is 1, STM is 1 and 24-bit length field
    is 5, the length kept is 268435461: the mask 0xFFFFFFFF keeps the low
    32 bits of the word, which hold the reserved bits and the low four bits
    of STM above the 24-bit field. *)
Theorem CaptionStatementData_head_keeps_32_bits :
  CaptionStatementData_head [x40; x00; x00; x00; x00; x10; x00; x00; x05]
    = Ok ((1, 1, 268435461), [])
  /\ Z.land (be_val [x00; x00; x00; x00; x10; x00; x00; x05]) 0xFFFFFF = 5.
Proof. split; vm_compute; reflexivity. Qed.

(** ** Caption management data: languages *)

(** The display mode kept is [d & 0x7], below 8, so the test against
    0b1100, 0b1101 and 0b1110 never holds: no DC byte is ever read, and a
    language record is read from exactly five bytes. *)
Lemma Language_init_never_reads_DC (f : list byte) (l : Language)
    (rest : list byte) :
  Language_init f = Ok (l, rest) ->
  _DC l = 0 /\ 0 <= _DMF l < 8 /\ length f = (5 + length rest)%nat.
Proof.
  destruct f as [|d f]; [discriminate|].
  unfold Language_init, rbind at 1. rewrite read_ucb_cons.
  assert (Hdmf : 0 <= Z.land (byte_val d) 7 < 8).
  { change 7 with (Z.ones 3). rewrite Z.land_ones by lia.
    apply Z.mod_pos_bound. reflexivity. }
  replace ((Z.land (byte_val d) 7 =? 12) || (Z.land (byte_val d) 7 =? 13)
           || (Z.land (byte_val d) 7 =? 14)) with false.
  2:{ symmetry. rewrite !orb_false_iff, !Z.eqb_neq. lia. }
  unfold rbind at 1, ret at 1.
  destruct f as [|c1 f]; [discriminate|].
  unfold rbind at 1. rewrite read_ucb_cons.
  destruct f as [|c2 f]; [discriminate|].
  unfold rbind at 1. rewrite read_ucb_cons.
  destruct f as [|c3 f]; [discriminate|].
  unfold rbind at 1. rewrite read_ucb_cons.
  destruct f as [|fm f]; [discriminate|].
  unfold rbind at 1. rewrite read_ucb_cons.
  unfold ret. intros H. injection H as <- <-.
  cbn [_DC _DMF Datatypes.length]. repeat split; lia.
Qed.

(** C7. On the record whose first byte is 0x0C (DMF 0b1100) followed by a
    DC byte 0x01 and the code jpn, the DMF kept is 4, no DC byte is read
    (DC is 0), and the DC byte is taken as the first character of the
    language code. *)
Theorem Language_init_skips_DC :
  Language_init [x0c; x01; x6a; x70; x6e; x00]
    = Ok (mkLanguage 0 4 0 (utf8 [1; 106; 112]%nat) 6 2, [x00]).
Proof. vm_compute. reflexivity. Qed.

(** ** The formatter: what the handlers keep *)

Arguments open_file : simpl never.
Arguments opened : simpl never.
Arguments announced : simpl never.

(** [open_file] leaves the opened formatter, or raises FileOpenError after
    its prints when the file is not open and cannot be opened. *)
Lemma open_file_cases (st : ASSFormatter) :
  (open_file st = Done (opened st) /\ can_write st = true)
  \/ (open_file st = Raised FileOpenError (announced st)
      /\ file_written st = false /\ writable st = false).
Proof.
  unfold open_file, opened, announced, can_write, file_written, ASSFile_init.
  destruct (_ass_file st) eqn:E.
  - left. split; reflexivity.
  - destruct (_verbose st); cbn [writable set_stdout];
      destruct (writable st); [left | right | left | right];
      repeat split; reflexivity.
Qed.

Lemma announced_lines (st : ASSFormatter) :
  _current_lines (announced st) = _current_lines st.
Proof. unfold announced. destruct (_verbose st); reflexivity. Qed.

Lemma announced_style (st : ASSFormatter) :
  _current_style (announced st) = _current_style st.
Proof. unfold announced. destruct (_verbose st); reflexivity. Qed.

Lemma announced_color (st : ASSFormatter) :
  _current_color (announced st) = _current_color st.
Proof. unfold announced. destruct (_verbose st); reflexivity. Qed.

Lemma announced_textsize (st : ASSFormatter) :
  _current_textsize (announced st) = _current_textsize st.
Proof. unfold announced. destruct (_verbose st); reflexivity. Qed.

Lemma announced_elapsed (st : ASSFormatter) :
  _elapsed_time_s (announced st) = _elapsed_time_s st.
Proof. unfold announced. destruct (_verbose st); reflexivity. Qed.

Lemma announced_tmax (st : ASSFormatter) : _tmax (announced st) = _tmax st.
Proof. unfold announced. destruct (_verbose st); reflexivity. Qed.

Lemma announced_file (st : ASSFormatter) :
  _ass_file (announced st) = _ass_file st.
Proof. unfold announced. destruct (_verbose st); reflexivity. Qed.

Lemma announced_written (st : ASSFormatter) :
  file_written (announced st) = file_written st.
Proof. unfold file_written. rewrite announced_file. reflexivity. Qed.

Lemma announced_filename (st : ASSFormatter) :
  _filename (announced st) = _filename st.
Proof. unfold announced. destruct (_verbose st); reflexivity. Qed.

Lemma announced_writable (st : ASSFormatter) :
  writable (announced st) = writable st.
Proof. unfold announced. destruct (_verbose st); reflexivity. Qed.

Lemma opened_lines (st : ASSFormatter) :
  _current_lines (opened st) = _current_lines st.
Proof.
  unfold opened. destruct (_ass_file st); [reflexivity|].
  apply announced_lines.
Qed.

Lemma opened_style (st : ASSFormatter) :
  _current_style (opened st) = _current_style st.
Proof.
  unfold opened. destruct (_ass_file st); [reflexivity|].
  apply announced_style.
Qed.

Lemma opened_color (st : ASSFormatter) :
  _current_color (opened st) = _current_color st.
Proof.
  unfold opened. destruct (_ass_file st); [reflexivity|].
  apply announced_color.
Qed.

Lemma opened_textsize (st : ASSFormatter) :
  _current_textsize (opened st) = _current_textsize st.
Proof.
  unfold opened. destruct (_ass_file st); [reflexivity|].
  apply announced_textsize.
Qed.

Lemma opened_elapsed (st : ASSFormatter) :
  _elapsed_time_s (opened st) = _elapsed_time_s st.
Proof.
  unfold opened. destruct (_ass_file st); [reflexivity|].
  apply announced_elapsed.
Qed.

Lemma opened_tmax (st : ASSFormatter) : _tmax (opened st) = _tmax st.
Proof.
  unfold opened. destruct (_ass_file st); [reflexivity|].
  apply announced_tmax.
Qed.

Lemma opened_writable (st : ASSFormatter) :
  writable (opened st) = writable st.
Proof.
  unfold opened. destruct (_ass_file st); [reflexivity|].
  apply announced_writable.
Qed.

Lemma opened_written (st : ASSFormatter) : file_written (opened st) = true.
Proof.
  unfold opened, file_written. destruct (_ass_file st) eqn:E.
  - rewrite E. reflexivity.
  - reflexivity.
Qed.

Lemma opened_filename (st : ASSFormatter) :
  _filename (opened st) = _filename st.
Proof.
  unfold opened. destruct (_ass_file st); [reflexivity|].
  apply announced_filename.
Qed.

Lemma file_chunks_announced (st : ASSFormatter) :
  file_chunks (announced st) = file_chunks st.
Proof. unfold file_chunks. rewrite announced_file. reflexivity. Qed.

(** The three chunks written when the file is opened are no Dialogue. *)
Lemma ASSFile_head_no_dialogue (filepath : string) :
  filter is_dialogue (written (ASSFile_head filepath)) = [].
Proof. reflexivity. Qed.

Lemma opened_dialogues (st : ASSFormatter) :
  filter is_dialogue (file_chunks (opened st))
  = filter is_dialogue (file_chunks st).
Proof.
  unfold opened, file_chunks. destruct (_ass_file st) eqn:E.
  - rewrite E. reflexivity.
  - cbn [_ass_file set_ass_file]. apply ASSFile_head_no_dialogue.
Qed.

Lemma file_chunks_set_current_lines v (st : ASSFormatter) :
  file_chunks (set_current_lines v st) = file_chunks st.
Proof. reflexivity. Qed.

Lemma file_chunks_set_current_style v (st : ASSFormatter) :
  file_chunks (set_current_style v st) = file_chunks st.
Proof. reflexivity. Qed.

Lemma file_chunks_set_current_color v (st : ASSFormatter) :
  file_chunks (set_current_color v st) = file_chunks st.
Proof. reflexivity. Qed.

Lemma file_chunks_set_current_textsize v (st : ASSFormatter) :
  file_chunks (set_current_textsize v st) = file_chunks st.
Proof. reflexivity. Qed.

Lemma file_chunks_set_elapsed_time_s v (st : ASSFormatter) :
  file_chunks (set_elapsed_time_s v st) = file_chunks st.
Proof. reflexivity. Qed.

Create Rewrite HintDb formatter.

#[local] Hint Rewrite opened_lines opened_style opened_color
  opened_textsize opened_elapsed opened_tmax opened_written
  opened_writable announced_lines announced_style announced_color
  announced_textsize announced_elapsed announced_tmax announced_written
  announced_writable file_chunks_announced
  file_chunks_set_current_lines file_chunks_set_current_style
  file_chunks_set_current_color file_chunks_set_current_textsize
  file_chunks_set_elapsed_time_s opened_dialogues : formatter.

(** Unfold the handler of the goal; where it opens the file, go through
    the two ways [open_file] ends. *)
Ltac unfold_handlers :=
  unfold handle, kanji, alphanumeric, hiragana, katakana, medium, normal,
    small, space, drcs, black, red, green, yellow, blue, magenta, cyan,
    white, colour, position_set, control_character;
  try match goal with
      | |- context [open_file ?x] =>
          let Hof := fresh "Hof" in
          let Hcw := fresh "Hcw" in
          let Hfw := fresh "Hfw" in
          let Hw := fresh "Hw" in
          destruct (open_file_cases x) as [[Hof Hcw] | [Hof [Hfw Hw]]];
          rewrite Hof; clear Hof
      end;
  unfold and_then, iadd_last.

Ltac split_lines :=
  repeat match goal with
         | |- context [match _current_lines ?x with _ => _ end] =>
             let E := fresh "Elines" in destruct (_current_lines x) eqn:E
         | |- context [match Regex.a_search ?x with _ => _ end] =>
             destruct (Regex.a_search x) as [[? ?]|]
         end.

Lemma caption_eq_CS (c : caption) : c = CS \/ c <> CS.
Proof. destruct c; (left; reflexivity) || (right; discriminate). Qed.

(** A token other than clear screen leaves the clock, the cap and the
    Dialogue events of the file as they are. *)
Lemma handle_frame (st : ASSFormatter) (c : caption) (t : Q) :
  c <> CS ->
  _elapsed_time_s (final (handle st c t)) = _elapsed_time_s st
  /\ _tmax (final (handle st c t)) = _tmax st
  /\ dialogues (final (handle st c t)) = dialogues st.
Proof.
  intros Hc. unfold dialogues.
  destruct c; try congruence; unfold_handlers; split_lines;
    cbn [final set_current_lines set_current_style set_current_color
         set_current_textsize _elapsed_time_s _tmax];
    autorewrite with formatter; auto.
Qed.

Lemma is_dialogue_dialogue_line (s e l : string) :
  is_dialogue (dialogue_line s e l) = true.
Proof. reflexivity. Qed.

Lemma filter_dialogue_lines (s e : string) (ls : list string) :
  filter is_dialogue (map (dialogue_line s e) ls) = map (dialogue_line s e) ls.
Proof.
  induction ls as [|l ls IH]; [reflexivity|].
  cbn [map filter]. rewrite is_dialogue_dialogue_line, IH. reflexivity.
Qed.

(** The loop of clear screen: what it writes, and what it keeps. *)
Lemma flush_lines_chunks (s e : string) (ls : list Dialog) (st : ASSFormatter) :
  file_chunks (fold_left (flush_line s e) ls st)
  = (file_chunks st
     ++ (if file_written st
         then map (dialogue_line s e) (filter nonempty ls) else []))%list.
Proof.
  revert st. induction ls as [|l ls IH]; intros st.
  - cbn [fold_left filter map]. destruct (file_written st);
      rewrite app_nil_r; reflexivity.
  - cbn [fold_left filter]. rewrite IH. unfold flush_line, nonempty.
    destruct (String.length l =? 0)%nat; cbn [negb]; [reflexivity|].
    unfold file_written, file_chunks. destruct (_ass_file st) as [f|] eqn:E;
      cbn [_ass_file set_current_lines set_ass_file]; rewrite ?E.
    + cbn [ASSFile_write written map]. rewrite <- app_assoc. reflexivity.
    + reflexivity.
Qed.

Lemma flush_lines_keeps (s e : string) (ls : list Dialog) (st : ASSFormatter) :
  _elapsed_time_s (fold_left (flush_line s e) ls st) = _elapsed_time_s st
  /\ _tmax (fold_left (flush_line s e) ls st) = _tmax st
  /\ _current_style (fold_left (flush_line s e) ls st) = _current_style st
  /\ file_written (fold_left (flush_line s e) ls st) = file_written st
  /\ (_current_lines st <> [] ->
      _current_lines (fold_left (flush_line s e) ls st) <> []).
Proof.
  revert st. induction ls as [|l ls IH]; intros st.
  - cbn [fold_left]. auto.
  - cbn [fold_left]. destruct (IH (flush_line s e st l)) as (H1 & H2 & H3 & H4 & H5).
    rewrite H1, H2, H3, H4. unfold flush_line in *.
    destruct (String.length l =? 0)%nat; [auto|].
    unfold file_written in *.
    destruct (_ass_file st) eqn:E; cbn in *; rewrite ?E;
      repeat split; auto; intros _; apply H5; discriminate.
Qed.

(** What a clear screen does to the Dialogue events of the file. *)
Lemma clear_screen_dialogues (st : ASSFormatter) (t : Q) :
  dialogues (final (clear_screen st t))
  = (dialogues st ++ map render (flushed st t))%list.
Proof.
  unfold clear_screen, flushed, dialogues.
  destruct (_current_lines st) as [|l0 ls] eqn:E.
  - cbn [final rev filter map]. destruct (_ && _); rewrite app_nil_r; reflexivity.
  - cbn [final]. autorewrite with formatter.
    replace (negb (length (l0 :: ls) =? 0)%nat) with true by reflexivity.
    rewrite orb_true_r, andb_true_l. fold (times_differ st t).
    destruct (times_differ st t).
    + rewrite flush_lines_chunks, filter_app.
      destruct (file_written st); cbn [andb].
      * rewrite filter_dialogue_lines, map_map. reflexivity.
      * reflexivity.
    + rewrite andb_false_r, app_nil_r. reflexivity.
Qed.

Lemma clear_screen_clock (st : ASSFormatter) (t : Q) :
  _current_lines st <> [] ->
  exists st', clear_screen st t = Done st'
    /\ _elapsed_time_s st' = t /\ _tmax st' = _tmax st
    /\ _current_lines st' <> [].
Proof.
  intros Hl. unfold clear_screen.
  destruct (_current_lines st) as [|l0 ls] eqn:E; [congruence|].
  eexists; split; [reflexivity|].
  cbn [_elapsed_time_s _tmax _current_lines set_current_color
       set_current_textsize set_elapsed_time_s].
  destruct (_ && _).
  - destruct (flush_lines_keeps (asstime (_elapsed_time_s st))
                (asstime (end_seconds st t)) (rev (l0 :: ls)) st)
      as (_ & H2 & _ & _ & H5).
    repeat split; auto. apply H5. congruence.
  - repeat split; auto. congruence.
Qed.

Lemma format_single (st : ASSFormatter) (c : caption) (t : Q) :
  format st [c] t = handle st c t.
Proof. cbn [format]. destruct (handle st c t); reflexivity. Qed.

(** The Dialogue events of the file after a sequence of tokens are those it
    had, followed by the events of the clear screens, formatted. *)
Lemma feed_dialogues (tokens : list (caption * Q)) (st : ASSFormatter) :
  dialogues (final (feed st tokens))
  = (dialogues st ++ map render (events st tokens))%list.
Proof.
  revert st. induction tokens as [|[c t] tokens IH]; intros st.
  - cbn [feed final events map]. rewrite app_nil_r. reflexivity.
  - cbn [feed events]. rewrite format_single, map_app, app_assoc.
    assert (Hstep : dialogues (final (handle st c t))
                    = (dialogues st
                       ++ map render (match c with
                                      | CS => flushed st t
                                      | _ => []
                                      end))%list).
    { destruct (caption_eq_CS c) as [-> | Hc].
      - apply clear_screen_dialogues.
      - destruct (handle_frame st c t Hc) as (_ & _ & ->).
        destruct c; try congruence; cbn [map]; rewrite app_nil_r; reflexivity. }
    rewrite <- Hstep.
    destruct (handle st c t) as [st'|e st']; cbn [and_then final].
    + apply IH.
    + cbn [map]. rewrite app_nil_r. reflexivity.
Qed.

Lemma snoc_not_nil {A : Type} (l : list A) (a : A) : (l ++ [a])%list <> [].
Proof. destruct l; discriminate. Qed.

(** ** Dialogue events and clear screens *)

Lemma flushed_length (st : ASSFormatter) (t : Q) :
  length (flushed st t) = buffers_written st t.
Proof.
  unfold flushed, buffers_written.
  destruct (file_written st && times_differ st t); [|reflexivity].
  rewrite length_map, filter_rev, length_rev. reflexivity.
Qed.

Lemma events_length (tokens : list (caption * Q)) (st : ASSFormatter) :
  length (events st tokens) = sum_at_clear buffers_written st tokens.
Proof.
  revert st. induction tokens as [|[c t] tokens IH]; intros st.
  - reflexivity.
  - cbn [events sum_at_clear]. rewrite length_app. f_equal.
    + destruct c; try reflexivity. apply flushed_length.
    + destruct (handle st c t); [apply IH | reflexivity].
Qed.

(** C4. The number of Dialogue lines a sequence of tokens adds to the file
    is the sum, over its clear screens that find the file open and the
    formatted start time different from the formatted end time, of the
    number of non-empty buffers at that moment: a clear screen writes one
    Dialogue line per non-empty buffer. *)
Theorem dialogue_count_per_buffer (st : ASSFormatter)
    (tokens : list (caption * Q)) :
  length (dialogues (final (feed st tokens)))
  = (length (dialogues st) + sum_at_clear buffers_written st tokens)%nat.
Proof.
  rewrite feed_dialogues, length_app, length_map, events_length.
  reflexivity.
Qed.

(** Two buffers and one clear screen: two Dialogue lines, where counting
    the clear screens with content and distinct times gives one. *)
Lemma dialogue_count_two_buffers :
  length (dialogues
            (final (feed (ASSFormatter_init 5 "out.ass" false true)
                      two_buffer_tokens))) = 2%nat
  /\ sum_at_clear has_content (ASSFormatter_init 5 "out.ass" false true)
       two_buffer_tokens = 1%nat
  /\ length (dialogues
               (final (feed (ASSFormatter_init 5 "out.ass" false true)
                         two_buffer_tokens)))
     <> sum_at_clear has_content (ASSFormatter_init 5 "out.ass" false true)
          two_buffer_tokens.
Proof. vm_compute. repeat split; discriminate. Qed.

(** ** Streams that never open the file *)

Lemma string_length_app (s1 s2 : string) :
  String.length (s1 ++ s2) = (String.length s1 + String.length s2)%nat.
Proof.
  induction s1 as [|a s1 IH]; [reflexivity|].
  cbn [String.append String.length]. rewrite IH. reflexivity.
Qed.

Lemma handle_keeps_file (st : ASSFormatter) (c : caption) (t : Q) :
  opens_file c = false ->
  file_written (final (handle st c t)) = file_written st.
Proof.
  intros Hc. destruct c; try discriminate Hc.
  - unfold_handlers; split_lines; reflexivity.
  - unfold_handlers; reflexivity.
  - cbn [handle]. unfold clear_screen.
    destruct (_current_lines st) as [|l0 ls]; [reflexivity|].
    cbn [final]. destruct (_ && _); [|reflexivity].
    change (file_written (set_current_color ?c (set_current_textsize ?z
              (set_elapsed_time_s ?t ?f)))) with (file_written f).
    apply flush_lines_keeps.
  - unfold_handlers; split_lines; reflexivity.
  - reflexivity.
Qed.

Lemma feed_keeps_file (tokens : list (caption * Q)) (st : ASSFormatter) :
  forallb (fun ct => negb (opens_file (fst ct))) tokens = true ->
  file_written (final (feed st tokens)) = file_written st.
Proof.
  revert st. induction tokens as [|[c t] tokens IH]; intros st H.
  - reflexivity.
  - cbn [forallb fst] in H. apply andb_true_iff in H. destruct H as [Hc H].
    apply negb_true_iff in Hc.
    cbn [feed]. rewrite format_single.
    rewrite <- (handle_keeps_file st c t Hc).
    destruct (handle st c t) as [st'|e st']; cbn [and_then final].
    + apply IH, H.
    + reflexivity.
Qed.

(** C10. The DRCS handler appends to the current line buffer without
    opening the output file, and so do the positioning handlers; a clear
    screen writes only to an open file.  Hence a sequence of tokens made of
    DRCS characters, APS, CSI, clear screens and unhandled tokens only (no
    character, space, size or colour token, each of which opens the file),
    fed to a formatter whose file is not open, leaves the file unopened and
    no Dialogue line emitted, though a DRCS character leaves the current
    buffer non-empty. *)
Theorem drcs_only_stream_writes_nothing (st : ASSFormatter)
    (tokens : list (caption * Q)) :
  file_written st = false ->
  forallb (fun ct => negb (opens_file (fst ct))) tokens = true ->
  file_written (final (feed st tokens)) = false
  /\ dialogues (final (feed st tokens)) = []
  /\ forall n glyph t,
       _current_lines st <> [] ->
       exists st', handle st (DRCS n glyph) t = Done st'
         /\ file_written st' = false
         /\ existsb nonempty (_current_lines st') = true.
Proof.
  intros Hf Htok.
  assert (Hfinal : file_written (final (feed st tokens)) = false)
    by (rewrite feed_keeps_file; assumption).
  split; [exact Hfinal|]. split.
  - unfold dialogues, file_chunks. unfold file_written in Hfinal.
    destruct (_ass_file (final (feed st tokens))); [discriminate|reflexivity].
  - intros n glyph t Hl. unfold_handlers.
    destruct (_current_lines st) as [|l0 ls] eqn:E; [congruence|].
    eexists. split; [reflexivity|]. split; [exact Hf|].
    cbn [_current_lines set_current_lines].
    rewrite existsb_app. cbn [existsb]. unfold nonempty at 2.
    rewrite string_length_app. cbn [String.length replacement_character].
    rewrite Nat.add_comm. cbn. apply orb_true_r.
Qed.

Lemma drcs_only_stream_writes_nothing_witness :
  file_written (ASSFormatter_init 5 "out.ass" false true) = false
  /\ forallb (fun ct => negb (opens_file (fst ct))) drcs_only_tokens = true
  /\ file_written
       (final (feed (ASSFormatter_init 5 "out.ass" false true) drcs_only_tokens))
     = false
  /\ dialogues
       (final (feed (ASSFormatter_init 5 "out.ass" false true) drcs_only_tokens))
     = [].
Proof.
  split; [reflexivity|]. split; [reflexivity|].
  destruct (drcs_only_stream_writes_nothing
              (ASSFormatter_init 5 "out.ass" false true) drcs_only_tokens
              eq_refl eq_refl) as (H1 & H2 & _).
  split; assumption.
Defined.

(** A size token is no printable content, yet it opens the file: the DRCS
    character that follows it is written at the clear screen. *)
Lemma drcs_after_size_token_is_written :
  forallb (fun ct => negb (printable_not_drcs (fst ct))) size_drcs_tokens = true
  /\ file_written
       (final (feed (ASSFormatter_init 5 "out.ass" false true) size_drcs_tokens))
     = true
  /\ dialogues
       (final (feed (ASSFormatter_init 5 "out.ass" false true) size_drcs_tokens))
     = [dialogue_line "0:00:0.00" "0:00:1.00"
          ("{\rsmall}{\c&Hffffff&}" ++ replacement_character)].
Proof. vm_compute. repeat split. Qed.

(** ** Comparisons, truncation and prefixes *)

Lemma ltb_lt (x y : Q) : Py.ltb x y = true <-> (x < y)%Q.
Proof.
  unfold Py.ltb. rewrite Qlt_alt. destruct (x ?= y)%Q; split; congruence.
Qed.

Lemma ltb_ge (x y : Q) : Py.ltb x y = false <-> (y <= x)%Q.
Proof.
  split; intros H.
  - apply Qnot_lt_le. intros Hlt. apply ltb_lt in Hlt. congruence.
  - destruct (Py.ltb x y) eqn:E; [|reflexivity].
    apply ltb_lt in E. lra.
Qed.

Lemma int_of_floor (q : Q) : (0 <= q)%Q -> Py.int_of q = Qfloor q.
Proof.
  intros H. destruct q as [n d]. unfold Py.int_of, Qfloor. cbn [Qnum Qden].
  apply Z.quot_div_nonneg; [|reflexivity].
  unfold Qle in H. cbn in H. lia.
Qed.

Lemma strip_app (p r : string) : Regex.strip p (p ++ r) = Some r.
Proof.
  induction p as [|a p IH]; [reflexivity|].
  cbn [String.append Regex.strip]. rewrite Ascii.eqb_refl. exact IH.
Qed.

(** ** Python floats: rounding *)

(** Name the integers seen as rationals, for [lra]. *)
Ltac name_injections :=
  repeat match goal with
         | |- context [inject_Z ?z] =>
             lazymatch z with
             | Z0 => fail
             | Zpos ?p => is_var p
             | Zneg ?p => is_var p
             | _ => idtac
             end;
             tryif is_var z then fail
             else (let x := fresh "iz" in set (x := z) in * )
         | H : context [inject_Z ?z] |- _ =>
             lazymatch z with
             | Z0 => fail
             | Zpos ?p => is_var p
             | Zneg ?p => is_var p
             | _ => idtac
             end;
             tryif is_var z then fail
             else (let x := fresh "iz" in set (x := z) in * )
         end.

Ltac qlra := name_injections; lra.

Lemma Qcompare_cases (x y : Q) :
  match (x ?= y)%Q with
  | Eq => (x == y)%Q
  | Lt => (x < y)%Q
  | Gt => (y < x)%Q
  end.
Proof.
  destruct (x ?= y)%Q eqn:E.
  - apply Qeq_alt, E.
  - apply Qlt_alt, E.
  - apply Qgt_alt, E.
Qed.

Lemma round_half_even_near (q : Q) :
  (q - (1 # 2) <= inject_Z (Py.round_half_even q) <= q + (1 # 2))%Q.
Proof.
  unfold Py.round_half_even.
  pose proof (Qfloor_le q) as Hlo. pose proof (Qlt_floor q) as Hhi.
  rewrite inject_Z_plus in Hhi. change (inject_Z 1) with 1%Q in Hhi.
  pose proof (Qcompare_cases ((q - inject_Z (Qfloor q)) * 2) 1) as E.
  destruct (((q - inject_Z (Qfloor q)) * 2 ?= 1)%Q).
  - destruct (Z.even (Qfloor q)); [|rewrite inject_Z_plus;
                                     change (inject_Z 1) with 1%Q]; qlra.
  - qlra.
  - rewrite inject_Z_plus. change (inject_Z 1) with 1%Q. qlra.
Qed.

Lemma round_half_even_Z (z : Z) : Py.round_half_even (inject_Z z) = z.
Proof.
  unfold Py.round_half_even. rewrite Qfloor_Z.
  replace (((inject_Z z - inject_Z z) * 2 ?= 1)%Q) with Lt; [reflexivity|].
  symmetry. apply (proj1 (Qlt_alt _ _)). lra.
Qed.

Lemma round_half_even_le (x y : Q) :
  (x <= y)%Q -> Py.round_half_even x <= Py.round_half_even y.
Proof.
  intros Hxy.
  pose proof (Qfloor_resp_le x y Hxy) as Hfl.
  pose proof (Qfloor_le x) as Hx1. pose proof (Qlt_floor x) as Hx2.
  pose proof (Qfloor_le y) as Hy1. pose proof (Qlt_floor y) as Hy2.
  rewrite inject_Z_plus in Hx2, Hy2. change (inject_Z 1) with 1%Q in Hx2, Hy2.
  unfold Py.round_half_even.
  destruct (Z.eq_dec (Qfloor x) (Qfloor y)) as [He | Hne].
  - rewrite <- He in *.
    pose proof (Qcompare_cases ((x - inject_Z (Qfloor x)) * 2) 1) as Ex.
    pose proof (Qcompare_cases ((y - inject_Z (Qfloor x)) * 2) 1) as Ey.
    destruct (((x - inject_Z (Qfloor x)) * 2 ?= 1)%Q);
      destruct (((y - inject_Z (Qfloor x)) * 2 ?= 1)%Q);
      try (destruct (Z.even (Qfloor x))); try lia; exfalso; qlra.
  - assert (Hlt : Qfloor x + 1 <= Qfloor y) by lia.
    destruct (((x - inject_Z (Qfloor x)) * 2 ?= 1)%Q);
      destruct (((y - inject_Z (Qfloor y)) * 2 ?= 1)%Q);
      try (destruct (Z.even (Qfloor x))); try (destruct (Z.even (Qfloor y)));
      lia.
Qed.

Lemma pow2_pos (k : Z) : (0 < Float.pow2 k)%Q.
Proof. apply Qpower_0_lt. reflexivity. Qed.

Lemma pow2_plus (a b : Z) :
  (Float.pow2 (a + b) == Float.pow2 a * Float.pow2 b)%Q.
Proof. apply Qpower_plus. discriminate. Qed.

Lemma pow2_le (a b : Z) : a <= b -> (Float.pow2 a <= Float.pow2 b)%Q.
Proof. intros H. apply Qpower_le_compat_l; [exact H | discriminate]. Qed.

Lemma pow2_Z (k : Z) : 0 <= k -> (Float.pow2 k == inject_Z (2 ^ k))%Q.
Proof. intros H. symmetry. apply (Zpower_Qpower 2 k H). Qed.

Lemma pow2_succ (k : Z) : (Float.pow2 (k + 1) == 2 * Float.pow2 k)%Q.
Proof. rewrite pow2_plus. change (Float.pow2 1) with 2%Q. ring. Qed.

(** [ilog2 q] is the exponent of q. *)
Lemma ilog2_spec (q : Q) :
  (0 < q)%Q ->
  (Float.pow2 (Float.ilog2 q) <= q)%Q /\ (q < Float.pow2 (Float.ilog2 q + 1))%Q.
Proof.
  intros Hq. destruct q as [n d].
  assert (Hn : 0 < n) by (unfold Qlt in Hq; cbn in Hq; lia).
  unfold Float.ilog2. cbn [Qnum Qden].
  set (a := Z.log2 n). set (b := Z.log2 (Z.pos d)).
  assert (Ha : 2 ^ a <= n < 2 ^ (a + 1))
    by (unfold a; pose proof (Z.log2_spec n Hn); lia).
  assert (Hb : 2 ^ b <= Z.pos d < 2 ^ (b + 1))
    by (unfold b; pose proof (Z.log2_spec (Z.pos d) eq_refl); lia).
  assert (Ha0 : 0 <= a) by apply Z.log2_nonneg.
  assert (Hb0 : 0 <= b) by apply Z.log2_nonneg.
  assert (HA : (Float.pow2 a <= inject_Z n)%Q
               /\ (inject_Z n < 2 * Float.pow2 a)%Q).
  { rewrite <- pow2_succ, !pow2_Z by lia. rewrite <- Zle_Qle, <- Zlt_Qlt. exact Ha. }
  assert (HB : (Float.pow2 b <= inject_Z (Z.pos d))%Q
               /\ (inject_Z (Z.pos d) < 2 * Float.pow2 b)%Q).
  { rewrite <- pow2_succ, !pow2_Z by lia. rewrite <- Zle_Qle, <- Zlt_Qlt. exact Hb. }
  assert (Hk : (Float.pow2 (a - b) * Float.pow2 b == Float.pow2 a)%Q).
  { rewrite <- pow2_plus. replace (a - b + b) with a by lia. reflexivity. }
  assert (Hq' : (n # d == inject_Z n / inject_Z (Z.pos d))%Q)
    by apply Qmake_Qdiv.
  assert (Hd : (0 < inject_Z (Z.pos d))%Q) by reflexivity.
  pose proof (pow2_pos (a - b)) as Hp. pose proof (pow2_pos b) as Hpb.
  pose proof (pow2_pos a) as Hpa.
  assert (Hup : (n # d < 2 * Float.pow2 (a - b))%Q).
  { rewrite Hq'. apply Qlt_shift_div_r; [exact Hd|].
    apply Qlt_le_trans with (2 * Float.pow2 a)%Q; [apply HA|].
    rewrite <- Hk.
    setoid_replace (2 * (Float.pow2 (a - b) * Float.pow2 b))%Q
      with (2 * Float.pow2 (a - b) * Float.pow2 b)%Q by ring.
    apply Qmult_le_l; [lra | apply HB]. }
  assert (Hdown : (Float.pow2 (a - b) <= 2 * (n # d))%Q).
  { rewrite Hq'.
    setoid_replace (2 * (inject_Z n / inject_Z (Z.pos d)))%Q
      with (2 * inject_Z n / inject_Z (Z.pos d))%Q by (field; lra).
    apply Qle_shift_div_l; [exact Hd|].
    apply Qle_trans with (Float.pow2 (a - b) * (2 * Float.pow2 b))%Q.
    - apply Qmult_le_l; [exact Hp | lra].
    - setoid_replace (Float.pow2 (a - b) * (2 * Float.pow2 b))%Q
        with (2 * (Float.pow2 (a - b) * Float.pow2 b))%Q by ring.
      rewrite Hk. lra. }
  destruct (Qle_bool (Float.pow2 (a - b)) (n # d)) eqn:E.
  - apply Qle_bool_iff in E. split; [exact E|]. rewrite pow2_succ. exact Hup.
  - assert (Hlt : (n # d < Float.pow2 (a - b))%Q).
    { apply Qnot_le_lt. intros H. apply Qle_bool_iff in H. congruence. }
    replace (a - b - 1 + 1) with (a - b) by lia.
    split; [|exact Hlt].
    assert (H2 : (Float.pow2 (a - b) == 2 * Float.pow2 (a - b - 1))%Q).
    { rewrite <- pow2_succ. replace (a - b - 1 + 1) with (a - b) by lia.
      reflexivity. }
    lra.
Qed.

Lemma round_pos_parts (q : Q) :
  (0 < q)%Q ->
  exists (m : Z) (p : Q),
    (Float.round_pos q == inject_Z m * p)%Q
    /\ (0 < p)%Q
    /\ (p == Float.pow2 (Float.ilog2 q - 52))%Q
    /\ 4503599627370496 <= m <= 9007199254740992
    /\ (q - p * (1 # 2) <= inject_Z m * p <= q + p * (1 # 2))%Q
    /\ (4503599627370496 * p <= q)%Q
    /\ (q < 9007199254740992 * p)%Q
    /\ m = Py.round_half_even (q / p).
Proof.
  intros Hq. unfold Float.round_pos.
  set (p := Float.pow2 (Float.ilog2 q - 52)).
  set (m := Py.round_half_even (q / p)).
  assert (Hp : (0 < p)%Q) by apply pow2_pos.
  destruct (ilog2_spec q Hq) as [Hlo Hhi].
  assert (HL : (Float.pow2 (Float.ilog2 q) == 4503599627370496 * p)%Q).
  { unfold p. change 4503599627370496%Q with (Float.pow2 52).
    rewrite <- pow2_plus. replace (52 + (Float.ilog2 q - 52)) with (Float.ilog2 q)
      by lia. reflexivity. }
  rewrite pow2_succ, HL in Hhi. rewrite HL in Hlo.
  assert (Hx : (q == q / p * p)%Q) by (field; lra).
  assert (Hx1 : (4503599627370496 <= q / p)%Q)
    by (apply Qle_shift_div_l; [exact Hp | exact Hlo]).
  assert (Hx2 : (q / p <= 9007199254740992)%Q)
    by (apply Qle_shift_div_r; [exact Hp | lra]).
  pose proof (round_half_even_near (q / p)) as Hnear. fold m in Hnear.
  pose proof (round_half_even_le _ _ Hx1) as Hm1.
  pose proof (round_half_even_le _ _ Hx2) as Hm2. fold m in Hm1, Hm2.
  change 4503599627370496%Q with (inject_Z 4503599627370496) in Hm1.
  change 9007199254740992%Q with (inject_Z 9007199254740992) in Hm2.
  rewrite round_half_even_Z in Hm1, Hm2.
  exists m, p. split; [reflexivity|]. split; [exact Hp|].
  split; [reflexivity|]. split; [lia|]. split.
  - destruct Hnear as [Hn1 Hn2].
    apply (Qmult_le_compat_r _ _ p) in Hn1; [|lra].
    apply (Qmult_le_compat_r _ _ p) in Hn2; [|lra].
    split.
    + setoid_replace (q - p * (1 # 2))%Q with ((q / p - (1 # 2)) * p)%Q
        by (field; lra). exact Hn1.
    + setoid_replace (q + p * (1 # 2))%Q with ((q / p + (1 # 2)) * p)%Q
        by (field; lra). exact Hn2.
  - split; [exact Hlo|]. split; [lra | reflexivity].
Qed.

Lemma round_pos_near (q : Q) :
  (0 < q)%Q ->
  (q * (1 - half_ulp) <= Float.round_pos q <= q * (1 + half_ulp))%Q.
Proof.
  intros Hq.
  destruct (round_pos_parts q Hq) as (m & p & -> & Hp & _ & _ & Hn & Hlo & _).
  unfold half_ulp. set (x := (inject_Z m * p)%Q) in *. lra.
Qed.

Lemma round_pos_range (q : Q) :
  (0 < q)%Q ->
  (Float.pow2 (Float.ilog2 q) <= Float.round_pos q
   <= Float.pow2 (Float.ilog2 q + 1))%Q.
Proof.
  intros Hq.
  destruct (round_pos_parts q Hq) as (m & p & -> & Hp & Hpe & Hm & _).
  assert (HL : (Float.pow2 (Float.ilog2 q) == 4503599627370496 * p)%Q).
  { rewrite Hpe. change 4503599627370496%Q with (Float.pow2 52).
    rewrite <- pow2_plus. replace (52 + (Float.ilog2 q - 52)) with (Float.ilog2 q)
      by lia. reflexivity. }
  rewrite pow2_succ, HL.
  destruct Hm as [Hm1 Hm2]. rewrite Zle_Qle in Hm1, Hm2.
  change (inject_Z 4503599627370496) with 4503599627370496%Q in Hm1.
  change (inject_Z 9007199254740992) with 9007199254740992%Q in Hm2.
  apply (Qmult_le_compat_r _ _ p) in Hm1; [|lra].
  apply (Qmult_le_compat_r _ _ p) in Hm2; [|lra].
  set (x := (inject_Z m * p)%Q) in *. lra.
Qed.

Lemma round_pos_le (x y : Q) :
  (0 < x)%Q -> (x <= y)%Q -> (Float.round_pos x <= Float.round_pos y)%Q.
Proof.
  intros Hx Hxy. assert (Hy : (0 < y)%Q) by lra.
  destruct (ilog2_spec x Hx) as [Hx1 Hx2].
  destruct (ilog2_spec y Hy) as [Hy1 Hy2].
  assert (Hle : Float.ilog2 x <= Float.ilog2 y).
  { destruct (Z_le_gt_dec (Float.ilog2 x) (Float.ilog2 y)) as [H | H];
      [exact H|].
    pose proof (pow2_le (Float.ilog2 y + 1) (Float.ilog2 x) ltac:(lia)). lra. }
  destruct (Z.eq_dec (Float.ilog2 x) (Float.ilog2 y)) as [He | Hne].
  - destruct (round_pos_parts x Hx) as (mx & px & -> & Hpx & Hpxe & _ & _ & _ & _ & Hmx).
    destruct (round_pos_parts y Hy) as (my & py & -> & Hpy & Hpye & _ & _ & _ & _ & Hmy).
    assert (Hp : (px == py)%Q) by (rewrite Hpxe, Hpye, He; reflexivity).
    rewrite Hp.
    apply Qmult_le_compat_r; [|lra].
    rewrite <- Zle_Qle. rewrite Hmx, Hmy. apply round_half_even_le.
    rewrite Hp. apply Qmult_le_compat_r; [exact Hxy|].
    apply Qlt_le_weak, Qinv_lt_0_compat, Hpy.
  - pose proof (round_pos_range x Hx) as [_ Hrx].
    pose proof (round_pos_range y Hy) as [Hry _].
    pose proof (pow2_le (Float.ilog2 x + 1) (Float.ilog2 y) ltac:(lia)). lra.
Qed.

Lemma round_value (q : Q) :
  (Float.round q == match (q ?= 0)%Q with
                    | Eq => 0
                    | Gt => Float.round_pos q
                    | Lt => - Float.round_pos (- q)
                    end)%Q.
Proof. unfold Float.round. apply Qred_correct. Qed.

Lemma round_pos_pos (q : Q) : (0 < q)%Q -> (0 < Float.round_pos q)%Q.
Proof.
  intros Hq. pose proof (round_pos_range q Hq) as [H _].
  pose proof (pow2_pos (Float.ilog2 q)). lra.
Qed.

(** Rounding keeps the order. *)
Lemma round_le (x y : Q) : (x <= y)%Q -> (Float.round x <= Float.round y)%Q.
Proof.
  intros Hxy. rewrite (round_value x), (round_value y).
  pose proof (Qcompare_cases x 0) as Hx. pose proof (Qcompare_cases y 0) as Hy.
  destruct (x ?= 0)%Q; destruct (y ?= 0)%Q; try lra.
  - pose proof (round_pos_pos y Hy). lra.
  - pose proof (round_pos_pos (- x) ltac:(lra)). lra.
  - assert (H : (Float.round_pos (- y) <= Float.round_pos (- x))%Q)
      by (apply round_pos_le; lra).
    lra.
  - pose proof (round_pos_pos (- x) ltac:(lra)).
    pose proof (round_pos_pos y Hy). lra.
  - apply round_pos_le; lra.
Qed.

(** A rounding is off by 2^-53 of the number at most. *)
Lemma round_near (q : Q) :
  (0 <= q)%Q ->
  (q * (1 - half_ulp) <= Float.round q <= q * (1 + half_ulp))%Q.
Proof.
  intros Hq. rewrite (round_value q).
  pose proof (Qcompare_cases q 0) as H.
  destruct (q ?= 0)%Q.
  - unfold half_ulp. lra.
  - lra.
  - apply round_pos_near, H.
Qed.

Lemma round_nonneg (q : Q) : (0 <= q)%Q -> (0 <= Float.round q)%Q.
Proof.
  intros Hq. pose proof (round_near q Hq) as [H _]. unfold half_ulp in H. lra.
Qed.

(** ** Reading a time of the file back *)

Lemma span_digits_app (d r : string) :
  all_digits d = true ->
  match r with
  | EmptyString => True
  | String c _ => is_ascii_digit c = false
  end ->
  span_digits (d ++ r) = (d, r).
Proof.
  intros Hd Hr. induction d as [|c d IH].
  - cbn [String.append]. destruct r as [|c r]; [reflexivity|].
    cbn [span_digits]. rewrite Hr. reflexivity.
  - cbn [all_digits] in Hd. apply andb_true_iff in Hd. destruct Hd as [Hc Hd].
    cbn [String.append span_digits]. rewrite Hc, (IH Hd). reflexivity.
Qed.

Lemma string_of_uint_digits (u : Decimal.uint) :
  all_digits (NilEmpty.string_of_uint u) = true.
Proof. induction u; cbn [NilEmpty.string_of_uint all_digits]; auto. Qed.

(** The text of an int that is not negative: digits, at least one, that
    write it. *)
Lemma str_int_digits (z : Z) :
  0 <= z ->
  all_digits (Py.str_int z) = true
  /\ Py.str_int z <> ""
  /\ digits_value (Py.str_int z) = Some z.
Proof.
  intros Hz. unfold Py.str_int, digits_value.
  pose proof (DecimalZ.of_to z) as Hof.
  destruct z as [|p|p]; [| |lia]; cbn [Z.to_int NilEmpty.string_of_int] in *.
  - repeat split. discriminate.
  - split; [apply string_of_uint_digits|]. split.
    + destruct (Pos.to_uint p) eqn:E; cbn; discriminate.
    + rewrite NilEmpty.usu. cbn [option_map]. f_equal. exact Hof.
Qed.

Lemma number_then_app (lit d r : string) (v : Z) :
  all_digits d = true -> d <> "" -> digits_value d = Some v ->
  match lit ++ r with
  | EmptyString => True
  | String c _ => is_ascii_digit c = false
  end ->
  number_then lit (d ++ lit ++ r) = Some (v, String.length d, r).
Proof.
  intros Hd Hne Hv Hlit. unfold number_then.
  rewrite (span_digits_app d (lit ++ r) Hd Hlit).
  destruct d as [|x d]; [congruence|].
  rewrite Hv, strip_app. reflexivity.
Qed.

(** A time written as digits is read back as the number it stands for. *)
Lemma parse_time_parts (H M S C : string) (h m s c : Z) :
  all_digits H = true -> H <> "" -> digits_value H = Some h ->
  all_digits M = true -> String.length M = 2%nat -> digits_value M = Some m ->
  all_digits S = true -> S <> "" -> digits_value S = Some s ->
  all_digits C = true -> String.length C = 2%nat -> digits_value C = Some c ->
  parse_time (H ++ ":" ++ M ++ ":" ++ S ++ "." ++ C)
  = Some (inject_Z (3600 * h + 60 * m + s) + inject_Z c / 100)%Q.
Proof.
  intros H1 H2 H3 M1 M2 M3 S1 S2 S3 C1 C2 C3. unfold parse_time.
  rewrite (number_then_app ":" H _ h H1 H2 H3) by reflexivity.
  assert (Mne : M <> "") by (intros ->; discriminate M2).
  assert (Cne : C <> "") by (intros ->; discriminate C2).
  rewrite (number_then_app ":" M _ m M1 Mne M3) by reflexivity. rewrite M2.
  rewrite (number_then_app "." S _ s S1 S2 S3) by reflexivity.
  replace C with (C ++ "" ++ "") at 1
    by (cbn [String.append]; clear; induction C as [|x C IH];
        [reflexivity | cbn [String.append]; rewrite IH; reflexivity]).
  rewrite (number_then_app "" C "" c C1 Cne C3) by exact I. rewrite C2.
  reflexivity.
Qed.

Lemma two_digits (k : Z) :
  0 <= k < 100 ->
  all_digits (Py.pad0 2 false (Py.str_int k)) = true
  /\ String.length (Py.pad0 2 false (Py.str_int k)) = 2%nat
  /\ digits_value (Py.pad0 2 false (Py.str_int k)) = Some k.
Proof.
  intros Hk.
  assert (Hall : forallb (fun n =>
                   let t := Py.pad0 2 false (Py.str_int (Z.of_nat n)) in
                   all_digits t && (String.length t =? 2)%nat
                   && match digits_value t with
                      | Some v => v =? Z.of_nat n
                      | None => false
                      end) (seq 0 100) = true) by (vm_compute; reflexivity).
  rewrite forallb_forall in Hall. specialize (Hall (Z.to_nat k)).
  rewrite Z2Nat.id in Hall by lia. cbv zeta in Hall.
  assert (Hin : In (Z.to_nat k) (seq 0 100)) by (apply in_seq; lia).
  specialize (Hall Hin).
  apply andb_true_iff in Hall. destruct Hall as [Hall H3].
  apply andb_true_iff in Hall. destruct Hall as [H1 H2].
  split; [exact H1|]. split; [apply Nat.eqb_eq, H2|].
  destruct (digits_value _) as [v|]; [|discriminate H3].
  apply Z.eqb_eq in H3. congruence.
Qed.

Lemma fmt_02d_pad (m : Z) :
  0 <= m -> Py.fmt_02d m = Py.pad0 2 false (Py.str_int m).
Proof.
  intros Hm. unfold Py.fmt_02d.
  replace (m <? 0) with false by (symmetry; apply Z.ltb_ge; exact Hm).
  rewrite Z.abs_eq by exact Hm. reflexivity.
Qed.

Lemma Qfloor_unique (q : Q) (n : Z) :
  (inject_Z n <= q)%Q -> (q < inject_Z n + 1)%Q -> Qfloor q = n.
Proof.
  intros H1 H2. apply Z.le_antisymm.
  - apply Z.lt_succ_r. rewrite Zlt_Qlt. unfold Z.succ.
    rewrite inject_Z_plus. change (inject_Z 1) with 1%Q.
    pose proof (Qfloor_le q). set (f := Qfloor q) in *. lra.
  - rewrite <- (Qfloor_Z n). apply Qfloor_resp_le, H1.
Qed.

Lemma round_half_even_comp (x y : Q) :
  (x == y)%Q -> Py.round_half_even x = Py.round_half_even y.
Proof.
  intros H. apply Z.le_antisymm; apply round_half_even_le; lra.
Qed.

Lemma round_half_even_shift (q : Q) (k : Z) :
  Py.round_half_even (q + inject_Z (2 * k)) = Py.round_half_even q + 2 * k.
Proof.
  unfold Py.round_half_even.
  assert (Hfl : Qfloor (q + inject_Z (2 * k)) = Qfloor q + 2 * k).
  { pose proof (Qfloor_le q). pose proof (Qlt_floor q) as Hlt.
    rewrite inject_Z_plus in Hlt. change (inject_Z 1) with 1%Q in Hlt.
    apply Qfloor_unique; rewrite inject_Z_plus;
      set (f := inject_Z (Qfloor q)) in *; set (z := inject_Z (2 * k)); lra. }
  rewrite Hfl.
  assert (Hc : ((q + inject_Z (2 * k) - inject_Z (Qfloor q + 2 * k)) * 2
                == (q - inject_Z (Qfloor q)) * 2)%Q)
    by (rewrite inject_Z_plus; ring).
  rewrite Hc, Z.even_add_mul_2.
  destruct ((q - inject_Z (Qfloor q)) * 2 ?= 1)%Q;
    try destruct (Z.even (Qfloor q)); lia.
Qed.

Lemma pad0_long (body : string) :
  (2 <= String.length body)%nat -> Py.pad0 2 false body = body.
Proof.
  intros H. unfold Py.pad0. cbn [String.length String.append].
  replace (2 - 0 - String.length body)%nat with 0%nat by lia. reflexivity.
Qed.

(** The hours, minutes and seconds that [asstime] prints. *)
Lemma asstime_fields (x : Q) :
  (0 <= x)%Q ->
  exists (hrs mins : Z) (secs : Q),
    0 <= hrs /\ 0 <= mins < 60 /\ (0 <= secs)%Q /\ (secs < 60)%Q
    /\ (x == inject_Z (3600 * hrs + 60 * mins) + secs)%Q
    /\ asstime x
       = Py.str_int hrs ++ ":" ++ Py.fmt_02d mins ++ ":" ++ Py.fmt_02_2f secs.
Proof.
  intros H0. unfold asstime.
  set (hrs := Py.int_of (x / 3600)).
  set (s1 := (x - inject_Z (3600 * hrs))%Q).
  set (mins := Py.int_of (s1 / 60)).
  set (secs := (s1 - inject_Z (60 * mins))%Q).
  assert (Hdiv : (x == x / 3600 * 3600)%Q) by field.
  assert (Hq : (0 <= x / 3600)%Q)
    by (apply Qle_shift_div_l; [reflexivity | lra]).
  assert (Hh : hrs = Qfloor (x / 3600)) by (apply int_of_floor, Hq).
  pose proof (Qfloor_le (x / 3600)) as Hh1.
  pose proof (Qlt_floor (x / 3600)) as Hh2.
  rewrite <- Hh in Hh1, Hh2. rewrite inject_Z_plus in Hh2.
  change (inject_Z 1) with 1%Q in Hh2.
  assert (Hs1 : (s1 == x - inject_Z hrs * 3600)%Q).
  { unfold s1. rewrite inject_Z_mult. change (inject_Z 3600) with 3600%Q. ring. }
  assert (Hs1lo : (0 <= s1)%Q) by lra.
  assert (Hs1hi : (s1 < 3600)%Q) by lra.
  assert (Hdiv1 : (s1 == s1 / 60 * 60)%Q) by field.
  assert (Hs1q : (0 <= s1 / 60)%Q)
    by (apply Qle_shift_div_l; [reflexivity | lra]).
  assert (Hm : mins = Qfloor (s1 / 60)) by (apply int_of_floor, Hs1q).
  pose proof (Qfloor_le (s1 / 60)) as Hm1.
  pose proof (Qlt_floor (s1 / 60)) as Hm2.
  rewrite <- Hm in Hm1, Hm2. rewrite inject_Z_plus in Hm2.
  change (inject_Z 1) with 1%Q in Hm2.
  assert (Hsecs : (secs == s1 - inject_Z mins * 60)%Q).
  { unfold secs. rewrite inject_Z_mult. change (inject_Z 60) with 60%Q. ring. }
  assert (Hhz : 0 <= hrs).
  { rewrite Hh. change 0 with (Qfloor 0). apply Qfloor_resp_le, Hq. }
  assert (Hmz : 0 <= mins < 60).
  { split.
    - rewrite Hm. change 0 with (Qfloor 0). apply Qfloor_resp_le, Hs1q.
    - rewrite Zlt_Qlt. change (inject_Z 60) with 60%Q. lra. }
  exists hrs, mins, secs.
  split; [exact Hhz|]. split; [exact Hmz|].
  split; [lra|]. split; [lra|]. split; [|reflexivity].
  rewrite inject_Z_plus, !inject_Z_mult.
  change (inject_Z 3600) with 3600%Q. change (inject_Z 60) with 60%Q. lra.
Qed.

(** The hundredths of a second that the text of a time stands for: the
    time in hundredths, rounded to the nearest, a tie to the even one. *)
Lemma asstime_read (x : Q) :
  (0 <= x)%Q ->
  exists v,
    parse_time (asstime x) = Some v
    /\ (v == inject_Z (Py.round_half_even (x * 100)) / 100)%Q.
Proof.
  intros Hx.
  destruct (asstime_fields x Hx) as (h & m & r & Hh & Hm & Hr0 & Hr1 & Hsum & ->).
  set (n := Py.round_half_even (Qabs r * 100)).
  assert (Hn' : n = Py.round_half_even (r * 100))
    by (apply round_half_even_comp; rewrite (Qabs_pos r Hr0); reflexivity).
  assert (Hn : 0 <= n <= 6000).
  { pose proof (round_half_even_near (r * 100)) as [Hn1 Hn2].
    rewrite <- Hn' in Hn1, Hn2.
    split.
    - apply Z.lt_succ_r, Z.lt_pred_lt_succ. rewrite Zlt_Qlt.
      change (inject_Z (Z.pred 0)) with (-1)%Q. lra.
    - apply Z.lt_succ_r. rewrite Zlt_Qlt.
      change (inject_Z (Z.succ 6000)) with 6001%Q. lra. }
  destruct (str_int_digits h Hh) as (H1 & H2 & H3).
  destruct (two_digits m ltac:(lia)) as (M1 & M2 & M3).
  assert (Hq : 0 <= n / 100) by (apply Z.div_pos; lia).
  destruct (str_int_digits (n / 100) Hq) as (S1 & S2 & S3).
  destruct (two_digits (n mod 100) ltac:(apply Z.mod_pos_bound; lia))
    as (C1 & C2 & C3).
  assert (Hfmt : Py.fmt_02_2f r
                 = Py.str_int (n / 100) ++ "."
                   ++ Py.pad0 2 false (Py.str_int (n mod 100))).
  { unfold Py.fmt_02_2f.
    replace (Py.ltb r 0) with false by (symmetry; apply ltb_ge; exact Hr0).
    unfold Py.digits_2f. fold n. apply pad0_long.
    rewrite string_length_app. cbn [String.append String.length].
    rewrite C2. lia. }
  rewrite Hfmt, (fmt_02d_pad m) by lia.
  eexists. split.
  - apply parse_time_parts; eassumption.
  - assert (Hr : Py.round_half_even (x * 100)
                 = n + 2 * (180000 * h + 3000 * m)).
    { rewrite Hn', <- round_half_even_shift. apply round_half_even_comp.
      rewrite Hsum. repeat first [rewrite inject_Z_plus | rewrite inject_Z_mult].
      change (inject_Z 3600) with 3600%Q. change (inject_Z 60) with 60%Q.
      change (inject_Z 2) with 2%Q. change (inject_Z 180000) with 180000%Q.
      change (inject_Z 3000) with 3000%Q. ring. }
    rewrite Hr.
    assert (Hdm : n = 100 * (n / 100) + n mod 100) by (apply Z.div_mod; lia).
    rewrite Hdm at 3.
    repeat first [rewrite inject_Z_plus | rewrite inject_Z_mult].
    change (inject_Z 3600) with 3600%Q. change (inject_Z 60) with 60%Q.
    change (inject_Z 2) with 2%Q. change (inject_Z 180000) with 180000%Q.
    change (inject_Z 3000) with 3000%Q. change (inject_Z 100) with 100%Q.
    field.
Qed.

(** ** The end time of a Dialogue *)


Lemma clear_screen_done_clock (st st' : ASSFormatter) (t : Q) :
  clear_screen st t = Done st' ->
  _elapsed_time_s st' = t /\ _tmax st' = _tmax st.
Proof.
  intros H. destruct (_current_lines st) as [|l0 ls] eqn:E.
  - unfold clear_screen in H. rewrite E in H. discriminate.
  - destruct (clear_screen_clock st t) as (st1 & H1 & He & Hm & _);
      [congruence|].
    rewrite H1 in H. injection H as <-. split; assumption.
Qed.

Lemma nondecreasing_from_weaken (lo lo' : Q) (ts : list Q) :
  (lo <= lo')%Q -> nondecreasing_from lo' ts -> nondecreasing_from lo ts.
Proof.
  destruct ts as [|t ts]; [trivial|].
  cbn [nondecreasing_from]. intros H [H1 H2]. split; [lra | assumption].
Qed.

(** Two times at most [tmax] seconds and a millionth apart, read back from
    their texts, are at most [tmax] seconds and a hundredth apart, and in
    the same order. *)
Lemma read_back_window (s e : Q) (tmax : Z) :
  (0 <= s)%Q -> (s <= e)%Q -> (e <= s + inject_Z tmax + (1 # 1000000))%Q ->
  exists a b,
    parse_time (asstime s) = Some a /\ parse_time (asstime e) = Some b
    /\ (a <= b)%Q /\ (b <= a + inject_Z tmax + (1 # 100))%Q.
Proof.
  intros Hs Hse He.
  destruct (asstime_read s Hs) as (a & Ha & Hav).
  destruct (asstime_read e ltac:(lra)) as (b & Hb & Hbv).
  exists a, b. split; [exact Ha|]. split; [exact Hb|].
  pose proof (round_half_even_le (s * 100) (e * 100) ltac:(lra)) as Hmono.
  pose proof (round_half_even_near (s * 100)) as [Hs1 _].
  pose proof (round_half_even_near (e * 100)) as [_ He2].
  set (A := Py.round_half_even (s * 100)) in *.
  set (B := Py.round_half_even (e * 100)) in *.
  assert (Hup : B <= A + 100 * tmax + 1).
  { apply Z.lt_succ_r. rewrite Zlt_Qlt. unfold Z.succ.
    repeat first [rewrite inject_Z_plus | rewrite inject_Z_mult].
    change (inject_Z 100) with 100%Q. change (inject_Z 1) with 1%Q. lra. }
  rewrite Zle_Qle in Hmono, Hup.
  repeat first [rewrite inject_Z_plus in Hup | rewrite inject_Z_mult in Hup].
  change (inject_Z 100) with 100%Q in Hup. change (inject_Z 1) with 1%Q in Hup.
  assert (Ha' : (a * 100 == inject_Z A)%Q) by (rewrite Hav; field).
  assert (Hb' : (b * 100 == inject_Z B)%Q) by (rewrite Hbv; field).
  split; lra.
Qed.

Lemma is_double_0 : is_double 0.
Proof. reflexivity. Qed.

(** The end of a Dialogue, for times and a cap that are not negative and
    at most 10^9: it is not before the start, it is the minimum of the
    time of the clear screen and of the start plus the cap up to a
    millionth, and so at most the cap and a millionth after the start. *)
Lemma end_seconds_window (st : ASSFormatter) (t : Q) :
  0 <= _tmax st <= 1000000000 ->
  (0 <= _elapsed_time_s st)%Q -> (_elapsed_time_s st <= t)%Q ->
  (t <= 1000000000)%Q ->
  (Qmin t (_elapsed_time_s st + inject_Z (_tmax st)) - (1 # 1000000)
   <= end_seconds st t)%Q
  /\ (end_seconds st t
      <= Qmin t (_elapsed_time_s st + inject_Z (_tmax st)) + (1 # 1000000))%Q
  /\ (is_double (_elapsed_time_s st) -> (_elapsed_time_s st <= end_seconds st t)%Q).
Proof.
  intros [Hm0 Hm1] Hs Hst Ht.
  rewrite Zle_Qle in Hm0, Hm1.
  change (inject_Z 0) with 0%Q in Hm0.
  change (inject_Z 1000000000) with 1000000000%Q in Hm1.
  unfold end_seconds, Float.sub, Float.add, Float.of_int.
  remember (_elapsed_time_s st) as s eqn:Es.
  remember (inject_Z (_tmax st)) as m eqn:Em. clear Es Em.
  pose proof (round_near m Hm0) as [HF1 HF2].
  pose proof (round_near (t - s) ltac:(lra)) as [HD1 HD2].
  remember (Float.round m) as F eqn:EF.
  remember (Float.round (t - s)) as D eqn:ED. clear EF ED.
  unfold half_ulp in *.
  assert (HF0 : (0 <= s + F)%Q) by lra.
  pose proof (round_near (s + F) HF0) as [HE1 HE2].
  unfold half_ulp in *.
  destruct (Py.ltb m D) eqn:E.
  - apply ltb_lt in E.
    assert (Hmin : (s + m - (1 # 5000000) <= Qmin t (s + m))%Q
                   /\ (Qmin t (s + m) <= s + m)%Q).
    { destruct (Q.min_spec t (s + m)) as [[Hlt ->] | [Hge ->]]; split; lra. }
    split; [|split].
    + remember (Float.round (s + F)) as e. remember (Qmin t (s + m)) as mn. lra.
    + remember (Float.round (s + F)) as e. remember (Qmin t (s + m)) as mn. lra.
    + intros Hd. unfold is_double in Hd. rewrite <- Hd at 1.
      apply round_le. lra.
  - apply ltb_ge in E.
    destruct (Q.min_spec t (s + m)) as [[Hlt ->] | [Hge ->]];
      (split; [lra|]); (split; [lra|]); intros _; lra.
Qed.

Lemma flushed_within (st : ASSFormatter) (t : Q) :
  0 <= _tmax st <= 1000000000 ->
  (0 <= _elapsed_time_s st)%Q -> is_double (_elapsed_time_s st) ->
  (_elapsed_time_s st <= t)%Q -> (t <= 1000000000)%Q ->
  Forall (lasts_within (_tmax st)) (map render (flushed st t)).
Proof.
  intros Hm Hs Hd Hst Ht. unfold flushed.
  destruct (file_written st && times_differ st t); [|constructor].
  apply Forall_forall. intros line Hin. apply in_map_iff in Hin.
  destruct Hin as (ev & <- & Hin). apply in_map_iff in Hin.
  destruct Hin as (l & <- & _). cbn [render].
  destruct (end_seconds_window st t Hm Hs Hst Ht) as (H1 & H2 & H3).
  specialize (H3 Hd).
  assert (Hup : (end_seconds st t
                 <= _elapsed_time_s st + inject_Z (_tmax st) + (1 # 1000000))%Q).
  { pose proof (Q.le_min_r t (_elapsed_time_s st + inject_Z (_tmax st))).
    set (mn := Qmin t (_elapsed_time_s st + inject_Z (_tmax st))) in *. lra. }
  destruct (read_back_window _ _ _ Hs H3 Hup) as (a & b & Ha & Hb & Hab & Hba).
  exists (asstime (_elapsed_time_s st)), (asstime (end_seconds st t)), l, a, b.
  repeat split; assumption.
Qed.

Lemma events_within (tokens : list (caption * Q)) (st : ASSFormatter) :
  0 <= _tmax st <= 1000000000 ->
  (0 <= _elapsed_time_s st)%Q -> is_double (_elapsed_time_s st) ->
  nondecreasing_from (_elapsed_time_s st) (map snd tokens) ->
  Forall (fun t => is_double t /\ (t <= 1000000000)%Q) (map snd tokens) ->
  Forall (lasts_within (_tmax st)) (map render (events st tokens)).
Proof.
  revert st. induction tokens as [|[c t] tokens IH]; intros st Hm Hs Hd Hnd Hts.
  - constructor.
  - cbn [map snd nondecreasing_from] in Hnd, Hts. destruct Hnd as [Ht Hnd].
    inversion Hts as [|? ? [Htd Htb] Hts']; subst.
    cbn [events]. rewrite map_app. apply Forall_app. split.
    + destruct c; try constructor. apply flushed_within; assumption.
    + destruct (handle st c t) as [st'|e st'] eqn:H; [|constructor].
      assert (Hst' : _tmax st' = _tmax st
                     /\ (0 <= _elapsed_time_s st')%Q
                     /\ is_double (_elapsed_time_s st')
                     /\ nondecreasing_from (_elapsed_time_s st') (map snd tokens)).
      { destruct (caption_eq_CS c) as [-> | Hc].
        - apply clear_screen_done_clock in H. destruct H as [-> ->].
          split; [reflexivity|]. split; [lra|]. split; assumption.
        - destruct (handle_frame st c t Hc) as (He & Hm' & _).
          rewrite H in He, Hm'. cbn [final] in He, Hm'. rewrite He, Hm'.
          split; [reflexivity|]. split; [exact Hs|]. split; [exact Hd|].
          apply nondecreasing_from_weaken with (lo' := t); assumption. }
      destruct Hst' as (Hm' & Hs' & Hd' & Hnd'). rewrite <- Hm'.
      apply IH; try assumption. rewrite Hm'. exact Hm.
Qed.



(** With the cap 5 and a clear screen at the float of 0.075 s, which is
    just below 0.075, the next Dialogue starts at 0:00:0.07; its end is
    the float of the sum, just above 5.075 and so not 5 seconds after the
    start, written 0:00:5.08: the line lasts 5.01 seconds. *)
Lemma capped_line_lasts_longer :
  nondecreasing_from 0 (map snd rounded_tokens)
  /\ Forall is_double (map snd rounded_tokens)
  /\ dialogues (final (feed (ASSFormatter_init 5 "out.ass" false true)
                         rounded_tokens))
     = [dialogue_line "0:00:0.07" "0:00:5.08" "A"]
  /\ parse_time "0:00:0.07" = Some (7 # 100)
  /\ parse_time "0:00:5.08" = Some (508 # 100)
  /\ ~ ((508 # 100) <= (7 # 100) + inject_Z 5)%Q
  /\ ~ (end_seconds
          (final (feed (ASSFormatter_init 5 "out.ass" false true)
                    (firstn 2 rounded_tokens))) 100
        == Qmin 100
             (_elapsed_time_s
                (final (feed (ASSFormatter_init 5 "out.ass" false true)
                          (firstn 2 rounded_tokens))) + inject_Z 5))%Q.
Proof.
  split; [vm_compute; repeat split; intro H; discriminate H|].
  split; [repeat constructor; vm_compute; reflexivity|].
  split; [vm_compute; reflexivity|].
  split; [vm_compute; reflexivity|].
  split; [vm_compute; reflexivity|].
  split; [intro H; vm_compute in H; apply H; reflexivity|].
  intro H. vm_compute in H. discriminate H.
Qed.


(** ** Style and text size *)

(** A token other than clear screen keeps the style and the text size in
    agreement. *)
Lemma handle_keeps_consistent (st : ASSFormatter) (c : caption) (t : Q) :
  c <> CS -> consistent st -> consistent (final (handle st c t)).
Proof.
  unfold consistent. intros Hc H.
  destruct c; try congruence; unfold_handlers; split_lines;
    cbn [final set_current_lines set_current_style set_current_color
         set_current_textsize _current_style _current_textsize style_of];
    autorewrite with formatter; auto.
Qed.

(** C5. After small size and a clear screen the text size is NORMAL and
    the style still "small": clear screen resets the size and the colour
    and leaves the style, so the two no longer agree. *)
Theorem clear_screen_keeps_style :
  _current_style
    (final (feed (ASSFormatter_init 5 "out.ass" false true) small_clear_tokens))
  = "small"
  /\ _current_textsize
       (final (feed (ASSFormatter_init 5 "out.ass" false true) small_clear_tokens))
     = NORMAL
  /\ ~ consistent
         (final (feed (ASSFormatter_init 5 "out.ass" false true) small_clear_tokens)).
Proof.
  split; [vm_compute; reflexivity|]. split; [vm_compute; reflexivity|].
  unfold consistent. vm_compute. discriminate.
Qed.

(** ** DRCS glyphs *)

(** A font that was read has, as its character, the entry of the table for
    its hash, or the replacement character. *)
Lemma DRCSFont_init_character (hash : string -> Z) (f rest : list byte)
    (font : DRCSFont) :
  DRCSFont_init hash f = Ok (font, rest) ->
  _character font
  = match dict_get character_hashes (_hash font) with
    | Some c => c
    | None => replacement_character
    end.
Proof.
  unfold DRCSFont_init, rbind, ret, raise. intros H.
  repeat match type of H with
         | context [match ?x with _ => _ end] =>
             lazymatch x with
             | dict_get _ _ => fail
             | _ => destruct x; try discriminate H
             end
         end.
  injection H as <- <-. reflexivity.
Qed.

(** C1. A DRCS font whose pixel hash is in the table records the
    substitute of the table as its character.  The DRCS handler of the
    formatter does not look at the glyph: for every DRCS character it
    appends the replacement character U+FFFD to the current line buffer,
    and that is what the next clear screen writes as Dialogue text. *)
Theorem drcs_renders_replacement (hash : string -> Z) (f rest : list byte)
    (font : DRCSFont) (sub : string) (st : ASSFormatter) (n : nat) (t t' : Q) :
  DRCSFont_init hash f = Ok (font, rest) ->
  dict_get character_hashes (_hash font) = Some sub ->
  _current_lines st <> [] ->
  file_written st = true ->
  times_differ st t' = true ->
  _character font = sub
  /\ handle st (DRCS n (_character font)) t
     = Done (set_current_lines
               (removelast (_current_lines st)
                ++ [last (_current_lines st) "" ++ replacement_character]) st)
  /\ In (dialogue_line (asstime (_elapsed_time_s st))
           (asstime (end_seconds st t'))
           (last (_current_lines st) "" ++ replacement_character))
        (dialogues
           (final (feed st [(DRCS n (_character font), t); (CS, t')]))).
Proof.
  intros Hfont Hsub Hl Hf Ht.
  assert (Hh : handle st (DRCS n (_character font)) t
               = Done (set_current_lines
                         (removelast (_current_lines st)
                          ++ [last (_current_lines st) ""
                              ++ replacement_character]) st)).
  { unfold_handlers. destruct (_current_lines st); [congruence | reflexivity]. }
  split; [|split; [exact Hh|]].
  - rewrite (DRCSFont_init_character hash f rest font Hfont), Hsub. reflexivity.
  - rewrite feed_dialogues. apply in_or_app. right.
    cbn [events]. rewrite Hh. cbn [events app].
    rewrite map_app. apply in_or_app. left.
    unfold flushed.
    change (file_written (set_current_lines ?v st)) with (file_written st).
    change (times_differ (set_current_lines ?v st) t')
      with (times_differ st t').
    rewrite Hf, Ht.
    cbn [andb _current_lines set_current_lines].
    rewrite rev_app_distr. cbn [rev app filter].
    replace (nonempty (last (_current_lines st) "" ++ replacement_character))
      with true.
    2:{ unfold nonempty. rewrite string_length_app, Nat.add_comm. reflexivity. }
    cbn [map render]. left. reflexivity.
Qed.

Lemma drcs_renders_replacement_witness :
  DRCSFont_init music_note_hash music_note_font_bytes
    = Ok (mkDRCSFont 0 1 2 4 4 [5; 6; 7; 255] (-3174437220813644284) "♬", [])
  /\ _current_lines (opened (ASSFormatter_init 5 "out.ass" false true)) <> []
  /\ In (dialogue_line "0:00:0.00" "0:00:1.00" replacement_character)
        (dialogues
           (final (feed (opened (ASSFormatter_init 5 "out.ass" false true))
                     [(DRCS 1 "♬", 0%Q); (CS, 1%Q)]))).
Proof.
  assert (Hfont : DRCSFont_init music_note_hash music_note_font_bytes
                  = Ok (mkDRCSFont 0 1 2 4 4 [5; 6; 7; 255]
                          (-3174437220813644284) "♬", []))
    by reflexivity.
  assert (Hl : _current_lines (opened (ASSFormatter_init 5 "out.ass" false true))
               <> []) by discriminate.
  split; [exact Hfont|]. split; [exact Hl|].
  exact (proj2 (proj2 (drcs_renders_replacement music_note_hash
                         music_note_font_bytes [] _ "♬"
                         (opened (ASSFormatter_init 5 "out.ass" false true))
                         1%nat 0%Q 1%Q Hfont eq_refl Hl eq_refl eq_refl))).
Defined.

(** The glyph of the DRCS character is the music note of the table; the
    Dialogue text holds the character before it and the replacement
    character, and no music note. *)
Lemma music_note_not_rendered :
  DRCSFont_init music_note_hash music_note_font_bytes
    = Ok (mkDRCSFont 0 1 2 4 4 [5; 6; 7; 255] (-3174437220813644284) "♬", [])
  /\ dict_get character_hashes (-3174437220813644284) = Some "♬"
  /\ dialogues (final (feed (ASSFormatter_init 5 "out.ass" false true)
                         (drcs_note_tokens "♬")))
     = [dialogue_line "0:00:0.00" "0:00:1.00" ("A" ++ replacement_character)]
  /\ contains "♬"
       (dialogue_line "0:00:0.00" "0:00:1.00" ("A" ++ replacement_character))
     = false.
Proof. repeat split; vm_compute; reflexivity. Qed.

(** ** Unsupported DRCS modes *)

Lemma read_usb_cons (a b : byte) (f : list byte) :
  read.usb (a :: b :: f) = Ok (be_val [a; b], f).
Proof. exact (read_unsigned_app 2 [a; b] f eq_refl). Qed.

Lemma read_ui3b_cons (a b c : byte) (f : list byte) :
  read.ui3b (a :: b :: c :: f) = Ok (be_val [a; b; c], f).
Proof. exact (read_unsigned_app 3 [a; b; c] f eq_refl). Qed.

Lemma times_raise {A : Type} (n : nat) (m : reader A) (f : list byte) (e : exn) :
  (0 < n)%nat -> m f = Raise e -> times n m f = Raise e.
Proof.
  intros Hn Hm. destruct n as [|n]; [lia|].
  cbn [times]. unfold rbind. rewrite Hm. reflexivity.
Qed.

Section UnsupportedMode.

Variable hash : string -> Z.
Variable decoder : Type.
Variable Decoder_new : decoder.
Variable decode : decoder -> reader (decoder * option (caption * Z)).
Variable fuel : nat.

(** The packed byte of the font, with a mode other than 0 and 1, and
    what follows it. *)
Variable b : byte.
Variable rest : list byte.
Hypothesis mode_not_0 : Z.land (byte_val b) 0x0F <> 0.
Hypothesis mode_not_1 : Z.land (byte_val b) 0x0F <> 1.

Lemma DRCSFont_init_unsupported :
  DRCSFont_init hash (b :: rest) = Raise ValueError.
Proof.
  unfold DRCSFont_init, rbind at 1. rewrite read_ucb_cons.
  replace ((Z.land (byte_val b) 15 =? 0) || (Z.land (byte_val b) 15 =? 1))
    with false; [reflexivity|].
  symmetry. rewrite orb_false_iff, !Z.eqb_neq. split; assumption.
Qed.

Lemma DRCSCharacter_init_unsupported (code_hi code_lo nfont : byte) :
  0 < byte_val nfont ->
  DRCSCharacter_init hash (code_hi :: code_lo :: nfont :: b :: rest)
  = Raise ValueError.
Proof.
  intros Hn. unfold DRCSCharacter_init, rbind at 1. rewrite read_usb_cons.
  unfold rbind at 1. rewrite read_ucb_cons.
  unfold rbind at 1.
  rewrite (times_raise _ _ _ ValueError); [reflexivity | lia |].
  apply DRCSFont_init_unsupported.
Qed.

Lemma DRCS1ByteCharacter_init_unsupported
    (unit_separator data_unit_size : Z) (ncode code_hi code_lo nfont : byte) :
  0 < byte_val ncode -> 0 < byte_val nfont ->
  DRCS1ByteCharacter_init hash unit_separator 0x30 data_unit_size
    (ncode :: code_hi :: code_lo :: nfont :: b :: rest)
  = Raise ValueError.
Proof.
  intros Hc Hn. unfold DRCS1ByteCharacter_init.
  cbn [Z.eqb DRCS1ByteCharacter_ID negb Pos.eqb].
  unfold rbind at 1. rewrite read_ucb_cons.
  unfold rbind at 1.
  rewrite (times_raise _ _ _ ValueError); [reflexivity | lia |].
  apply DRCSCharacter_init_unsupported, Hn.
Qed.

Lemma DataUnit_init_unsupported
    (s1 s2 s3 ncode code_hi code_lo nfont : byte) :
  0 < byte_val ncode -> 0 < byte_val nfont ->
  DataUnit_init hash decoder Decoder_new decode fuel
    (x1f :: x30 :: s1 :: s2 :: s3
       :: ncode :: code_hi :: code_lo :: nfont :: b :: rest)
  = Raise ValueError.
Proof.
  intros Hc Hn. unfold DataUnit_init, rbind at 1. rewrite read_ucb_cons.
  change (byte_val x1f =? 31) with true. cbn [negb].
  unfold rbind at 1. rewrite read_ucb_cons.
  unfold rbind at 1. rewrite read_ui3b_cons.
  unfold rbind at 1, load_unit.
  change (byte_val x30 =? StatementBody_ID) with false.
  change (byte_val x30 =? DRCS1ByteCharacter_ID) with true.
  cbv iota. unfold rbind at 1.
  change (byte_val x30) with 0x30.
  rewrite DRCS1ByteCharacter_init_unsupported by assumption.
  reflexivity.
Qed.

Lemma CaptionStatementData_init_unsupported
    (l1 l2 l3 s1 s2 s3 ncode code_hi code_lo nfont : byte) :
  0 < be_val [l1; l2; l3] ->
  0 < byte_val ncode -> 0 < byte_val nfont ->
  CaptionStatementData_init hash decoder Decoder_new decode fuel
    (x00 :: l1 :: l2 :: l3 :: x1f :: x30 :: s1 :: s2 :: s3
       :: ncode :: code_hi :: code_lo :: nfont :: b :: rest)
  = Raise ValueError.
Proof.
  intros Hl Hc Hn. unfold CaptionStatementData_init, rbind at 1.
  unfold CaptionStatementData_head, rbind at 1. rewrite read_ucb_cons.
  change ((Z.shiftr (byte_val x00) 6 =? 1) || (Z.shiftr (byte_val x00) 6 =? 2))
    with false. cbv iota.
  unfold rbind at 1. rewrite read_ui3b_cons. unfold ret at 1.
  unfold rbind at 1.
  destruct (Z.to_nat (be_val [l1; l2; l3])) as [|n] eqn:E; [lia|].
  cbn [data_unit_loop].
  replace (0 <? be_val [l1; l2; l3]) with true
    by (symmetry; apply Z.ltb_lt; exact Hl).
  unfold rbind at 1.
  rewrite DataUnit_init_unsupported by assumption.
  reflexivity.
Qed.

End UnsupportedMode.

(** A ValueError out of the data group is caught by the handler: it prints
    the message when it is not silent and the PID is known, formats
    nothing, and returns. *)
Lemma OnESPacket_ValueError (packet : Type)
    (get_pes_payload : packet -> result (list byte))
    (DataGroup_init : list byte -> result DataGroup)
    (g : globals) (current_pid : Z) (p : packet) (payload : list byte) :
  get_pes_payload p = Ok payload ->
  DataGroup_init payload = Raise ValueError ->
  OnESPacket packet get_pes_payload DataGroup_init g current_pid p
  = if (0 <=? pid g) && negb (current_pid =? pid g) then (g, None)
    else if negb (SILENT g) && (0 <=? pid g)
         then (print (Traceback ValueError) (print (Line exception_message) g),
               None)
         else (g, None).
Proof.
  intros Hp Hd. unfold OnESPacket, try_body. rewrite Hp, Hd.
  destruct ((0 <=? pid g) && negb (current_pid =? pid g)); reflexivity.
Qed.





(** * Further properties *)

(** ** What the formatter raises *)

Lemma flush_lines_writable (s e : string) (ls : list Dialog) (st : ASSFormatter) :
  writable (fold_left (flush_line s e) ls st) = writable st.
Proof.
  revert st. induction ls as [|l ls IH]; intros st; [reflexivity|].
  cbn [fold_left]. rewrite IH. unfold flush_line.
  destruct (String.length l =? 0)%nat; [reflexivity|].
  destruct (_ass_file st); reflexivity.
Qed.

(** No handler changes what the file system says. *)
Lemma handle_writable (st : ASSFormatter) (c : caption) (t : Q) :
  writable (final (handle st c t)) = writable st.
Proof.
  destruct (caption_eq_CS c) as [-> | Hn].
  - cbn [handle]. unfold clear_screen.
    destruct (_current_lines st) as [|l0 ls]; [reflexivity|].
    cbn [final writable set_current_color set_current_textsize
         set_elapsed_time_s].
    destruct (_ && _); [apply flush_lines_writable | reflexivity].
  - destruct c; try congruence; unfold_handlers; split_lines;
      cbn [final set_current_lines set_current_style set_current_color
           set_current_textsize writable];
      autorewrite with formatter; reflexivity.
Qed.

Lemma handle_file_stays_open (st : ASSFormatter) (c : caption) (t : Q) :
  file_written st = true -> file_written (final (handle st c t)) = true.
Proof.
  intros Hf. destruct (caption_eq_CS c) as [-> | Hn].
  - rewrite handle_keeps_file; [exact Hf | reflexivity].
  - destruct c; try congruence; unfold_handlers; split_lines;
      cbn [final];
      change (file_written (set_current_textsize ?a (set_current_style ?b
                (set_current_lines ?d ?f)))) with (file_written f);
      change (file_written (set_current_color ?a (set_current_lines ?d ?f)))
        with (file_written f);
      change (file_written (set_current_lines ?d ?f)) with (file_written f);
      autorewrite with formatter; first [reflexivity | exact Hf].
Qed.

Lemma handle_can_write (st : ASSFormatter) (c : caption) (t : Q) :
  can_write st = true -> can_write (final (handle st c t)) = true.
Proof.
  unfold can_write. intros H. rewrite handle_writable.
  apply orb_true_iff in H. destruct H as [H | H].
  - rewrite (handle_file_stays_open st c t H). reflexivity.
  - rewrite H. apply orb_true_r.
Qed.

(** From a formatter that has a line buffer a handler raises nothing but
    FileOpenError, and that only where it opens the file, when the file is
    not open and cannot be opened; a line buffer remains. *)
Lemma handle_outcome (st : ASSFormatter) (c : caption) (t : Q) :
  _current_lines st <> [] ->
  exists st',
    _current_lines st' <> []
    /\ (handle st c t = Done st'
        \/ (handle st c t = Raised FileOpenError st'
            /\ opens_file c = true /\ can_write st = false)).
Proof.
  intros Hl.
  destruct (caption_eq_CS c) as [-> | Hc].
  { destruct (clear_screen_clock st t Hl) as (st' & H1 & _ & _ & H4).
    exists st'. split; [exact H4 | left; exact H1]. }
  destruct c; try congruence; unfold_handlers; split_lines;
    try (exfalso; rewrite ?opened_lines in *; congruence);
    eexists;
    first [ split; [|left; reflexivity];
            cbn [_current_lines set_current_lines set_current_style
                 set_current_color set_current_textsize];
            first [apply snoc_not_nil | exact Hl]
          | split; [|right; split; [reflexivity|split; [reflexivity|]]];
            [rewrite announced_lines; exact Hl
            | unfold can_write; rewrite Hfw, Hw; reflexivity] ].
Qed.

(** When the file is open or can be opened no handler raises. *)
Lemma handle_done (st : ASSFormatter) (c : caption) (t : Q) :
  _current_lines st <> [] -> can_write st = true ->
  exists st',
    handle st c t = Done st' /\ _current_lines st' <> []
    /\ can_write st' = true.
Proof.
  intros Hl Hw. pose proof (handle_can_write st c t Hw) as Hcw.
  destruct (handle_outcome st c t Hl) as (st' & Hl' & [H | (_ & _ & H)]).
  - exists st'. rewrite H in Hcw. cbn [final] in Hcw. repeat split; assumption.
  - congruence.
Qed.

Lemma feed_done (tokens : list (caption * Q)) (st : ASSFormatter) :
  _current_lines st <> [] -> can_write st = true ->
  exists st',
    feed st tokens = Done st' /\ _current_lines st' <> []
    /\ can_write st' = true.
Proof.
  revert st. induction tokens as [|[c t] tokens IH]; intros st Hl Hw.
  - exists st. repeat split; [assumption | assumption].
  - cbn [feed]. rewrite format_single.
    destruct (handle_done st c t Hl Hw) as (st1 & -> & Hl1 & Hw1).
    cbn [and_then]. apply IH; assumption.
Qed.

Lemma format_done (captions : list caption) (st : ASSFormatter) (t : Q) :
  _current_lines st <> [] -> can_write st = true ->
  exists st',
    format st captions t = Done st' /\ _current_lines st' <> []
    /\ can_write st' = true.
Proof.
  revert st. induction captions as [|c captions IH]; intros st Hl Hw.
  - exists st. repeat split; [assumption | assumption].
  - cbn [format]. destruct (handle_done st c t Hl Hw) as (st1 & -> & Hl1 & Hw1).
    cbn [and_then]. apply IH; assumption.
Qed.

(** One call of [format]: it returns, or it raises FileOpenError at a token
    that opens the file. *)
Lemma format_outcome (captions : list caption) (st : ASSFormatter) (t : Q) :
  _current_lines st <> [] ->
  exists st',
    _current_lines st' <> []
    /\ writable st' = writable st
    /\ (format st captions t = Done st'
        \/ (format st captions t = Raised FileOpenError st'
            /\ existsb opens_file captions = true
            /\ writable st = false)).
Proof.
  revert st. induction captions as [|c captions IH]; intros st Hl.
  - exists st. split; [exact Hl|]. split; [reflexivity | left; reflexivity].
  - cbn [format existsb]. pose proof (handle_writable st c t) as Hw.
    destruct (handle_outcome st c t Hl) as (st1 & Hl1 & [H | (H & Ho & Hc)]);
      rewrite H in *; cbn [and_then final] in *.
    + destruct (IH st1 Hl1) as (st' & Hl' & Hw' & [H' | (H' & Ho' & Hf')]).
      * exists st'. split; [exact Hl'|]. split; [congruence | left; exact H'].
      * exists st'. split; [exact Hl'|]. split; [congruence|]. right.
        split; [exact H'|]. split; [rewrite Ho'; apply orb_true_r | congruence].
    + exists st1. split; [exact Hl1|]. split; [exact Hw|]. right.
      split; [reflexivity|]. split; [rewrite Ho; reflexivity|].
      unfold can_write in Hc. apply orb_false_iff in Hc. apply Hc.
Qed.

(** X1. A formatter always has at least one line buffer, so [format]
    never raises IndexError on [_current_lines[-1]] or [_current_lines[0]].
    Called any number of times on a new formatter, with any captions, it
    returns every time when the output file can be opened.  When the file
    cannot be opened, the calls return until a token that opens the file is
    met; that call raises FileOpenError, which ends the run. *)
Theorem format_raises_only_FileOpenError (tmax : Z) (video_filename : string)
    (verbose openable : bool) (calls : list (list caption * Q)) :
  exists st,
    _current_lines st <> []
    /\ (fold_left
          (fun o call => and_then o (fun f => format f (fst call) (snd call)))
          calls (Done (ASSFormatter_init tmax video_filename verbose openable))
        = Done st
        \/ (fold_left
              (fun o call => and_then o (fun f => format f (fst call) (snd call)))
              calls
              (Done (ASSFormatter_init tmax video_filename verbose openable))
            = Raised FileOpenError st
            /\ openable = false
            /\ existsb (fun call => existsb opens_file (fst call)) calls = true)).
Proof.
  assert (Hr : forall calls' e st0,
            fold_left (fun o call =>
                         and_then o (fun f => format f (fst call) (snd call)))
              calls' (Raised e st0) = Raised e st0).
  { induction calls' as [|call calls' IH]; intros e st0; [reflexivity|].
    cbn [fold_left and_then]. apply IH. }
  assert (H : forall st0, _current_lines st0 <> [] ->
            exists st,
              _current_lines st <> []
              /\ (fold_left (fun o call =>
                               and_then o (fun f => format f (fst call) (snd call)))
                    calls (Done st0) = Done st
                  \/ (fold_left (fun o call =>
                                   and_then o
                                     (fun f => format f (fst call) (snd call)))
                        calls (Done st0) = Raised FileOpenError st
                      /\ writable st0 = false
                      /\ existsb (fun call => existsb opens_file (fst call))
                           calls = true))).
  { induction calls as [|[captions t] calls IH]; intros st0 Hl.
    - exists st0. split; [exact Hl | left; reflexivity].
    - cbn [fold_left and_then fst snd existsb].
      destruct (format_outcome captions st0 t Hl)
        as (st1 & Hl1 & Hw1 & [H1 | (H1 & Ho1 & Hf1)]); rewrite H1.
      + destruct (IH st1 Hl1) as (st & Hs & [H2 | (H2 & Hf2 & Ho2)]).
        * exists st. split; [exact Hs | left; exact H2].
        * exists st. split; [exact Hs|]. right. split; [exact H2|].
          split; [congruence | rewrite Ho2; apply orb_true_r].
      + rewrite Hr. exists st1. split; [exact Hl1|]. right.
        split; [reflexivity|]. split; [exact Hf1 | rewrite Ho1; reflexivity]. }
  apply H. discriminate.
Qed.

(** ** The clock of the formatter *)

Lemma last_clear_time_cons (s : Q) (c : caption) (t : Q)
    (tokens : list (caption * Q)) :
  last_clear_time s ((c, t) :: tokens)
  = last_clear_time (match c with CS => t | _ => s end) tokens.
Proof. reflexivity. Qed.

(** X2. The time kept as the start of the next Dialogue is the time of
    the last clear screen fed, whether or not that clear screen wrote
    anything; before the first clear screen it is the time the formatter
    had.  (The output file is open or can be opened, so that every token
    fed is handled.) *)
Theorem elapsed_is_last_clear (tokens : list (caption * Q)) (st : ASSFormatter) :
  _current_lines st <> [] ->
  file_written st = true \/ writable st = true ->
  _elapsed_time_s (final (feed st tokens))
  = last_clear_time (_elapsed_time_s st) tokens.
Proof.
  intros Hl Hw.
  assert (Hcw : can_write st = true)
    by (unfold can_write; apply orb_true_iff; exact Hw).
  clear Hw. revert st Hl Hcw.
  induction tokens as [|[c t] tokens IH]; intros st Hl Hcw.
  - reflexivity.
  - rewrite last_clear_time_cons. cbn [feed]. rewrite format_single.
    destruct (handle_done st c t Hl Hcw) as (st1 & H1 & Hl1 & Hcw1).
    rewrite H1. cbn [and_then]. rewrite (IH st1 Hl1 Hcw1). f_equal.
    destruct (caption_eq_CS c) as [-> | Hc].
    + apply clear_screen_done_clock in H1. apply H1.
    + destruct (handle_frame st c t Hc) as (He & _ & _).
      rewrite H1 in He. cbn [final] in He. rewrite He.
      destruct c; try reflexivity. congruence.
Qed.

Lemma elapsed_is_last_clear_witness :
  _current_lines (ASSFormatter_init 5 "out.ass" false true) <> []
  /\ _elapsed_time_s
       (final (feed (ASSFormatter_init 5 "out.ass" false true) two_buffer_tokens))
     = 1%Q.
Proof.
  assert (Hl : _current_lines (ASSFormatter_init 5 "out.ass" false true) <> [])
    by discriminate.
  split; [exact Hl|].
  exact (elapsed_is_last_clear two_buffer_tokens
           (ASSFormatter_init 5 "out.ass" false true) Hl
           (or_intror eq_refl)).
Defined.

(** ** What a clear screen does *)

Lemma flush_lines_lines (s e : string) (ls : list Dialog) (st : ASSFormatter) :
  _current_lines (fold_left (flush_line s e) ls st)
  = if existsb nonempty ls then [""] else _current_lines st.
Proof.
  revert st. induction ls as [|l ls IH]; intros st; [reflexivity|].
  cbn [fold_left existsb]. rewrite IH. unfold flush_line, nonempty at 2.
  destruct (String.length l =? 0)%nat; cbn [negb orb]; [reflexivity|].
  destruct (existsb nonempty ls); reflexivity.
Qed.

Lemma flush_lines_filename (s e : string) (ls : list Dialog) (st : ASSFormatter) :
  _filename (fold_left (flush_line s e) ls st) = _filename st.
Proof.
  revert st. induction ls as [|l ls IH]; intros st; [reflexivity|].
  cbn [fold_left]. rewrite IH. unfold flush_line.
  destruct (String.length l =? 0)%nat; [reflexivity|].
  destruct (_ass_file st); reflexivity.
Qed.

Lemma existsb_rev {A : Type} (f : A -> bool) (l : list A) :
  existsb f (rev l) = existsb f l.
Proof.
  induction l as [|a l IH]; [reflexivity|].
  cbn [rev existsb]. rewrite existsb_app, IH. cbn [existsb].
  rewrite orb_false_r. apply orb_comm.
Qed.

Lemma file_chunks_unopened (st : ASSFormatter) :
  file_written st = false -> file_chunks st = [].
Proof.
  unfold file_written, file_chunks.
  destruct (_ass_file st); [discriminate | reflexivity].
Qed.

(** The formatter a clear screen leaves, when there is a line buffer. *)
Lemma clear_screen_unfold (st : ASSFormatter) (t : Q) :
  _current_lines st <> [] ->
  clear_screen st t
  = Done (set_current_color "{\c&Hffffff&}"
            (set_current_textsize NORMAL
               (set_elapsed_time_s t
                  (if times_differ st t
                   then fold_left
                          (flush_line (asstime (_elapsed_time_s st))
                             (asstime (end_seconds st t)))
                          (rev (_current_lines st)) st
                   else st)))).
Proof.
  intros Hl. unfold clear_screen, times_differ.
  destruct (_current_lines st) as [|l0 ls] eqn:E; [congruence|].
  replace (negb (length (l0 :: ls) =? 0)%nat) with true by reflexivity.
  rewrite orb_true_r, andb_true_l. reflexivity.
Qed.

(** X3. A clear screen whose formatted start and end times are the same
    (as when it comes at the time of the last one) writes nothing and keeps
    the line buffers for a later clear screen; it still moves the start
    time on and resets the size and the colour. *)
Theorem clear_screen_equal_times_keeps_buffers (st : ASSFormatter) (t : Q) :
  _current_lines st <> [] ->
  times_differ st t = false ->
  exists st',
    clear_screen st t = Done st'
    /\ _current_lines st' = _current_lines st
    /\ file_chunks st' = file_chunks st
    /\ _elapsed_time_s st' = t
    /\ _current_textsize st' = NORMAL
    /\ _current_color st' = "{\c&Hffffff&}".
Proof.
  intros Hl Ht. rewrite (clear_screen_unfold st t Hl), Ht.
  eexists. split; [reflexivity|]. repeat split.
Qed.

Lemma clear_screen_equal_times_keeps_buffers_witness :
  times_differ (final (feed (ASSFormatter_init 5 "out.ass" false true)
                         [(Alphanumeric "A", 0%Q)])) 0 = false
  /\ exists st',
       clear_screen (final (feed (ASSFormatter_init 5 "out.ass" false true)
                              [(Alphanumeric "A", 0%Q)])) 0 = Done st'
       /\ _current_lines st' = ["A"].
Proof.
  split; [reflexivity|].
  destruct (clear_screen_equal_times_keeps_buffers
              (final (feed (ASSFormatter_init 5 "out.ass" false true)
                        [(Alphanumeric "A", 0%Q)])) 0)
    as (st' & H1 & H2 & _); [discriminate | reflexivity |].
  exists st'. split; [exact H1 | exact H2].
Defined.

(** X4. A clear screen that finds the output file unopened (only DRCS
    characters and positions were fed) and distinct formatted times throws
    the non-empty line buffers away: the buffers are reset to one empty
    buffer and no file is made. *)
Theorem clear_screen_unopened_file_discards (st : ASSFormatter) (t : Q) :
  file_written st = false ->
  times_differ st t = true ->
  existsb nonempty (_current_lines st) = true ->
  exists st',
    clear_screen st t = Done st'
    /\ _current_lines st' = [""]
    /\ file_written st' = false
    /\ file_chunks st' = [].
Proof.
  intros Hf Ht Hne.
  assert (Hl : _current_lines st <> [])
    by (destruct (_current_lines st); [discriminate Hne | discriminate]).
  rewrite (clear_screen_unfold st t Hl), Ht.
  eexists. split; [reflexivity|].
  cbn [_current_lines set_current_color set_current_textsize set_elapsed_time_s].
  rewrite flush_lines_lines, existsb_rev, Hne. split; [reflexivity|].
  assert (Hw : file_written
                 (fold_left (flush_line (asstime (_elapsed_time_s st))
                               (asstime (end_seconds st t)))
                    (rev (_current_lines st)) st) = false)
    by (rewrite <- Hf; apply flush_lines_keeps).
  split; [exact Hw | apply file_chunks_unopened; exact Hw].
Qed.

Lemma clear_screen_unopened_file_discards_witness :
  existsb nonempty
    (_current_lines (final (feed (ASSFormatter_init 5 "out.ass" false true)
                              [(DRCS 1 "", 0%Q)]))) = true
  /\ exists st',
       clear_screen (final (feed (ASSFormatter_init 5 "out.ass" false true)
                              [(DRCS 1 "", 0%Q)])) 1 = Done st'
       /\ _current_lines st' = [""]
       /\ file_written st' = false.
Proof.
  split; [reflexivity|].
  destruct (clear_screen_unopened_file_discards
              (final (feed (ASSFormatter_init 5 "out.ass" false true)
                        [(DRCS 1 "", 0%Q)])) 1)
    as (st' & H1 & H2 & H3 & _); [reflexivity | reflexivity | reflexivity |].
  exists st'. split; [exact H1 | split; [exact H2 | exact H3]].
Defined.

(** X5. A clear screen that finds the file open and distinct formatted
    times appends to the file one Dialogue per non-empty line buffer, the
    last buffer first, all with the same start and end, and leaves what was
    in the file as it was; when it wrote something it leaves one empty line
    buffer. *)
Theorem clear_screen_writes_buffers_reversed (st : ASSFormatter) (t : Q) :
  _current_lines st <> [] ->
  file_written st = true ->
  times_differ st t = true ->
  exists st',
    clear_screen st t = Done st'
    /\ file_chunks st'
       = (file_chunks st
          ++ map (dialogue_line (asstime (_elapsed_time_s st))
                    (asstime (end_seconds st t)))
               (rev (filter nonempty (_current_lines st))))%list
    /\ _current_lines st'
       = if existsb nonempty (_current_lines st) then [""]
         else _current_lines st.
Proof.
  intros Hl Hf Ht. rewrite (clear_screen_unfold st t Hl), Ht.
  eexists. split; [reflexivity|].
  cbn [_current_lines set_current_color set_current_textsize set_elapsed_time_s].
  autorewrite with formatter.
  rewrite flush_lines_chunks, Hf, filter_rev, flush_lines_lines, existsb_rev.
  split; reflexivity.
Qed.

Lemma clear_screen_writes_buffers_reversed_witness :
  exists st',
    clear_screen (final (feed (ASSFormatter_init 5 "out.ass" false true)
                           [(Alphanumeric "A", 0%Q); (APS 0 0, 0%Q);
                            (Alphanumeric "B", 0%Q)])) 1 = Done st'
    /\ skipn 3 (file_chunks st')
       = [dialogue_line "0:00:0.00" "0:00:1.00"
            "{\rnormal}{\c&Hffffff&}{\pos(170,90)}B";
          dialogue_line "0:00:0.00" "0:00:1.00" "A"]
    /\ _current_lines st' = [""].
Proof.
  destruct (clear_screen_writes_buffers_reversed
              (final (feed (ASSFormatter_init 5 "out.ass" false true)
                        [(Alphanumeric "A", 0%Q); (APS 0 0, 0%Q);
                         (Alphanumeric "B", 0%Q)])) 1)
    as (st' & H1 & H2 & H3); [discriminate | reflexivity | reflexivity |].
  exists st'. split; [exact H1|]. split.
  - rewrite H2. reflexivity.
  - rewrite H3. reflexivity.
Defined.

(** ** Colour and style *)

Lemma handle_keeps_known (st : ASSFormatter) (c : caption) (t : Q) :
  In (_current_color st) colour_overrides ->
  In (_current_style st) style_names ->
  In (_current_color (final (handle st c t))) colour_overrides
  /\ In (_current_style (final (handle st c t))) style_names.
Proof.
  intros Hc Hs. destruct (caption_eq_CS c) as [-> | Hn].
  - cbn [handle]. unfold clear_screen.
    destruct (_current_lines st) as [|l0 ls]; [split; assumption|].
    cbn [final _current_color _current_style set_current_color
         set_current_textsize set_elapsed_time_s].
    split; [cbn; tauto|].
    destruct (_ && _); [|assumption].
    destruct (flush_lines_keeps (asstime (_elapsed_time_s st))
                (asstime (end_seconds st t)) (rev (l0 :: ls)) st)
      as (_ & _ & -> & _). assumption.
  - destruct c; try congruence; unfold_handlers; split_lines;
      cbn [final set_current_lines set_current_style set_current_color
           set_current_textsize _current_style _current_color];
      autorewrite with formatter;
      (split; [first [assumption | cbn; tauto]
              | first [assumption | cbn; tauto]]).
Qed.

(** X6. Whatever tokens a new formatter is fed, its current colour is one
    of the eight colour overrides of the colour handlers and its current
    style is one of the three styles of the file, so every position starts
    its line with a style reset and a colour that exist. *)
Theorem colour_and_style_stay_known (tmax : Z) (video_filename : string)
    (verbose openable : bool) (tokens : list (caption * Q)) :
  In (_current_color
        (final (feed (ASSFormatter_init tmax video_filename verbose openable) tokens)))
     colour_overrides
  /\ In (_current_style
           (final (feed (ASSFormatter_init tmax video_filename verbose openable) tokens)))
        style_names.
Proof.
  assert (H : forall st,
            In (_current_color st) colour_overrides ->
            In (_current_style st) style_names ->
            In (_current_color (final (feed st tokens))) colour_overrides
            /\ In (_current_style (final (feed st tokens))) style_names).
  { induction tokens as [|[c t] tokens IH]; intros st Hc Hs.
    - split; assumption.
    - cbn [feed]. rewrite format_single.
      destruct (handle_keeps_known st c t Hc Hs) as [Hc1 Hs1].
      destruct (handle st c t) as [st1|e st1]; cbn [and_then final] in *.
      + apply IH; assumption.
      + split; assumption. }
  apply H; cbn; tauto.
Qed.

(** ** The layout of the output file *)

Lemma opened_chunks (st : ASSFormatter) :
  file_chunks (opened st)
  = if file_written st then file_chunks st
    else written (ASSFile_head (_filename st)).
Proof.
  unfold opened, file_chunks, file_written.
  destruct (_ass_file st) eqn:E.
  - rewrite E. reflexivity.
  - reflexivity.
Qed.

Lemma handle_filename (st : ASSFormatter) (c : caption) (t : Q) :
  _filename (final (handle st c t)) = _filename st.
Proof.
  destruct (caption_eq_CS c) as [-> | Hn].
  - cbn [handle]. unfold clear_screen.
    destruct (_current_lines st) as [|l0 ls]; [reflexivity|].
    cbn [final _filename set_current_color set_current_textsize
         set_elapsed_time_s].
    destruct (_ && _); [apply flush_lines_filename | reflexivity].
  - destruct c; try congruence; unfold_handlers; split_lines;
      cbn [final set_current_lines set_current_style set_current_color
           set_current_textsize _filename];
      rewrite ?opened_filename, ?announced_filename; reflexivity.
Qed.

(** The file after a token: what it had, or the head written when the
    token opened it, followed by what a clear screen wrote. *)
Lemma handle_chunks (st : ASSFormatter) (c : caption) (t : Q) :
  file_chunks (final (handle st c t))
  = ((if file_written st then file_chunks st
      else if file_written (final (handle st c t))
           then written (ASSFile_head (_filename st)) else [])
     ++ map render (match c with CS => flushed st t | _ => [] end))%list.
Proof.
  destruct (caption_eq_CS c) as [-> | Hn].
  - cbn [handle]. unfold clear_screen, flushed.
    destruct (_current_lines st) as [|l0 ls] eqn:E.
    + cbn [final rev filter map]. destruct (file_written st) eqn:Hf.
      * destruct (_ && _); rewrite app_nil_r; reflexivity.
      * rewrite (file_chunks_unopened st Hf). reflexivity.
    + cbn [final]. autorewrite with formatter.
      replace (negb (length (l0 :: ls) =? 0)%nat) with true by reflexivity.
      rewrite orb_true_r, andb_true_l. fold (times_differ st t).
      change (file_written (set_current_color ?a (set_current_textsize ?b
                (set_elapsed_time_s ?d ?f)))) with (file_written f).
      destruct (times_differ st t).
      * rewrite flush_lines_chunks.
        destruct (flush_lines_keeps (asstime (_elapsed_time_s st))
                    (asstime (end_seconds st t)) (rev (l0 :: ls)) st)
          as (_ & _ & _ & -> & _).
        destruct (file_written st) eqn:Hf; cbn [andb].
        -- rewrite map_map. reflexivity.
        -- rewrite (file_chunks_unopened st Hf). reflexivity.
      * rewrite andb_false_r. cbn [map]. rewrite app_nil_r.
        destruct (file_written st) eqn:Hf.
        -- reflexivity.
        -- apply file_chunks_unopened, Hf.
  - destruct c; try congruence; unfold_handlers; split_lines;
      cbn [final map];
      change (file_written (set_current_textsize ?a (set_current_style ?b
                (set_current_lines ?d ?f)))) with (file_written f);
      change (file_written (set_current_color ?a (set_current_lines ?d ?f)))
        with (file_written f);
      change (file_written (set_current_lines ?d ?f)) with (file_written f);
      autorewrite with formatter;
      rewrite ?opened_chunks, ?app_nil_r;
      destruct (file_written st) eqn:Hf;
      rewrite ?(file_chunks_unopened st Hf); reflexivity.
Qed.

Lemma feed_file_stays_open (tokens : list (caption * Q)) (st : ASSFormatter) :
  file_written st = true -> file_written (final (feed st tokens)) = true.
Proof.
  revert st. induction tokens as [|[c t] tokens IH]; intros st Hf.
  - exact Hf.
  - cbn [feed]. rewrite format_single.
    pose proof (handle_file_stays_open st c t Hf) as H1.
    destruct (handle st c t) as [st1|e st1]; cbn [and_then final] in *.
    + apply IH, H1.
    + exact H1.
Qed.

Lemma feed_chunks (tokens : list (caption * Q)) (st : ASSFormatter) :
  file_chunks (final (feed st tokens))
  = ((if file_written st then file_chunks st
      else if file_written (final (feed st tokens))
           then written (ASSFile_head (_filename st)) else [])
     ++ map render (events st tokens))%list.
Proof.
  revert st. induction tokens as [|[c t] tokens IH]; intros st.
  - cbn [feed final events map]. rewrite app_nil_r.
    destruct (file_written st) eqn:Hf; [reflexivity|].
    apply file_chunks_unopened, Hf.
  - cbn [feed events]. rewrite format_single, map_app, app_assoc.
    pose proof (handle_chunks st c t) as Hstep.
    pose proof (handle_filename st c t) as Hname.
    pose proof (handle_file_stays_open st c t) as Hopen.
    destruct (handle st c t) as [st1|e st1]; cbn [and_then final] in *.
    + rewrite IH. f_equal.
      destruct (file_written st1) eqn:Hf1.
      * rewrite Hstep. destruct (file_written st) eqn:Hf; [reflexivity|].
        rewrite (feed_file_stays_open tokens st1 Hf1). reflexivity.
      * destruct (file_written st) eqn:Hf; [discriminate (Hopen eq_refl)|].
        rewrite Hname.
        replace (map render match c with CS => flushed st t | _ => [] end)
          with (@nil string); [rewrite app_nil_r; reflexivity|].
        destruct c; try reflexivity. unfold flushed. rewrite Hf. reflexivity.
    + cbn [map]. rewrite app_nil_r. exact Hstep.
Qed.

(** X7. The output file of a new formatter, once some token has opened it,
    holds the header, the styles and the event header, written once and
    first, and after them nothing but the Dialogue lines of the clear
    screens, in the order of the clear screens; until a token opens it
    there is no file. *)
Theorem output_file_layout (tmax : Z) (video_filename : string)
    (verbose openable : bool) (tokens : list (caption * Q)) :
  file_chunks
    (final (feed (ASSFormatter_init tmax video_filename verbose openable) tokens))
  = if file_written
         (final (feed (ASSFormatter_init tmax video_filename verbose openable) tokens))
    then ([header_text 960 540 video_filename; styles_text; event_header_text]
          ++ map render
               (events (ASSFormatter_init tmax video_filename verbose openable) tokens))%list
    else [].
Proof.
  rewrite feed_chunks.
  change (file_written (ASSFormatter_init tmax video_filename verbose openable))
    with false.
  cbv iota.
  destruct (file_written
              (final (feed (ASSFormatter_init tmax video_filename verbose openable)
                        tokens))) eqn:Hf.
  - reflexivity.
  - rewrite <- (file_chunks_unopened _ Hf) at 2. rewrite feed_chunks.
    change (file_written (ASSFormatter_init tmax video_filename verbose openable))
      with false.
    cbv iota. rewrite Hf. reflexivity.
Qed.

(** ** Characters, then a clear screen *)

Lemma handle_char (st : ASSFormatter) (c : caption) (s : string) (t : Q)
    (front : list Dialog) (l : Dialog) :
  char_text c = Some s ->
  _current_lines st = (front ++ [l])%list ->
  handle st c t
  = if can_write st
    then Done (set_current_lines (front ++ [(l ++ s)%string]) (opened st))
    else Raised FileOpenError (announced st).
Proof.
  intros Hc Hl.
  destruct c; try discriminate Hc; injection Hc as ->;
    unfold_handlers;
    first [ rewrite Hcw, opened_lines, Hl;
            (destruct (front ++ [l])%list eqn:E;
             [destruct front; discriminate E|]);
            rewrite <- E, removelast_last, last_last; reflexivity
          | unfold can_write; rewrite Hfw, Hw; reflexivity ].
Qed.

Lemma string_app_assoc (a b c : string) : (a ++ b) ++ c = a ++ b ++ c.
Proof.
  induction a as [|x a IH]; [reflexivity|].
  cbn [String.append]. rewrite IH. reflexivity.
Qed.

(** One call of [format] is the tokens fed one by one with its timestamp. *)
Lemma format_as_feed (cs : list caption) (st : ASSFormatter) (t : Q) :
  format st cs t = feed st (map (fun c => (c, t)) cs).
Proof.
  revert st. induction cs as [|c cs IH]; intros st; [reflexivity|].
  cbn [map feed]. rewrite format_single. cbn [format].
  destruct (handle st c t); cbn [and_then]; [apply IH | reflexivity].
Qed.

Lemma format_chars (cs : list caption) (st : ASSFormatter) (t : Q)
    (front : list Dialog) (l : Dialog) :
  Forall (fun c => char_text c <> None) cs ->
  _current_lines st = (front ++ [l])%list ->
  can_write st = true ->
  exists st',
    format st cs t = Done st'
    /\ _current_lines st' = (front ++ [(l ++ joined_text cs)%string])%list
    /\ _elapsed_time_s st' = _elapsed_time_s st
    /\ _tmax st' = _tmax st
    /\ dialogues st' = dialogues st
    /\ (cs <> [] -> file_written st' = true).
Proof.
  revert st l. induction cs as [|c cs IH]; intros st l Hcs Hl Hw.
  - exists st. split; [reflexivity|]. cbn [joined_text].
    replace (l ++ "") with l
      by (clear; induction l as [|x l IH]; [reflexivity|];
          cbn [String.append]; rewrite <- IH; reflexivity).
    repeat split; auto; congruence.
  - inversion Hcs as [|? ? Hc Hcs']; subst.
    destruct (char_text c) as [s|] eqn:Ec; [|congruence].
    cbn [format joined_text]. rewrite Ec.
    rewrite (handle_char st c s t front l Ec Hl), Hw. cbn [and_then].
    assert (Hopen : file_written
                      (set_current_lines (front ++ [(l ++ s)%string]) (opened st))
                    = true) by apply opened_written.
    assert (Hw1 : can_write
                    (set_current_lines (front ++ [(l ++ s)%string]) (opened st))
                  = true) by (unfold can_write; rewrite Hopen; reflexivity).
    destruct (IH (set_current_lines (front ++ [(l ++ s)%string]) (opened st))
                (l ++ s) Hcs' eq_refl Hw1)
      as (st' & H1 & H2 & H3 & H4 & H5 & _).
    exists st'. split; [exact H1|].
    rewrite H2, H3, H4, H5, string_app_assoc.
    cbn [_elapsed_time_s _tmax set_current_lines].
    autorewrite with formatter. unfold dialogues at 1.
    autorewrite with formatter. repeat split.
    intros _.
    pose proof (feed_file_stays_open (map (fun c => (c, t)) cs) _ Hopen) as H.
    rewrite <- format_as_feed, H1 in H. exact H.
Qed.



(** ** The control sequence that sets the position *)

Lemma strip_sound (p s r : string) :
  Regex.strip p s = Some r -> s = p ++ r.
Proof.
  revert s. induction p as [|a p IH]; intros s H.
  - cbn in H. injection H as ->. reflexivity.
  - destruct s as [|b s]; [discriminate H|]. cbn [Regex.strip] in H.
    destruct (Ascii.eqb a b) eqn:E; [|discriminate H].
    apply Ascii.eqb_eq in E. subst b.
    cbn [String.append]. f_equal. apply IH, H.
Qed.

(** An ASCII digit is a decimal digit of one byte. *)
Lemma digit_at_ascii (c : ascii) (s : string) :
  is_ascii_digit c = true ->
  Regex.digit_at (String c s) = Some (String c EmptyString, s).
Proof.
  destruct c as [[] [] [] [] [] [] [] []]; intros H;
    try discriminate H; reflexivity.
Qed.

Lemma take_digits_app (d r : string) (k : nat) :
  all_digits d = true -> (String.length d <= k)%nat ->
  Regex.digit_at r = None ->
  Regex.take_digits k (d ++ r) = (d, r).
Proof.
  intros Hd Hk Hr. revert k Hk. induction d as [|c d IH]; intros k Hk.
  - cbn [String.append]. destruct k; cbn [Regex.take_digits]; [reflexivity|].
    rewrite Hr. reflexivity.
  - cbn [all_digits] in Hd. apply andb_true_iff in Hd. destruct Hd as [Hc Hd].
    destruct k as [|k]; [cbn in Hk; lia|].
    cbn [String.append Regex.take_digits].
    rewrite (digit_at_ascii c _ Hc), (IH Hd k) by (cbn in Hk; lia).
    reflexivity.
Qed.

Lemma first_char_sound (s d r : string) (cp : Z) :
  Regex.first_char s = Some (cp, d, r) ->
  s = d ++ r /\ d <> ""
  /\ forall r', Regex.first_char (d ++ r') = Some (cp, d, r').
Proof.
  unfold Regex.first_char. intros H.
  destruct s as [|a s1]; [discriminate H|].
  destruct (Regex.byte_of a <? 128) eqn:E1.
  { injection H as <- <- <-. split; [reflexivity|]. split; [discriminate|].
    intros r'. cbn [String.append]. rewrite E1. reflexivity. }
  destruct ((194 <=? Regex.byte_of a) && (Regex.byte_of a <=? 223)) eqn:E2.
  { destruct s1 as [|b s2]; [discriminate H|].
    destruct (Regex.is_cont b) eqn:Eb; [|discriminate H].
    injection H as <- <- <-. split; [reflexivity|]. split; [discriminate|].
    intros r'. cbn [String.append]. rewrite E1, E2, Eb. reflexivity. }
  destruct ((224 <=? Regex.byte_of a) && (Regex.byte_of a <=? 239)) eqn:E3.
  { destruct s1 as [|b [|c s3]]; try discriminate H.
    match type of H with
    | (if ?cond then _ else _) = _ => destruct cond eqn:Ec; [|discriminate H]
    end.
    injection H as <- <- <-. split; [reflexivity|]. split; [discriminate|].
    intros r'. cbn [String.append]. rewrite E1, E2, E3, Ec. reflexivity. }
  destruct ((240 <=? Regex.byte_of a) && (Regex.byte_of a <=? 244)) eqn:E4;
    [|discriminate H].
  destruct s1 as [|b [|c [|d0 s4]]]; try discriminate H.
  match type of H with
  | (if ?cond then _ else _) = _ => destruct cond eqn:Ec; [|discriminate H]
  end.
  injection H as <- <- <-. split; [reflexivity|]. split; [discriminate|].
  intros r'. cbn [String.append]. rewrite E1, E2, E3, E4, Ec. reflexivity.
Qed.

Lemma digit_at_sound (s d r : string) :
  Regex.digit_at s = Some (d, r) ->
  s = d ++ r /\ d <> ""
  /\ forall r', Regex.digit_at (d ++ r') = Some (d, r').
Proof.
  unfold Regex.digit_at. intros H.
  destruct (Regex.first_char s) as [[[cp d1] r1]|] eqn:E; [|discriminate H].
  destruct (Regex.is_decimal cp) eqn:Ed; [|discriminate H].
  injection H as <- <-.
  destruct (first_char_sound s d1 r1 cp E) as (H1 & H2 & H3).
  split; [exact H1|]. split; [exact H2|].
  intros r'. rewrite H3, Ed. reflexivity.
Qed.

Lemma take_digits_sound (k : nat) (s d r : string) :
  Regex.take_digits k s = (d, r) ->
  s = d ++ r /\ Regex.take_digits k d = (d, "").
Proof.
  revert s d r. induction k as [|k IH]; intros s d r H.
  - cbn in H. injection H as <- <-. split; reflexivity.
  - cbn [Regex.take_digits] in H.
    destruct (Regex.digit_at s) as [[d1 r1]|] eqn:E.
    + destruct (Regex.take_digits k r1) as [ds r'] eqn:Et.
      injection H as <- <-.
      destruct (digit_at_sound s d1 r1 E) as (-> & _ & Hat).
      destruct (IH r1 ds r' Et) as [-> Hds].
      split; [symmetry; apply string_app_assoc|].
      cbn [Regex.take_digits]. rewrite Hat, Hds. reflexivity.
    + injection H as <- <-. split; reflexivity.
Qed.

Lemma digits_then_app (lit d r : string) :
  all_digits d = true ->
  (1 <= String.length d <= 4)%nat ->
  Regex.digit_at (lit ++ r) = None ->
  Regex.digits_then lit (d ++ lit ++ r) = Some (d, r).
Proof.
  intros Hd Hlen Hlit. unfold Regex.digits_then.
  rewrite (take_digits_app d (lit ++ r) 4 Hd) by (lia || exact Hlit).
  destruct d as [|c d]; [cbn in Hlen; lia|].
  cbn [String.eqb negb]. rewrite strip_app. reflexivity.
Qed.

Lemma digits_then_sound (lit s d r : string) :
  Regex.digits_then lit s = Some (d, r) ->
  s = d ++ lit ++ r /\ digit_run d = true.
Proof.
  unfold Regex.digits_then. intros H.
  destruct (Regex.take_digits 4 s) as [d' r'] eqn:Es.
  destruct (negb (String.eqb d' "")) eqn:El; [|discriminate H].
  destruct (Regex.strip lit r') as [r''|] eqn:Er; [|discriminate H].
  injection H as <- <-.
  apply take_digits_sound in Es. destruct Es as [-> Hd].
  apply strip_sound in Er. subst r'.
  split; [reflexivity|]. unfold digit_run. rewrite Hd, El. reflexivity.
Qed.

Lemma a_match_here_position (gx gy r : string) :
  all_digits gx = true -> (1 <= String.length gx <= 4)%nat ->
  all_digits gy = true -> (1 <= String.length gy <= 4)%nat ->
  Regex.a_match_here
    ("<CS:" ++ Py.dquote ++ gx ++ ";" ++ gy ++ " a" ++ Py.dquote ++ ">" ++ r)
  = Some (gx, gy).
Proof.
  intros Hx Lx Hy Ly. unfold Regex.a_match_here.
  change ("<CS:" ++ Py.dquote ++ gx ++ ";" ++ gy ++ " a" ++ Py.dquote ++ ">" ++ r)
    with (("<CS:" ++ Py.dquote)
          ++ gx ++ ";" ++ gy ++ (" a" ++ Py.dquote ++ ">") ++ r).
  rewrite strip_app.
  rewrite (digits_then_app ";" gx _ Hx Lx) by reflexivity.
  rewrite (digits_then_app (" a" ++ Py.dquote ++ ">") gy r Hy Ly) by reflexivity.
  reflexivity.
Qed.

Lemma a_match_here_sound (s gx gy : string) :
  Regex.a_match_here s = Some (gx, gy) ->
  digit_run gx = true /\ digit_run gy = true
  /\ exists r,
       s = "<CS:" ++ Py.dquote ++ gx ++ ";" ++ gy ++ " a" ++ Py.dquote ++ ">" ++ r.
Proof.
  unfold Regex.a_match_here. intros H.
  destruct (Regex.strip ("<CS:" ++ Py.dquote) s) as [r1|] eqn:E1;
    [|discriminate H].
  destruct (Regex.digits_then ";" r1) as [[x r2]|] eqn:E2; [|discriminate H].
  destruct (Regex.digits_then (" a" ++ Py.dquote ++ ">") r2) as [[y r3]|] eqn:E3;
    [|discriminate H].
  injection H as <- <-.
  apply strip_sound in E1. apply digits_then_sound in E2, E3.
  destruct E2 as (-> & Hx). destruct E3 as (-> & Hy). subst s.
  split; [exact Hx|]. split; [exact Hy|].
  exists r3. reflexivity.
Qed.

Lemma a_search_here (cmd : string) (g : string * string) :
  Regex.a_match_here cmd = Some g -> Regex.a_search cmd = Some g.
Proof.
  intros H. destruct cmd; cbn [Regex.a_search]; rewrite H; reflexivity.
Qed.

Lemma a_search_sound (cmd gx gy : string) :
  Regex.a_search cmd = Some (gx, gy) ->
  digit_run gx = true /\ digit_run gy = true
  /\ exists pre post,
       cmd = pre ++ "<CS:" ++ Py.dquote ++ gx ++ ";" ++ gy ++ " a"
               ++ Py.dquote ++ ">" ++ post.
Proof.
  induction cmd as [|c cmd IH]; intros H.
  - cbn [Regex.a_search] in H.
    destruct (Regex.a_match_here "") as [g|] eqn:E; [|discriminate H].
    injection H as ->. apply a_match_here_sound in E.
    destruct E as (Hx & Hy & r & Hr).
    split; [exact Hx|]. split; [exact Hy|]. exists "", r. exact Hr.
  - cbn [Regex.a_search] in H.
    destruct (Regex.a_match_here (String c cmd)) as [g|] eqn:E.
    + injection H as ->. apply a_match_here_sound in E.
      destruct E as (Hx & Hy & r & Hr).
      split; [exact Hx|]. split; [exact Hy|]. exists "", r. exact Hr.
    + destruct (IH H) as (Hx & Hy & pre & post & ->).
      split; [exact Hx|]. split; [exact Hy|].
      exists (String c pre), post. reflexivity.
Qed.

(** X9. The control sequence whose text is <CS:"x;y a">, with x and y of
    one to four digits, starts a new line buffer holding the style reset,
    the current colour, the position (x,y) as given and the alignment 1; it
    does not open the file and leaves the other buffers as they are. *)
Theorem csi_position_starts_line (st : ASSFormatter) (gx gy : string) :
  all_digits gx = true -> (1 <= String.length gx <= 4)%nat ->
  all_digits gy = true -> (1 <= String.length gy <= 4)%nat ->
  control_character st (csi_position_text gx gy)
  = Done (set_current_lines
            (_current_lines st
             ++ [("{\r" ++ _current_style st ++ "}" ++ _current_color st
                  ++ "{\pos(" ++ gx ++ "," ++ gy ++ ")}{\an1}")%string])
            st).
Proof.
  intros Hx Lx Hy Ly. unfold control_character, csi_position_text.
  rewrite (a_search_here _ (gx, gy)); [reflexivity|].
  change ("<CS:" ++ Py.dquote ++ gx ++ ";" ++ gy ++ " a" ++ Py.dquote ++ ">")
    with ("<CS:" ++ Py.dquote ++ gx ++ ";" ++ gy ++ " a" ++ Py.dquote
            ++ ">" ++ "").
  apply a_match_here_position; assumption.
Qed.

Lemma csi_position_starts_line_witness :
  control_character (ASSFormatter_init 5 "out.ass" false true)
    (csi_position_text "170" "389")
  = Done (set_current_lines
            [""; "{\rnormal}{\c&Hffffff&}{\pos(170,389)}{\an1}"]
            (ASSFormatter_init 5 "out.ass" false true)).
Proof.
  apply (csi_position_starts_line (ASSFormatter_init 5 "out.ass" false true)
           "170" "389"); first [reflexivity | cbn; lia].
Defined.


(** ** Positions in the three sizes *)

Lemma str_float_integral (q : Q) (z : Z) :
  0 <= z -> (q == inject_Z z)%Q ->
  Num.str_float q = Py.str_int z ++ ".0".
Proof.
  intros Hz Hq. unfold Num.str_float.
  assert (Hq0 : (0 <= q)%Q).
  { rewrite Hq. rewrite Zle_Qle in Hz. exact Hz. }
  assert (Habs : (Qabs q == inject_Z z)%Q)
    by (rewrite (Qabs_pos q Hq0); exact Hq).
  replace (Py.ltb q 0) with false by (symmetry; apply ltb_ge; exact Hq0).
  assert (Hfl : Qfloor (Qabs q) = z) by (rewrite Habs; apply Qfloor_Z).
  rewrite Hfl.
  assert (Hfrac : Qred (Qabs q - inject_Z z) = 0%Q).
  { change 0%Q with (Qred 0). apply Qred_complete. rewrite Habs. ring. }
  rewrite Hfrac.
  destruct (Pos2Nat.is_succ (Qden (Qred (Qabs q)))) as [k ->].
  reflexivity.
Qed.

(** The positions of the caption area of horizontal mode, with the type of
    each coordinate. *)
Lemma RowCol2ScreenPos_shape (row col : Z) :
  RowCol2ScreenPos ClosedCaptionArea_init row col NORMAL
    = mkPos (PyInt (170 + col * 40)) (PyInt (30 + (row + 1) * 60))
  /\ (exists qx,
        RowCol2ScreenPos ClosedCaptionArea_init row col MEDIUM
          = mkPos (PyFloat qx) (PyInt (30 + (row + 1) * 60))
        /\ (qx == inject_Z (170 + col * 20))%Q)
  /\ (exists qx qy,
        RowCol2ScreenPos ClosedCaptionArea_init row col SMALL
          = mkPos (PyFloat qx) (PyFloat qy)
        /\ (qx == inject_Z (170 + col * 20))%Q
        /\ (qy == inject_Z (30 + (row + 1) * 30))%Q).
Proof.
  cbv [RowCol2ScreenPos ClosedCaptionArea_init TextSize_eqb orb
       _UL _CharacterDim _char_spacing _line_spacing _w _h _x _y
       Num.add Num.mul Num.half Num.val].
  change (36 + 4) with 40. change (36 + 24) with 60.
  split; [reflexivity|]. split.
  - eexists. split; [reflexivity|]. unfold Qeq; cbn -[Z.mul Z.add]; lia.
  - eexists. eexists. split; [reflexivity|].
    split; unfold Qeq; cbn -[Z.mul Z.add]; lia.
Qed.

(** X11. With the caption area of horizontal mode, an APS at a row and a
    column that are not negative starts a new line buffer with the style
    reset, the current colour and the position.  In NORMAL size the
    coordinates are written as ints; in MEDIUM size the x coordinate, and
    in SMALL size both, are written as floats, with a trailing .0. *)
Theorem position_set_coordinates (st : ASSFormatter) (row col : Z) :
  _CCArea st = ClosedCaptionArea_init ->
  0 <= row -> 0 <= col ->
  position_set st row col
  = Done (set_current_lines
            (_current_lines st
             ++ [("{\r" ++ _current_style st ++ "}" ++ _current_color st
                  ++ "{\pos("
                  ++ match _current_textsize st with
                     | NORMAL => Py.str_int (170 + col * 40)
                     | _ => Py.str_int (170 + col * 20) ++ ".0"
                     end
                  ++ ","
                  ++ match _current_textsize st with
                     | SMALL => Py.str_int (30 + (row + 1) * 30) ++ ".0"
                     | _ => Py.str_int (30 + (row + 1) * 60)
                     end
                  ++ ")}")%string])
            st).
Proof.
  intros Ha Hr Hc. unfold position_set. rewrite Ha.
  destruct (RowCol2ScreenPos_shape row col)
    as (Hn & (mx & Hm & Hmx) & (sx & sy & Hs & Hsx & Hsy)).
  destruct (_current_textsize st).
  - rewrite Hs. cbn [_x _y Num.str].
    rewrite (str_float_integral sx (170 + col * 20)) by (lia || exact Hsx).
    rewrite (str_float_integral sy (30 + (row + 1) * 30)) by (lia || exact Hsy).
    reflexivity.
  - rewrite Hm. cbn [_x _y Num.str].
    rewrite (str_float_integral mx (170 + col * 20)) by (lia || exact Hmx).
    reflexivity.
  - rewrite Hn. reflexivity.
Qed.

Lemma position_set_coordinates_witness :
  position_set
    (final (feed (ASSFormatter_init 5 "out.ass" false true) [(SSZ, 0%Q)])) 2 3
  = Done (set_current_lines
            ["{\rsmall}{\c&Hffffff&}";
             "{\rsmall}{\c&Hffffff&}{\pos(230.0,120.0)}"]
            (final (feed (ASSFormatter_init 5 "out.ass" false true) [(SSZ, 0%Q)]))).
Proof.
  apply (position_set_coordinates
           (final (feed (ASSFormatter_init 5 "out.ass" false true) [(SSZ, 0%Q)]))
           2 3); [reflexivity | lia | lia].
Defined.

(** ** The parts of a formatted time *)

Lemma fmt_02d_two_digits (m : Z) :
  0 <= m < 60 -> String.length (Py.fmt_02d m) = 2%nat.
Proof.
  intros Hm.
  assert (Hall : forallb (fun n => (String.length (Py.fmt_02d (Z.of_nat n)) =? 2)%nat)
                   (seq 0 60) = true) by (vm_compute; reflexivity).
  rewrite forallb_forall in Hall.
  specialize (Hall (Z.to_nat m)).
  rewrite Z2Nat.id in Hall by lia.
  apply Nat.eqb_eq, Hall, in_seq. lia.
Qed.

(** X12. For seconds that are not negative, [asstime] prints the whole
    hours, then the whole minutes left, which are below 60 and take exactly
    two characters, then the seconds left, which are below 60, in the
    format [02.2f]; hours, minutes and seconds add up to the time given. *)
Theorem asstime_parts (seconds : Q) :
  (0 <= seconds)%Q ->
  exists (hrs mins : Z) (secs : Q),
    0 <= hrs /\ 0 <= mins < 60 /\ (0 <= secs)%Q /\ (secs < 60)%Q
    /\ (seconds == inject_Z hrs * 3600 + inject_Z mins * 60 + secs)%Q
    /\ asstime seconds
       = Py.str_int hrs ++ ":" ++ Py.fmt_02d mins ++ ":" ++ Py.fmt_02_2f secs
    /\ String.length (Py.fmt_02d mins) = 2%nat.
Proof.
  intros H0. unfold asstime.
  set (hrs := Py.int_of (seconds / 3600)).
  set (s1 := (seconds - inject_Z (3600 * hrs))%Q).
  set (mins := Py.int_of (s1 / 60)).
  set (secs := (s1 - inject_Z (60 * mins))%Q).
  assert (Hdiv : (seconds == seconds / 3600 * 3600)%Q) by field.
  assert (Hq : (0 <= seconds / 3600)%Q)
    by (apply Qle_shift_div_l; [reflexivity | lra]).
  assert (Hh : hrs = Qfloor (seconds / 3600)) by (apply int_of_floor, Hq).
  pose proof (Qfloor_le (seconds / 3600)) as Hh1.
  pose proof (Qlt_floor (seconds / 3600)) as Hh2.
  rewrite <- Hh in Hh1, Hh2. rewrite inject_Z_plus in Hh2.
  change (inject_Z 1) with 1%Q in Hh2.
  assert (Hs1 : (s1 == seconds - inject_Z hrs * 3600)%Q).
  { unfold s1. rewrite inject_Z_mult. change (inject_Z 3600) with 3600%Q. ring. }
  assert (Hs1lo : (0 <= s1)%Q) by lra.
  assert (Hs1hi : (s1 < 3600)%Q) by lra.
  assert (Hdiv1 : (s1 == s1 / 60 * 60)%Q) by field.
  assert (Hs1q : (0 <= s1 / 60)%Q)
    by (apply Qle_shift_div_l; [reflexivity | lra]).
  assert (Hm : mins = Qfloor (s1 / 60)) by (apply int_of_floor, Hs1q).
  pose proof (Qfloor_le (s1 / 60)) as Hm1.
  pose proof (Qlt_floor (s1 / 60)) as Hm2.
  rewrite <- Hm in Hm1, Hm2. rewrite inject_Z_plus in Hm2.
  change (inject_Z 1) with 1%Q in Hm2.
  assert (Hsecs : (secs == s1 - inject_Z mins * 60)%Q).
  { unfold secs. rewrite inject_Z_mult. change (inject_Z 60) with 60%Q. ring. }
  assert (Hhz : 0 <= hrs).
  { rewrite Hh. change 0 with (Qfloor 0). apply Qfloor_resp_le, Hq. }
  assert (Hmz : 0 <= mins < 60).
  { split.
    - rewrite Hm. change 0 with (Qfloor 0). apply Qfloor_resp_le, Hs1q.
    - rewrite Zlt_Qlt. change (inject_Z 60) with 60%Q. lra. }
  exists hrs, mins, secs.
  split; [exact Hhz|]. split; [exact Hmz|].
  split; [lra|]. split; [lra|]. split; [lra|].
  split; [reflexivity|]. apply fmt_02d_two_digits, Hmz.
Qed.

Lemma asstime_parts_witness :
  exists (hrs mins : Z) (secs : Q),
    0 <= hrs /\ 0 <= mins < 60 /\ (0 <= secs)%Q /\ (secs < 60)%Q
    /\ (372345 # 100 == inject_Z hrs * 3600 + inject_Z mins * 60 + secs)%Q
    /\ asstime (372345 # 100)
       = Py.str_int hrs ++ ":" ++ Py.fmt_02d mins ++ ":" ++ Py.fmt_02_2f secs
    /\ String.length (Py.fmt_02d mins) = 2%nat.
Proof.
  apply (asstime_parts (372345 # 100)). intro H. discriminate H.
Defined.

(** ** Reading fields *)

Lemma byte_val_bounds (b : byte) : 0 <= byte_val b < 256.
Proof.
  unfold byte_val. pose proof (Byte.to_N_bounded b). lia.
Qed.

Lemma be_fold_bounds (bs : list byte) (acc : Z) :
  0 <= acc ->
  acc * 256 ^ Z.of_nat (length bs)
  <= fold_left (fun a b => a * 256 + byte_val b) bs acc
  < (acc + 1) * 256 ^ Z.of_nat (length bs).
Proof.
  revert acc. induction bs as [|b bs IH]; intros acc Hacc.
  - cbn [length fold_left Z.of_nat]. rewrite Z.pow_0_r. lia.
  - cbn [length fold_left]. rewrite Nat2Z.inj_succ, Z.pow_succ_r by lia.
    pose proof (byte_val_bounds b) as Hb.
    specialize (IH (acc * 256 + byte_val b) ltac:(lia)).
    assert (Hp : 0 < 256 ^ Z.of_nat (length bs)) by (apply Z.pow_pos_nonneg; lia).
    nia.
Qed.

Lemma be_val_bounds (bs : list byte) :
  0 <= be_val bs < 256 ^ Z.of_nat (length bs).
Proof.
  unfold be_val. pose proof (be_fold_bounds bs 0 ltac:(lia)). lia.
Qed.

Lemma read_unsigned_ok (n : nat) (f rest : list byte) (v : Z) :
  read.unsigned n f = Ok (v, rest) ->
  exists bs, f = (bs ++ rest)%list /\ length bs = n /\ v = be_val bs.
Proof.
  unfold read.unsigned, read.buffer, rbind, ret. intros H.
  destruct (n <=? length f)%nat eqn:E; [|discriminate H].
  injection H as <- <-. apply Nat.leb_le in E.
  exists (firstn n f). split; [symmetry; apply firstn_skipn|].
  split; [apply firstn_length_le, E | reflexivity].
Qed.

Lemma read_ucb_ok (f rest : list byte) (v : Z) :
  read.ucb f = Ok (v, rest) -> exists b, f = b :: rest /\ v = byte_val b.
Proof.
  intros H. apply read_unsigned_ok in H. destruct H as (bs & -> & Hl & ->).
  destruct bs as [|b [|? ?]]; try discriminate Hl.
  exists b. split; [reflexivity|]. unfold be_val. cbn. reflexivity.
Qed.

Lemma times_length {A : Type} (m : reader A) (n : nat) (f rest : list byte)
    (l : list A) :
  times n m f = Ok (l, rest) -> length l = n.
Proof.
  revert f l. induction n as [|n IH]; intros f l H.
  - cbn in H. injection H as <- <-. reflexivity.
  - cbn [times] in H. unfold rbind at 1 in H.
    destruct (m f) as [[a f1]|]; [|discriminate H].
    unfold rbind at 1 in H.
    destruct (times n m f1) as [[l1 f2]|] eqn:E; [|discriminate H].
    injection H as <- <-. cbn [length]. f_equal. apply (IH f1 l1 E).
Qed.

Lemma times_ucb_consumed (n : nat) (f rest : list byte) (l : list Z) :
  times n read.ucb f = Ok (l, rest) -> length f = (n + length rest)%nat.
Proof.
  revert f l. induction n as [|n IH]; intros f l H.
  - cbn in H. injection H as <- <-. reflexivity.
  - cbn [times] in H. unfold rbind at 1 in H.
    destruct (read.ucb f) as [[a f1]|] eqn:E1; [|discriminate H].
    unfold rbind at 1 in H.
    destruct (times n read.ucb f1) as [[l1 f2]|] eqn:E; [|discriminate H].
    injection H as <- <-. apply read_ucb_ok in E1. destruct E1 as (b & -> & _).
    cbn [length]. rewrite (IH f1 l1 E). lia.
Qed.

Lemma font_id_zero (b : byte) : Z.shiftr (Z.land (byte_val b) 0xF0) 8 = 0.
Proof. destruct b; reflexivity. Qed.

(** ** DRCS fonts *)

(** X13. A DRCS font that is read has mode 0 or 1 and font id 0 (the
    high four bits of the packed byte are shifted right by 8, which leaves
    nothing of them); it holds width*height/4 pixel bytes, read after the
    four bytes of the packed byte, depth, width and height; its hash is
    that of the text of the list of pixel bytes; and its character is the
    entry of the table for that hash, or U+FFFD when there is none. *)
Theorem DRCSFont_init_shape (hash : string -> Z) (f rest : list byte)
    (font : DRCSFont) :
  DRCSFont_init hash f = Ok (font, rest) ->
  (_mode font = 0 \/ _mode font = 1)
  /\ _font_id font = 0
  /\ length (_pixels font)
     = Z.to_nat (Z.quot (_width_px font * _height_px font) 4)
  /\ length f = (4 + length (_pixels font) + length rest)%nat
  /\ _hash font = hash (str_list (_pixels font))
  /\ _character font
     = match dict_get character_hashes (_hash font) with
       | Some c => c
       | None => replacement_character
       end.
Proof.
  unfold DRCSFont_init. intros H.
  unfold rbind at 1 in H.
  destruct (read.ucb f) as [[b f1]|] eqn:E1; [|discriminate H].
  destruct ((Z.land b 15 =? 0) || (Z.land b 15 =? 1)) eqn:Em;
    [|discriminate H].
  unfold rbind at 1 in H.
  destruct (read.ucb f1) as [[depth f2]|] eqn:E2; [|discriminate H].
  unfold rbind at 1 in H.
  destruct (read.ucb f2) as [[w f3]|] eqn:E3; [|discriminate H].
  unfold rbind at 1 in H.
  destruct (read.ucb f3) as [[h f4]|] eqn:E4; [|discriminate H].
  unfold rbind at 1 in H.
  destruct (times (Z.to_nat (Z.quot (w * h) 4)) read.ucb f4)
    as [[pixels f5]|] eqn:E5; [|discriminate H].
  unfold ret in H. injection H as <- <-.
  cbn [_mode _font_id _pixels _width_px _height_px _hash _character].
  apply read_ucb_ok in E1, E2, E3, E4.
  destruct E1 as (b0 & -> & ->). destruct E2 as (b1 & -> & _).
  destruct E3 as (b2 & -> & _). destruct E4 as (b3 & -> & _).
  split.
  { apply orb_true_iff in Em. destruct Em as [Em | Em];
      apply Z.eqb_eq in Em; [left | right]; exact Em. }
  split; [apply font_id_zero|].
  split; [exact (times_length _ _ _ _ _ E5)|].
  split.
  { cbn [length]. rewrite (times_ucb_consumed _ _ _ _ E5).
    rewrite (times_length _ _ _ _ _ E5). lia. }
  split; reflexivity.
Qed.

Lemma DRCSFont_init_shape_witness :
  DRCSFont_init music_note_hash music_note_font_bytes
    = Ok (mkDRCSFont 0 1 2 4 4 [5; 6; 7; 255] (-3174437220813644284) "♬", [])
  /\ length [5; 6; 7; 255] = Z.to_nat (Z.quot (4 * 4) 4)
  /\ length music_note_font_bytes = (4 + length [5; 6; 7; 255] + 0)%nat.
Proof.
  assert (H : DRCSFont_init music_note_hash music_note_font_bytes
              = Ok (mkDRCSFont 0 1 2 4 4 [5; 6; 7; 255]
                      (-3174437220813644284) "♬", [])) by reflexivity.
  split; [exact H|].
  destruct (DRCSFont_init_shape music_note_hash music_note_font_bytes [] _ H)
    as (_ & _ & H3 & H4 & _).
  split; [exact H3 | exact H4].
Defined.

(** ** Data units *)

(** X14. A data unit of a type other than statement body (0x20) and DRCS
    (0x30) is skipped: its payload is read past and dropped, the unit has
    no payload object, and its [size()] is the number of bytes it took
    from the stream. *)
Theorem DataUnit_init_unknown_type_skipped
    (hash : string -> Z) (decoder : Type) (Decoder_new : decoder)
    (decode : decoder -> reader (decoder * option (caption * Z)))
    (fuel : nat) (ty s1 s2 s3 : byte) (payload rest : list byte) :
  byte_val ty <> 0x20 ->
  byte_val ty <> 0x30 ->
  length payload = Z.to_nat (be_val [s1; s2; s3]) ->
  DataUnit_init hash decoder Decoder_new decode fuel
    (x1f :: ty :: s1 :: s2 :: s3 :: payload ++ rest)%list
  = Ok (mkDataUnit 0x1F (byte_val ty) (be_val [s1; s2; s3]) PNone, rest)
  /\ DataUnit_size (mkDataUnit 0x1F (byte_val ty) (be_val [s1; s2; s3]) PNone)
     = Z.of_nat (length (x1f :: ty :: s1 :: s2 :: s3 :: payload)).
Proof.
  intros H20 H30 Hlen. split.
  - unfold DataUnit_init, rbind at 1. rewrite read_ucb_cons.
    change (byte_val x1f =? 31) with true. cbn [negb].
    unfold rbind at 1. rewrite read_ucb_cons.
    unfold rbind at 1. rewrite read_ui3b_cons.
    unfold rbind at 1, load_unit.
    replace (byte_val ty =? StatementBody_ID) with false
      by (symmetry; apply Z.eqb_neq; exact H20).
    replace (byte_val ty =? DRCS1ByteCharacter_ID) with false
      by (symmetry; apply Z.eqb_neq; exact H30).
    unfold rbind at 1, read.buffer.
    rewrite length_app, <- Hlen.
    replace (length payload <=? length payload + length rest)%nat with true
      by (symmetry; apply Nat.leb_le; lia).
    rewrite skipn_app, Nat.sub_diag, skipn_all. reflexivity.
  - unfold DataUnit_size. cbn [_data_unit_size length].
    pose proof (be_val_bounds [s1; s2; s3]). lia.
Qed.

Lemma DataUnit_init_unknown_type_skipped_witness :
  DataUnit_init music_note_hash unit tt no_decode 0
    [x1f; x35; x00; x00; x02; xaa; xbb; x1f]
  = Ok (mkDataUnit 0x1F 0x35 2 PNone, [x1f]).
Proof.
  refine (proj1 (DataUnit_init_unknown_type_skipped music_note_hash unit tt
                   no_decode 0 x35 x00 x00 x02 [xaa; xbb] [x1f] _ _ _));
    [discriminate | discriminate | reflexivity].
Defined.

(** ** The loop over the data units *)

Ltac fuel_absurd H :=
  let Hx := fresh "Hx" in
  intros Hx; exfalso; injection Hx as ->; apply H; reflexivity.

Section DataUnitLoop.

Variable hash : string -> Z.
Variable decoder : Type.
Variable Decoder_new : decoder.
Variable decode : decoder -> reader (decoder * option (caption * Z)).
Variable fuel : nat.

Lemma DataUnit_init_size (f rest : list byte) (u : DataUnit) :
  DataUnit_init hash decoder Decoder_new decode fuel f = Ok (u, rest) ->
  5 <= DataUnit_size u.
Proof.
  unfold DataUnit_init. intros H.
  unfold rbind at 1 in H.
  destruct (read.ucb f) as [[sep f1]|]; [|discriminate H].
  destruct (negb (sep =? 31)); [discriminate H|].
  unfold rbind at 1 in H.
  destruct (read.ucb f1) as [[ty f2]|]; [|discriminate H].
  unfold rbind at 1 in H.
  destruct (read.ui3b f2) as [[size f3]|] eqn:E; [|discriminate H].
  unfold rbind at 1 in H.
  destruct (load_unit hash decoder Decoder_new decode fuel sep ty size f3)
    as [[p f4]|]; [|discriminate H].
  unfold ret in H. injection H as <- <-.
  unfold DataUnit_size. cbn [_data_unit_size].
  apply read_unsigned_ok in E. destruct E as (bs & _ & _ & ->).
  pose proof (be_val_bounds bs). lia.
Qed.

Lemma data_unit_loop_covers (n : nat) (bytes_read length : Z)
    (acc units : list DataUnit) (f rest : list byte) :
  data_unit_loop hash decoder Decoder_new decode fuel n bytes_read length acc f
  = Ok (units, rest) ->
  exists new,
    units = (acc ++ new)%list
    /\ length <= bytes_read + total_size new
    /\ (new <> [] -> bytes_read + total_size (removelast new) < length)
    /\ Forall (fun u => 5 <= DataUnit_size u) new.
Proof.
  revert bytes_read acc f. induction n as [|n IH]; intros bytes_read acc f H.
  - cbn [data_unit_loop] in H.
    destruct (bytes_read <? length) eqn:E; [discriminate H|].
    injection H as <- <-. apply Z.ltb_ge in E.
    exists []. rewrite app_nil_r. cbn [total_size fold_right].
    repeat split; try lia; [congruence | constructor].
  - cbn [data_unit_loop] in H.
    destruct (bytes_read <? length) eqn:E.
    + unfold rbind at 1 in H.
      destruct (DataUnit_init hash decoder Decoder_new decode fuel f)
        as [[u f1]|] eqn:Eu; [|discriminate H].
      destruct (IH _ _ _ H) as (new & -> & Hlen & Hlast & Hall).
      apply Z.ltb_lt in E.
      exists (u :: new). rewrite <- app_assoc. split; [reflexivity|].
      split; [cbn [total_size fold_right] in *; fold (total_size new); lia|].
      split.
      * intros _. destruct new as [|v new].
        -- cbn [removelast total_size fold_right]. lia.
        -- change (removelast (u :: v :: new)) with (u :: removelast (v :: new)).
           cbn [total_size fold_right].
           fold (total_size (removelast (v :: new))).
           specialize (Hlast ltac:(discriminate)). lia.
      * constructor; [exact (DataUnit_init_size _ _ _ Eu) | exact Hall].
    + injection H as <- <-. apply Z.ltb_ge in E.
      exists []. rewrite app_nil_r. cbn [total_size fold_right].
      repeat split; try lia; [congruence | constructor].
Qed.

(** The readers of the DRCS data unit and of the fields never run out of
    fuel: they have no loop that the decoder controls. *)
Lemma read_never_out_of_fuel (n : nat) (f : list byte) :
  read.unsigned n f <> Raise OutOfFuel.
Proof.
  unfold read.unsigned, read.buffer, rbind, ret.
  destruct (n <=? Datatypes.length f)%nat; discriminate.
Qed.

Lemma times_never_out_of_fuel {A : Type} (m : reader A) (n : nat)
    (f : list byte) :
  (forall f', m f' <> Raise OutOfFuel) -> times n m f <> Raise OutOfFuel.
Proof.
  intros Hm. revert f. induction n as [|n IH]; intros f; [discriminate|].
  cbn [times]. unfold rbind at 1.
  destruct (m f) as [[a f1]|e] eqn:E.
  - unfold rbind at 1. specialize (IH f1).
    destruct (times n m f1) as [[l f2]|e]; [discriminate|].
    fuel_absurd IH.
  - intros H. injection H as ->. apply (Hm f). exact E.
Qed.

Lemma DRCSFont_never_out_of_fuel (f : list byte) :
  DRCSFont_init hash f <> Raise OutOfFuel.
Proof.
  unfold DRCSFont_init. unfold rbind at 1.
  pose proof (read_never_out_of_fuel 1 f) as H0. fold read.ucb in H0.
  destruct (read.ucb f) as [[b f1]|e]; [|fuel_absurd H0].
  destruct (_ || _); [|discriminate].
  unfold rbind at 1.
  pose proof (read_never_out_of_fuel 1 f1) as H1. fold read.ucb in H1.
  destruct (read.ucb f1) as [[d f2]|e]; [|fuel_absurd H1].
  unfold rbind at 1.
  pose proof (read_never_out_of_fuel 1 f2) as H2. fold read.ucb in H2.
  destruct (read.ucb f2) as [[w f3]|e]; [|fuel_absurd H2].
  unfold rbind at 1.
  pose proof (read_never_out_of_fuel 1 f3) as H3. fold read.ucb in H3.
  destruct (read.ucb f3) as [[h f4]|e]; [|fuel_absurd H3].
  unfold rbind at 1.
  pose proof (times_never_out_of_fuel read.ucb (Z.to_nat (Z.quot (w * h) 4)) f4
                (read_never_out_of_fuel 1)) as H4.
  destruct (times _ read.ucb f4) as [[px f5]|e]; [discriminate | fuel_absurd H4].
Qed.

Lemma DRCSCharacter_never_out_of_fuel (f : list byte) :
  DRCSCharacter_init hash f <> Raise OutOfFuel.
Proof.
  unfold DRCSCharacter_init. unfold rbind at 1.
  pose proof (read_never_out_of_fuel 2 f) as H0. fold read.usb in H0.
  destruct (read.usb f) as [[c f1]|e]; [|fuel_absurd H0].
  unfold rbind at 1.
  pose proof (read_never_out_of_fuel 1 f1) as H1. fold read.ucb in H1.
  destruct (read.ucb f1) as [[n f2]|e]; [|fuel_absurd H1].
  unfold rbind at 1.
  pose proof (times_never_out_of_fuel (DRCSFont_init hash) (Z.to_nat n) f2
                DRCSFont_never_out_of_fuel) as H2.
  destruct (times _ (DRCSFont_init hash) f2) as [[l f3]|e];
    [discriminate | fuel_absurd H2].
Qed.

Lemma DRCS1ByteCharacter_never_out_of_fuel (sep ty size : Z) (f : list byte) :
  DRCS1ByteCharacter_init hash sep ty size f <> Raise OutOfFuel.
Proof.
  unfold DRCS1ByteCharacter_init.
  destruct (negb _); [discriminate|].
  unfold rbind at 1.
  pose proof (read_never_out_of_fuel 1 f) as H0. fold read.ucb in H0.
  destruct (read.ucb f) as [[n f1]|e]; [|fuel_absurd H0].
  unfold rbind at 1.
  pose proof (times_never_out_of_fuel (DRCSCharacter_init hash) (Z.to_nat n) f1
                DRCSCharacter_never_out_of_fuel) as H1.
  destruct (times _ (DRCSCharacter_init hash) f1) as [[l f2]|e];
    [discriminate | fuel_absurd H1].
Qed.

(** A data unit runs out of fuel only in the loop of [parse_contents]. *)
Lemma DataUnit_init_out_of_fuel (f : list byte) :
  DataUnit_init hash decoder Decoder_new decode fuel f = Raise OutOfFuel ->
  exists size f',
    parse_contents decoder Decoder_new decode fuel size f' = Raise OutOfFuel.
Proof.
  unfold DataUnit_init. unfold rbind at 1.
  pose proof (read_never_out_of_fuel 1 f) as H0. fold read.ucb in H0.
  destruct (read.ucb f) as [[sep f1]|e]; [|fuel_absurd H0].
  destruct (negb _); [discriminate|].
  unfold rbind at 1.
  pose proof (read_never_out_of_fuel 1 f1) as H1. fold read.ucb in H1.
  destruct (read.ucb f1) as [[ty f2]|e]; [|fuel_absurd H1].
  unfold rbind at 1.
  pose proof (read_never_out_of_fuel 3 f2) as H2. fold read.ui3b in H2.
  destruct (read.ui3b f2) as [[size f3]|e]; [|fuel_absurd H2].
  unfold rbind at 1, load_unit.
  destruct (ty =? StatementBody_ID).
  - unfold rbind at 1, StatementBody_init.
    destruct (negb _); [discriminate|].
    unfold rbind at 1.
    destruct (parse_contents decoder Decoder_new decode fuel size f3)
      as [[p f4]|e] eqn:E; [discriminate|].
    intros H. injection H as ->. exists size, f3. exact E.
  - destruct (ty =? DRCS1ByteCharacter_ID).
    + unfold rbind at 1.
      pose proof (DRCS1ByteCharacter_never_out_of_fuel sep ty size f3) as H3.
      destruct (DRCS1ByteCharacter_init hash sep ty size f3) as [[d f4]|e];
        [discriminate | fuel_absurd H3].
    + unfold rbind at 1, read.buffer.
      destruct (_ <=? _)%nat; discriminate.
Qed.

Lemma data_unit_loop_out_of_fuel (n : nat) (bytes_read length : Z)
    (acc : list DataUnit) (f : list byte) :
  length - bytes_read <= 5 * Z.of_nat n ->
  data_unit_loop hash decoder Decoder_new decode fuel n bytes_read length acc f
  = Raise OutOfFuel ->
  exists f',
    DataUnit_init hash decoder Decoder_new decode fuel f' = Raise OutOfFuel.
Proof.
  revert bytes_read acc f. induction n as [|n IH]; intros bytes_read acc f Hn H.
  - cbn [data_unit_loop] in H.
    destruct (bytes_read <? length) eqn:E; [|discriminate H].
    apply Z.ltb_lt in E. lia.
  - cbn [data_unit_loop] in H.
    destruct (bytes_read <? length) eqn:E; [|discriminate H].
    unfold rbind at 1 in H.
    destruct (DataUnit_init hash decoder Decoder_new decode fuel f)
      as [[u f1]|e] eqn:Eu.
    + pose proof (DataUnit_init_size _ _ _ Eu) as Hsize.
      apply IH in H; [exact H | lia].
    + injection H as ->. exists f. exact Eu.
Qed.

End DataUnitLoop.

(** X15. The data units of caption statement data that was read cover the
    declared length of the loop: their sizes (each at least 5) add up to
    the length or more, and without the last unit to less than the length,
    so a unit that starts before the declared end is read whole even when
    it runs past it. *)
Theorem CaptionStatementData_init_covers_length
    (hash : string -> Z) (decoder : Type) (Decoder_new : decoder)
    (decode : decoder -> reader (decoder * option (caption * Z)))
    (fuel : nat) (f rest : list byte) (c : CaptionStatementData) :
  CaptionStatementData_init hash decoder Decoder_new decode fuel f
  = Ok (c, rest) ->
  _data_unit_loop_length c <= total_size (_data_units c)
  /\ (_data_units c <> [] ->
      total_size (removelast (_data_units c)) < _data_unit_loop_length c)
  /\ Forall (fun u => 5 <= DataUnit_size u) (_data_units c).
Proof.
  unfold CaptionStatementData_init. intros H.
  unfold rbind at 1 in H.
  destruct (CaptionStatementData_head f) as [[[[tmd stm] len] f1]|];
    [|discriminate H].
  unfold rbind at 1 in H.
  destruct (data_unit_loop hash decoder Decoder_new decode fuel
              (Z.to_nat len) 0 len [] f1) as [[units f2]|] eqn:E;
    [|discriminate H].
  unfold ret in H. injection H as <- <-.
  cbn [_data_unit_loop_length _data_units].
  destruct (data_unit_loop_covers _ _ _ _ _ _ _ _ _ _ _ _ E)
    as (new & -> & H1 & H2 & H3).
  cbn [app]. repeat split; [lia | intros Hne; specialize (H2 Hne); lia | exact H3].
Qed.

Lemma CaptionStatementData_init_covers_length_witness :
  exists c,
    CaptionStatementData_init music_note_hash unit tt no_decode 0
      [x00; x00; x00; x06; x1f; x35; x00; x00; x02; xaa; xbb] = Ok (c, [])
    /\ _data_unit_loop_length c = 6
    /\ total_size (_data_units c) = 7.
Proof.
  eexists. split; [reflexivity|].
  destruct (CaptionStatementData_init_covers_length music_note_hash unit tt
              no_decode 0
              [x00; x00; x00; x06; x1f; x35; x00; x00; x02; xaa; xbb] [] _
              eq_refl) as (_ & _ & _).
  split; reflexivity.
Defined.



(** ** Bounds of the head of caption statement data *)

(** X17. The head of caption statement data gives a TMD below 4.  With
    TMD 1 or 2 it takes nine bytes, STM is below 2^36 and the length kept
    is below 2^32; otherwise it takes four bytes, STM is 0 and the length
    is below 2^24. *)
Theorem CaptionStatementData_head_bounds (f rest : list byte)
    (tmd stm len : Z) :
  CaptionStatementData_head f = Ok ((tmd, stm, len), rest) ->
  ((tmd = 1 \/ tmd = 2)
   /\ 0 <= stm < 2 ^ 36 /\ 0 <= len < 2 ^ 32
   /\ length f = (9 + length rest)%nat)
  \/ ((tmd = 0 \/ tmd = 3)
      /\ stm = 0 /\ 0 <= len < 2 ^ 24
      /\ length f = (4 + length rest)%nat).
Proof.
  unfold CaptionStatementData_head. intros H.
  unfold rbind at 1 in H.
  destruct (read.ucb f) as [[b f1]|] eqn:E1; [|discriminate H].
  apply read_ucb_ok in E1. destruct E1 as (b0 & -> & ->).
  pose proof (byte_val_bounds b0) as Hb.
  assert (Htmd : 0 <= Z.shiftr (byte_val b0) 6 < 4).
  { rewrite Z.shiftr_div_pow2 by lia. change (2 ^ 6) with 64.
    split; [apply Z.div_pos; lia | apply Z.div_lt_upper_bound; lia]. }
  destruct ((Z.shiftr (byte_val b0) 6 =? 1) || (Z.shiftr (byte_val b0) 6 =? 2))
    eqn:Et.
  - unfold rbind at 1 in H.
    destruct (read.ulb f1) as [[d f2]|] eqn:E2; [|discriminate H].
    unfold ret in H. injection H as <- <- <- <-.
    apply read_unsigned_ok in E2. destruct E2 as (bs & -> & Hl & ->).
    pose proof (be_val_bounds bs) as Hd. rewrite Hl in Hd.
    change (256 ^ Z.of_nat 8) with (2 ^ 64) in Hd.
    left. split.
    { apply orb_true_iff in Et. destruct Et as [Et | Et];
        apply Z.eqb_eq in Et; [left | right]; exact Et. }
    split.
    { rewrite Z.shiftr_div_pow2 by lia.
      split; [apply Z.div_pos; lia | apply Z.div_lt_upper_bound; lia]. }
    split.
    { change 0xFFFFFFFF with (Z.ones 32). rewrite Z.land_ones by lia.
      apply Z.mod_pos_bound. lia. }
    cbn [length]. rewrite length_app, Hl. lia.
  - unfold rbind at 1 in H.
    destruct (read.ui3b f1) as [[l f2]|] eqn:E2; [|discriminate H].
    unfold ret in H. injection H as <- <- <- <-.
    apply read_unsigned_ok in E2. destruct E2 as (bs & -> & Hl & ->).
    pose proof (be_val_bounds bs) as Hd. rewrite Hl in Hd.
    change (256 ^ Z.of_nat 3) with (2 ^ 24) in Hd.
    right. split.
    { apply orb_false_iff in Et. destruct Et as [E1 E2].
      apply Z.eqb_neq in E1. apply Z.eqb_neq in E2. lia. }
    split; [reflexivity|]. split; [exact Hd|].
    cbn [length]. rewrite length_app, Hl. lia.
Qed.

Lemma CaptionStatementData_head_bounds_witness :
  CaptionStatementData_head [x40; x00; x00; x00; x00; x10; x00; x00; x05]
    = Ok ((1, 1, 268435461), [])
  /\ 0 <= 268435461 < 2 ^ 32.
Proof.
  assert (H : CaptionStatementData_head
                [x40; x00; x00; x00; x00; x10; x00; x00; x05]
              = Ok ((1, 1, 268435461), [])) by reflexivity.
  split; [exact H|].
  destruct (CaptionStatementData_head_bounds _ _ _ _ _ H)
    as [(_ & _ & Hl & _) | ([Ht | Ht] & _)];
    [exact Hl | discriminate Ht | discriminate Ht].
Defined.

(** ** The languages of caption management data *)

Lemma times_Forall {A : Type} (P : A -> Prop) (m : reader A) (n : nat)
    (f rest : list byte) (l : list A) :
  (forall f' a r, m f' = Ok (a, r) -> P a) ->
  times n m f = Ok (l, rest) -> Forall P l.
Proof.
  intros Hm. revert f l. induction n as [|n IH]; intros f l H.
  - cbn in H. injection H as <- <-. constructor.
  - cbn [times] in H. unfold rbind at 1 in H.
    destruct (m f) as [[a f1]|] eqn:Ea; [|discriminate H].
    unfold rbind at 1 in H.
    destruct (times n m f1) as [[l1 f2]|] eqn:E; [|discriminate H].
    injection H as <- <-. constructor; [exact (Hm _ _ _ Ea) | exact (IH _ _ E)].
Qed.

(** X18. In caption management data that was read, [num_languages()]
    (the number of language records) is the count byte of the stream, and
    every language record has DC 0 and a display mode below 8: the
    three-bit mask never lets the modes that carry a DC byte through. *)
Theorem CaptionManagementData_init_languages
    (hash : string -> Z) (decoder : Type) (Decoder_new : decoder)
    (decode : decoder -> reader (decoder * option (caption * Z)))
    (fuel : nat) (f rest : list byte) (m : CaptionManagementData) :
  CaptionManagementData_init hash decoder Decoder_new decode fuel f
  = Ok (m, rest) ->
  Z.of_nat (length (_languages m)) = _num_languages m
  /\ 0 <= _num_languages m < 256
  /\ Forall (fun l => _DC l = 0 /\ 0 <= _DMF l < 8) (_languages m).
Proof.
  unfold CaptionManagementData_init. intros H.
  unfold rbind at 1 in H.
  destruct (read.ucb f) as [[b f1]|]; [|discriminate H].
  unfold rbind at 1 in H.
  destruct ((if Z.shiftr b 6 =? 2
             then t <- read.uib;;
                  c <- read.uic;; ret (Some (Z.lor t (Z.shiftl (Z.shiftr c 4) 32)))
             else ret None) f1) as [[otm f2]|]; [|discriminate H].
  unfold rbind at 1 in H.
  destruct (read.ucb f2) as [[n f3]|] eqn:En; [|discriminate H].
  unfold rbind at 1 in H.
  destruct (times (Z.to_nat n) Language_init f3) as [[ls f4]|] eqn:El;
    [|discriminate H].
  unfold rbind at 1 in H.
  destruct (read.ui3b f4) as [[len f5]|]; [|discriminate H].
  unfold rbind at 1 in H.
  destruct (data_unit_loop hash decoder Decoder_new decode fuel
              (Z.to_nat len) 0 len [] f5) as [[units f6]|]; [|discriminate H].
  unfold ret in H. injection H as <- <-.
  cbn [_languages _num_languages].
  apply read_ucb_ok in En. destruct En as (b0 & _ & ->).
  pose proof (byte_val_bounds b0) as Hb.
  split; [rewrite (times_length _ _ _ _ _ El); lia|].
  split; [exact Hb|].
  apply (times_Forall _ _ _ _ _ _ (fun f' a r Ha =>
           let H := Language_init_never_reads_DC f' a r Ha in
           conj (proj1 H) (proj1 (proj2 H))) El).
Qed.

Lemma CaptionManagementData_init_languages_witness :
  CaptionManagementData_init music_note_hash unit tt no_decode 0
    [x00; x01; x0c; x6a; x70; x6e; x00; x00; x00; x00]
  = Ok (mkCaptionManagementData 0 None 1 [mkLanguage 0 4 0 "jpn" 0 0] 0 [], [])
  /\ Forall (fun l => _DC l = 0 /\ 0 <= _DMF l < 8)
       [mkLanguage 0 4 0 "jpn" 0 0].
Proof.
  assert (H : CaptionManagementData_init music_note_hash unit tt no_decode 0
                [x00; x01; x0c; x6a; x70; x6e; x00; x00; x00; x00]
              = Ok (mkCaptionManagementData 0 None 1
                      [mkLanguage 0 4 0 "jpn" 0 0] 0 [], []))
    by reflexivity.
  split; [exact H|].
  exact (proj2 (proj2 (CaptionManagementData_init_languages music_note_hash
                         unit tt no_decode 0 _ _ _ H))).
Defined.

(** ** The handler of elementary stream packets *)

Section HandlerFacts.

Variable packet : Type.
Variable get_pes_payload : packet -> result (list byte).
Variable DataGroup_init : list byte -> result DataGroup.

Lemma print_languages_keeps (g : globals) (current_pid : Z)
    (languages : list Language) :
  pid (print_languages g current_pid languages) = pid g
  /\ SILENT (print_languages g current_pid languages) = SILENT g
  /\ ass (print_languages g current_pid languages) = ass g
  /\ length (printed_lines (print_languages g current_pid languages))
     = (length (printed_lines g)
        + if SILENT g then 0 else 2 * length languages)%nat.
Proof.
  revert g. induction languages as [|l ls IH]; intros g.
  - cbn [print_languages length]. repeat split. destruct (SILENT g); lia.
  - cbn [print_languages].
    destruct (SILENT g) eqn:Es; cbn [negb].
    + destruct (IH g) as (H1 & H2 & H3 & H4). rewrite H1, H2, H3, H4, Es.
      repeat split.
    + match goal with
      | |- context [print_languages ?g1 current_pid ls] =>
          destruct (IH g1) as (H1 & H2 & H3 & H4)
      end.
      rewrite H1, H2, H3, H4. cbn [pid SILENT ass print printed_lines].
      rewrite Es, !length_app. cbn [length]. repeat split. lia.
Qed.

Lemma format_data_units_keeps (units : list DataUnit) (g : globals) :
  pid (fst (format_data_units g units)) = pid g
  /\ SILENT (fst (format_data_units g units)) = SILENT g
  /\ printed_lines (fst (format_data_units g units)) = printed_lines g.
Proof.
  revert g. induction units as [|u units IH]; intros g.
  - repeat split.
  - cbn [format_data_units]. destruct (_payload u); try apply IH.
    destruct (format _ _ _) as [a'|e a'].
    + destruct (IH (set_ass (Some a') g)) as (H1 & H2 & H3).
      rewrite H1, H2, H3. repeat split.
    + repeat split.
Qed.

Lemma format_app (a b : list caption) (st : ASSFormatter) (t : Q) :
  format st (a ++ b) t = and_then (format st a t) (fun st' => format st' b t).
Proof.
  revert st. induction a as [|c a IH]; intros st.
  - reflexivity.
  - cbn [app format]. destruct (handle st c t); cbn [and_then];
      [apply IH | reflexivity].
Qed.

Lemma statement_tokens_none (units : list DataUnit) :
  has_statement_body units = false -> statement_tokens units = [].
Proof.
  induction units as [|u units IH]; [reflexivity|].
  cbn [has_statement_body existsb statement_tokens].
  destruct (_payload u); cbn [orb]; try exact IH. discriminate.
Qed.

(** The formatter the loop over the data units leaves is the one a single
    call of [format] on all their tokens leaves. *)
Lemma format_data_units_ass (units : list DataUnit) (g : globals) :
  ass (fst (format_data_units g units))
  = if has_statement_body units
    then Some (final (format
                        (match ass g with
                         | Some a => a
                         | None => ASSFormatter_init (tmax g) (outfilename g)
                                     (negb (SILENT g)) (outfile_writable g)
                         end)
                        (statement_tokens units) (elapsed_time_s g)))
    else ass g.
Proof.
  revert g. induction units as [|u units IH]; intros g; [reflexivity|].
  cbn [format_data_units has_statement_body existsb statement_tokens].
  fold (has_statement_body units).
  destruct (_payload u) as [body| |]; cbn [orb]; try apply IH.
  rewrite format_app.
  destruct (format _ (sb_payload body) (elapsed_time_s g)) as [a'|e a'];
    cbn [and_then fst ass set_ass final]; [|reflexivity].
  rewrite IH. cbn [ass set_ass tmax outfilename SILENT elapsed_time_s].
  destruct (has_statement_body units) eqn:Eh; [reflexivity|].
  rewrite (statement_tokens_none units Eh). reflexivity.
Qed.

Lemma OnESPacket_statement (g : globals) (current_pid : Z) (p : packet)
    (payload : list byte) (caption : CaptionStatementData) :
  get_pes_payload p = Ok payload ->
  DataGroup_init payload = Ok (StatementGroup caption) ->
  pid g < 0 \/ current_pid = pid g ->
  ass (fst (OnESPacket packet get_pes_payload DataGroup_init g current_pid p))
    = ass (fst (format_data_units g (_data_units caption)))
  /\ pid (fst (OnESPacket packet get_pes_payload DataGroup_init g current_pid p))
     = pid g.
Proof.
  intros Hp Hd Hpid. unfold OnESPacket, try_body. rewrite Hp, Hd.
  replace ((0 <=? pid g) && negb (current_pid =? pid g)) with false.
  2:{ symmetry. apply andb_false_iff. destruct Hpid as [H | H].
      - left. apply Z.leb_gt. exact H.
      - right. apply negb_false_iff, Z.eqb_eq. exact H. }
  destruct (format_data_units_keeps (_data_units caption) g) as (Hk & _ & _).
  destruct (format_data_units g (_data_units caption)) as [g' [e|]];
    cbn [fst] in *; [|split; [reflexivity | exact Hk]].
  destruct e; try (split; [reflexivity | exact Hk]);
    destruct (negb (SILENT g') && (0 <=? pid g'));
    (split; [reflexivity | exact Hk]).
Qed.

End HandlerFacts.

(** X19. A caption statement packet on the chosen PID (or before a PID is
    chosen) is formatted as one: the formatter the handler leaves is the
    one a single call of [format] leaves on the tokens of all the
    statement bodies of the packet, in order, with the elapsed time of the
    moment as the timestamp of each.  The formatter is made at the first
    statement body; a packet without one leaves the handler without a
    formatter if it had none.  The PID is not changed. *)
Theorem statement_packet_is_one_format (packet : Type)
    (get_pes_payload : packet -> result (list byte))
    (DataGroup_init : list byte -> result DataGroup)
    (g : globals) (current_pid : Z) (p : packet)
    (payload : list byte) (caption : CaptionStatementData) :
  get_pes_payload p = Ok payload ->
  DataGroup_init payload = Ok (StatementGroup caption) ->
  pid g < 0 \/ current_pid = pid g ->
  ass (fst (OnESPacket packet get_pes_payload DataGroup_init g current_pid p))
    = (if has_statement_body (_data_units caption)
       then Some (final (format
                           (match ass g with
                            | Some a => a
                            | None => ASSFormatter_init (tmax g) (outfilename g)
                                        (negb (SILENT g))
                                        (outfile_writable g)
                            end)
                           (statement_tokens (_data_units caption))
                           (elapsed_time_s g)))
       else ass g)
  /\ pid (fst (OnESPacket packet get_pes_payload DataGroup_init g current_pid p))
     = pid g.
Proof.
  intros Hp Hd Hpid.
  destruct (OnESPacket_statement packet get_pes_payload DataGroup_init g
              current_pid p payload caption Hp Hd Hpid) as [H1 H2].
  split; [|exact H2]. rewrite H1. apply format_data_units_ass.
Qed.

(** X20. Caption management data with at least one language, met before a
    PID is chosen, chooses the PID of its packet; the handler prints two
    lines per language unless it is silent and leaves the formatter alone.
    From then on a packet of any other PID is ignored: the handler returns
    at once and the globals stay as they are. *)
Theorem management_packet_selects_pid (packet : Type)
    (get_pes_payload : packet -> result (list byte))
    (DataGroup_init : list byte -> result DataGroup)
    (g : globals) (current_pid : Z) (p : packet)
    (payload : list byte) (management_data : CaptionManagementData) :
  pid g < 0 ->
  0 <= current_pid ->
  get_pes_payload p = Ok payload ->
  DataGroup_init payload = Ok (ManagementGroup management_data) ->
  _languages management_data <> [] ->
  exists g',
    OnESPacket packet get_pes_payload DataGroup_init g current_pid p
    = (g', None)
    /\ pid g' = current_pid
    /\ ass g' = ass g
    /\ length (printed_lines g')
       = (length (printed_lines g)
          + if SILENT g then 0
            else 2 * length (_languages management_data))%nat
    /\ forall other p',
         other <> current_pid ->
         OnESPacket packet get_pes_payload DataGroup_init g' other p'
         = (g', None).
Proof.
  intros Hpid Hcur Hp Hd Hl. unfold OnESPacket at 1, try_body.
  rewrite Hp, Hd.
  replace (0 <=? pid g) with false by (symmetry; apply Z.leb_gt; exact Hpid).
  replace (pid g <? 0) with true by (symmetry; apply Z.ltb_lt; exact Hpid).
  replace (0 <? Z.of_nat (length (_languages management_data))) with true.
  2:{ symmetry. apply Z.ltb_lt.
      destruct (_languages management_data); [congruence | cbn [length]; lia]. }
  cbn [andb].
  destruct (print_languages_keeps g current_pid (_languages management_data))
    as (H1 & H2 & H3 & H4).
  eexists. split; [reflexivity|].
  cbn [pid ass printed_lines set_pid].
  split; [reflexivity|]. split; [exact H3|]. split; [exact H4|].
  intros other p' Ho. unfold OnESPacket. cbn [pid set_pid].
  replace (0 <=? current_pid) with true by (symmetry; apply Z.leb_le; exact Hcur).
  replace (other =? current_pid) with false
    by (symmetry; apply Z.eqb_neq; exact Ho).
  reflexivity.
Qed.

Lemma management_packet_selects_pid_witness :
  exists g',
    OnESPacket (list byte) (fun p => Ok p)
      (fun f =>
         match CaptionManagementData_init music_note_hash unit tt no_decode 0 f with
         | Ok (m, _) => Ok (ManagementGroup m)
         | Raise e => Raise e
         end)
      (mkGlobals (-1) false None 0 5 "out.ass" [] true) 0x130
      [x00; x01; x0c; x6a; x70; x6e; x00; x00; x00; x00]
    = (g', None)
    /\ pid g' = 0x130
    /\ length (printed_lines g') = 2%nat.
Proof.
  destruct (management_packet_selects_pid (list byte) (fun p => Ok p)
              (fun f =>
                 match CaptionManagementData_init music_note_hash unit tt
                         no_decode 0 f with
                 | Ok (m, _) => Ok (ManagementGroup m)
                 | Raise e => Raise e
                 end)
              (mkGlobals (-1) false None 0 5 "out.ass" [] true) 0x130
              [x00; x01; x0c; x6a; x70; x6e; x00; x00; x00; x00]
              [x00; x01; x0c; x6a; x70; x6e; x00; x00; x00; x00]
              (mkCaptionManagementData 0 None 1
                 [mkLanguage 0 4 0 "jpn" 0 0] 0 []))
    as (g' & H1 & H2 & _ & H4 & _);
    [reflexivity | discriminate | reflexivity | reflexivity | discriminate |].
  exists g'. split; [exact H1|]. split; [exact H2 | exact H4].
Defined.

Lemma statement_packet_is_one_format_witness :
  ass (fst (OnESPacket (list byte) (fun p => Ok p)
              (fun _ => Ok (StatementGroup
                              (mkCaptionStatementData 0 0 8
                                 [mkDataUnit 0x1F 0x20 3
                                    (PStatementBody
                                       (mkStatementBody 0x1F 0x20 3
                                          [Alphanumeric "A"; SP]))])))
              sample_globals 0x130 []))
  = Some (final (format (ASSFormatter_init 5 "out.ass" true true)
                   [Alphanumeric "A"; SP] 0)).
Proof.
  exact (proj1 (statement_packet_is_one_format (list byte) (fun p => Ok p)
                  (fun _ => Ok (StatementGroup
                                  (mkCaptionStatementData 0 0 8
                                     [mkDataUnit 0x1F 0x20 3
                                        (PStatementBody
                                           (mkStatementBody 0x1F 0x20 3
                                              [Alphanumeric "A"; SP]))])))
                  sample_globals 0x130 [] [] _ eq_refl eq_refl
                  (or_intror eq_refl))).
Defined.

(** ** A silent run prints nothing *)

Lemma announced_quiet (st : ASSFormatter) :
  _verbose st = false ->
  stdout (announced st) = stdout st /\ _verbose (announced st) = false.
Proof.
  intros Hv. unfold announced. rewrite Hv. split; [reflexivity | exact Hv].
Qed.

Lemma opened_quiet (st : ASSFormatter) :
  _verbose st = false ->
  stdout (opened st) = stdout st /\ _verbose (opened st) = false.
Proof.
  intros Hv. unfold opened. destruct (_ass_file st).
  - split; [reflexivity | exact Hv].
  - cbn [stdout _verbose set_ass_file]. apply announced_quiet, Hv.
Qed.

Lemma flush_lines_quiet (s e : string) (ls : list Dialog) (st : ASSFormatter) :
  stdout (fold_left (flush_line s e) ls st) = stdout st
  /\ _verbose (fold_left (flush_line s e) ls st) = _verbose st.
Proof.
  revert st. induction ls as [|l ls IH]; intros st; [split; reflexivity|].
  cbn [fold_left]. destruct (IH (flush_line s e st l)) as [-> ->].
  unfold flush_line. destruct (String.length l =? 0)%nat; [split; reflexivity|].
  destruct (_ass_file st); split; reflexivity.
Qed.

Lemma handle_quiet (st : ASSFormatter) (c : caption) (t : Q) :
  _verbose st = false ->
  stdout (final (handle st c t)) = stdout st
  /\ _verbose (final (handle st c t)) = false.
Proof.
  intros Hv. destruct (opened_quiet st Hv) as [Ho1 Ho2].
  destruct (announced_quiet st Hv) as [Ha1 Ha2].
  destruct (caption_eq_CS c) as [-> | Hn].
  - cbn [handle]. unfold clear_screen.
    destruct (_current_lines st) as [|l0 ls]; [split; [reflexivity | exact Hv]|].
    cbn [final stdout _verbose set_current_color set_current_textsize
         set_elapsed_time_s].
    destruct (_ && _); [|split; [reflexivity | exact Hv]].
    destruct (flush_lines_quiet (asstime (_elapsed_time_s st))
                (asstime (end_seconds st t)) (rev (l0 :: ls)) st) as [-> ->].
    split; [reflexivity | exact Hv].
  - destruct c; try congruence; unfold_handlers; split_lines;
      cbn [final set_current_lines set_current_style set_current_color
           set_current_textsize stdout _verbose];
      first [split; [exact Ho1 | exact Ho2] | split; [exact Ha1 | exact Ha2]
            | split; [reflexivity | exact Hv]].
Qed.

Lemma format_quiet (captions : list caption) (st : ASSFormatter) (t : Q) :
  _verbose st = false ->
  stdout (final (format st captions t)) = stdout st
  /\ _verbose (final (format st captions t)) = false.
Proof.
  revert st. induction captions as [|c captions IH]; intros st Hv.
  - split; [reflexivity | exact Hv].
  - cbn [format]. destruct (handle_quiet st c t Hv) as [H1 H2].
    destruct (handle st c t) as [st1|e st1]; cbn [and_then final] in *.
    + destruct (IH st1 H2) as [H3 H4]. rewrite H3, H1. split; [reflexivity | exact H4].
    + split; [exact H1 | exact H2].
Qed.

Lemma print_languages_silent (g : globals) (current_pid : Z)
    (languages : list Language) :
  SILENT g = true -> print_languages g current_pid languages = g.
Proof.
  intros Hs. induction languages as [|l ls IH]; [reflexivity|].
  cbn [print_languages]. rewrite Hs. cbn [negb]. exact IH.
Qed.

Lemma format_data_units_quiet (units : list DataUnit) (g : globals) :
  SILENT g = true ->
  (forall a, ass g = Some a -> _verbose a = false) ->
  forall a', ass (fst (format_data_units g units)) = Some a' ->
    _verbose a' = false
    /\ stdout a' = match ass g with Some a => stdout a | None => [] end.
Proof.
  revert g. induction units as [|u units IH]; intros g Hs Hq a' Ha'.
  - cbn [format_data_units fst] in Ha'. rewrite Ha'.
    split; [apply Hq, Ha' | reflexivity].
  - cbn [format_data_units] in Ha'.
    destruct (_payload u) as [body| |]; try (apply (IH g Hs Hq a' Ha')).
    set (a0 := match ass g with
               | Some a => a
               | None => ASSFormatter_init (tmax g) (outfilename g)
                           (negb (SILENT g)) (outfile_writable g)
               end) in *.
    assert (Hv0 : _verbose a0 = false).
    { unfold a0. destruct (ass g) as [a|] eqn:Ea; [apply Hq; reflexivity|].
      cbn [_verbose ASSFormatter_init]. rewrite Hs. reflexivity. }
    assert (Hs0 : stdout a0 = match ass g with Some a => stdout a | None => [] end).
    { unfold a0. destruct (ass g); reflexivity. }
    destruct (format_quiet (sb_payload body) a0 (elapsed_time_s g) Hv0)
      as [Hf1 Hf2].
    destruct (format a0 (sb_payload body) (elapsed_time_s g)) as [a1|e a1];
      cbn [final] in Hf1, Hf2.
    + destruct (IH (set_ass (Some a1) g) Hs
                  (fun a Ha => ltac:(cbn in Ha; injection Ha as <-; exact Hf2))
                  a' Ha') as [H1 H2].
      split; [exact H1|]. rewrite H2. cbn [ass set_ass]. rewrite Hf1. exact Hs0.
    + cbn [fst ass set_ass] in Ha'. injection Ha' as <-.
      split; [exact Hf2 | rewrite Hf1; exact Hs0].
Qed.

(** X21. A silent handler prints nothing: with SILENT set (and a formatter,
    if there is one, that is not verbose, as the handler makes it), a
    packet of any kind leaves what the handler has printed as it was, and
    the formatter it leaves is not verbose and has printed nothing more. *)
Theorem silent_handler_prints_nothing (packet : Type)
    (get_pes_payload : packet -> result (list byte))
    (DataGroup_init : list byte -> result DataGroup)
    (g : globals) (current_pid : Z) (p : packet) :
  SILENT g = true ->
  (forall a, ass g = Some a -> _verbose a = false) ->
  printed_lines
    (fst (OnESPacket packet get_pes_payload DataGroup_init g current_pid p))
  = printed_lines g
  /\ forall a',
       ass (fst (OnESPacket packet get_pes_payload DataGroup_init g
                   current_pid p)) = Some a' ->
       _verbose a' = false
       /\ stdout a' = match ass g with Some a => stdout a | None => [] end.
Proof.
  intros Hs Hq.
  assert (Hg : forall a', ass g = Some a' ->
                 _verbose a' = false
                 /\ stdout a' = match ass g with
                                | Some a => stdout a
                                | None => []
                                end).
  { intros a' Ha'. rewrite Ha'. split; [apply Hq, Ha' | reflexivity]. }
  unfold OnESPacket.
  destruct ((0 <=? pid g) && negb (current_pid =? pid g));
    [split; [reflexivity | exact Hg]|].
  assert (Hbody :
            printed_lines (fst (try_body packet get_pes_payload DataGroup_init
                                  g current_pid p)) = printed_lines g
            /\ SILENT (fst (try_body packet get_pes_payload DataGroup_init
                              g current_pid p)) = true
            /\ forall a',
                 ass (fst (try_body packet get_pes_payload DataGroup_init
                             g current_pid p)) = Some a' ->
                 _verbose a' = false
                 /\ stdout a' = match ass g with
                                | Some a => stdout a
                                | None => []
                                end).
  { unfold try_body.
    destruct (get_pes_payload p) as [payload|e];
      [|split; [reflexivity | split; [exact Hs | exact Hg]]].
    destruct (DataGroup_init payload) as [[caption|m]|e];
      [| |split; [reflexivity | split; [exact Hs | exact Hg]]].
    - destruct (format_data_units_keeps (_data_units caption) g)
        as (_ & H2 & H3).
      split; [exact H3|]. split; [rewrite H2; exact Hs|].
      apply format_data_units_quiet; assumption.
    - destruct ((pid g <? 0) && (0 <? Z.of_nat (length (_languages m))));
        [|split; [reflexivity | split; [exact Hs | exact Hg]]].
      rewrite (print_languages_silent g current_pid (_languages m) Hs).
      cbn [fst printed_lines SILENT ass set_pid].
      split; [reflexivity | split; [exact Hs | exact Hg]]. }
  destruct (try_body packet get_pes_payload DataGroup_init g current_pid p)
    as [g' [e|]]; cbn [fst] in Hbody; destruct Hbody as (H1 & H2 & H3).
  - destruct e; cbn [fst]; try (split; [exact H1 | exact H3]);
      rewrite H2; cbn [negb andb fst]; (split; [exact H1 | exact H3]).
  - split; [exact H1 | exact H3].
Qed.

Lemma silent_handler_prints_nothing_witness :
  printed_lines
    (fst (OnESPacket (list byte) (fun p => Ok p) statement_group
            (mkGlobals 0x130 true None 0 5 "out.ass" [] true) 0x130
            unsupported_drcs_statement))
  = [].
Proof.
  refine (proj1 (silent_handler_prints_nothing (list byte) (fun p => Ok p)
                   statement_group
                   (mkGlobals 0x130 true None 0 5 "out.ass" [] true) 0x130
                   unsupported_drcs_statement eq_refl _)).
  intros a Ha. discriminate Ha.
Defined.

(** ** The clock *)

Lemma OnTSPacket_not_positive (k : clock) (pcrs : list Z) :
  Forall (fun pcr => pcr <= 0) pcrs -> fold_left OnTSPacket pcrs k = k.
Proof.
  intros H. revert k. induction H as [|pcr pcrs Hp _ IH]; intros k.
  - reflexivity.
  - cbn [fold_left]. unfold OnTSPacket at 2.
    replace (0 <? pcr) with false by (symmetry; apply Z.ltb_ge; exact Hp).
    apply IH.
Qed.

Lemma OnTSPacket_started (k : clock) (i pcr : Z) :
  initial_timestamp k = Some i -> 0 < i ->
  initial_timestamp (OnTSPacket k pcr) = Some i
  /\ time_offset (OnTSPacket k pcr) = time_offset k
  /\ (0 < pcr ->
      clock_elapsed_time_s (OnTSPacket k pcr)
      = Float.add (Float.div (Float.of_int (pcr - i)) 90000) (time_offset k)).
Proof.
  intros Hi Hpos. unfold OnTSPacket. rewrite Hi.
  replace (i =? 0) with false by (symmetry; apply Z.eqb_neq; lia).
  destruct (0 <? pcr) eqn:E.
  - cbn [initial_timestamp time_offset clock_elapsed_time_s]. repeat split.
  - split; [exact Hi|]. split; [reflexivity|].
    intros Hp. apply Z.ltb_ge in E. lia.
Qed.

Lemma OnTSPacket_run_started (pcrs : list Z) (k : clock) (i : Z) :
  initial_timestamp k = Some i -> 0 < i ->
  initial_timestamp (fold_left OnTSPacket pcrs k) = Some i
  /\ time_offset (fold_left OnTSPacket pcrs k) = time_offset k.
Proof.
  revert k. induction pcrs as [|pcr pcrs IH]; intros k Hi Hpos.
  - split; [exact Hi | reflexivity].
  - cbn [fold_left].
    destruct (OnTSPacket_started k i pcr Hi Hpos) as (H1 & H2 & _).
    destruct (IH (OnTSPacket k pcr) H1 Hpos) as [H3 H4].
    split; [exact H3 | rewrite H4; exact H2].
Qed.

(** The float of the ticks, over 90000, plus the offset, grows with the
    ticks: each rounding keeps the order. *)
Lemma ticks_to_seconds_le (offset : Q) (d1 d2 : Z) :
  d1 <= d2 ->
  (Float.add (Float.div (Float.of_int d1) 90000) offset
   <= Float.add (Float.div (Float.of_int d2) 90000) offset)%Q.
Proof.
  intros H. unfold Float.add, Float.div, Float.of_int.
  apply round_le, Qplus_le_l, round_le.
  apply Qmult_le_compat_r; [|apply Qinv_le_0_compat; discriminate].
  apply round_le. rewrite <- Zle_Qle. exact H.
Qed.

(** X22. The elapsed time is measured from the first packet whose PCR is
    positive.  Packets before it leave the clock alone: the elapsed time
    stays 0, without the offset.  After it, a packet with a positive PCR p
    sets the elapsed time to the float sum of the offset and of the float
    quotient of p - first by 90000, whatever came between, and a later
    packet with a PCR at least p does not move the elapsed time back. *)
Theorem OnTSPacket_elapsed (offset : Q) (before between : list Z)
    (first p later : Z) :
  Forall (fun pcr => pcr <= 0) before ->
  0 < first -> 0 < p -> p <= later ->
  fold_left OnTSPacket before (clock_init offset) = clock_init offset
  /\ initial_timestamp
       (fold_left OnTSPacket (before ++ first :: between ++ [p])
          (clock_init offset)) = Some first
  /\ clock_elapsed_time_s
       (fold_left OnTSPacket (before ++ first :: between ++ [p])
          (clock_init offset))
     = Float.add (Float.div (Float.of_int (p - first)) 90000) offset
  /\ (clock_elapsed_time_s
        (fold_left OnTSPacket (before ++ first :: between ++ [p])
           (clock_init offset))
      <= clock_elapsed_time_s
           (fold_left OnTSPacket (before ++ first :: between ++ [p; later])
              (clock_init offset)))%Q.
Proof.
  intros Hb Hf Hp Hl.
  assert (Hrun : forall tail,
            fold_left OnTSPacket (before ++ first :: between ++ tail)
              (clock_init offset)
            = fold_left OnTSPacket tail
                (fold_left OnTSPacket between
                   (OnTSPacket (clock_init offset) first))).
  { intros tail. rewrite fold_left_app, (OnTSPacket_not_positive _ _ Hb).
    cbn [fold_left]. rewrite fold_left_app. reflexivity. }
  assert (H1 : initial_timestamp (OnTSPacket (clock_init offset) first)
               = Some first).
  { unfold OnTSPacket.
    replace (0 <? first) with true by (symmetry; apply Z.ltb_lt; exact Hf).
    reflexivity. }
  assert (H1o : time_offset (OnTSPacket (clock_init offset) first) = offset).
  { unfold OnTSPacket.
    replace (0 <? first) with true by (symmetry; apply Z.ltb_lt; exact Hf).
    reflexivity. }
  destruct (OnTSPacket_run_started between _ first H1 Hf) as [H2 H2o].
  rewrite H1o in H2o.
  set (k := fold_left OnTSPacket between (OnTSPacket (clock_init offset) first))
    in *.
  destruct (OnTSPacket_started k first p H2 Hf) as (H3 & H3o & H3e).
  specialize (H3e Hp). rewrite H2o in H3o, H3e.
  destruct (OnTSPacket_started (OnTSPacket k p) first later H3 Hf)
    as (_ & _ & H4e).
  specialize (H4e ltac:(lia)). rewrite H3o in H4e.
  split; [apply OnTSPacket_not_positive, Hb|].
  rewrite !Hrun. cbn [fold_left].
  split; [exact H3|]. split; [exact H3e|].
  rewrite H3e, H4e. apply ticks_to_seconds_le. lia.
Qed.

(** After the PCR 1000, the PCR 1450 gives the float of 450/90000, which is
    a little more than 0.005. *)
Lemma OnTSPacket_elapsed_witness :
  clock_elapsed_time_s
    (fold_left OnTSPacket ([0; -1] ++ 1000 :: [0; 5000] ++ [1450])
       (clock_init 0))
  = Float.add (Float.div (Float.of_int (1450 - 1000)) 90000) 0
  /\ Float.add (Float.div (Float.of_int (1450 - 1000)) 90000) 0
     = (5764607523034235 # 1152921504606846976)%Q
  /\ ((5 # 1000) < (5764607523034235 # 1152921504606846976))%Q.
Proof.
  split; [|split; [vm_compute; reflexivity | reflexivity]].
  refine (proj1 (proj2 (proj2
    (OnTSPacket_elapsed 0 [0; -1] [0; 5000] 1000 1450 1450
       _ _ _ _)))); [repeat constructor; lia | lia | lia | lia].
Defined.

(** ** When the file is made *)

(** A token that opens the file leaves it open when it was open or could
    be opened, and otherwise leaves it unopened. *)
Lemma handle_opens_file (st : ASSFormatter) (c : caption) (t : Q) :
  opens_file c = true ->
  file_written (final (handle st c t)) = can_write st.
Proof.
  intros Hc. destruct c; try discriminate Hc; unfold_handlers; split_lines;
    cbn [final];
    change (file_written (set_current_textsize ?a (set_current_style ?b
              (set_current_lines ?d ?f)))) with (file_written f);
    change (file_written (set_current_color ?a (set_current_lines ?d ?f)))
      with (file_written f);
    change (file_written (set_current_lines ?d ?f)) with (file_written f);
    autorewrite with formatter;
    first [ symmetry; assumption
          | unfold can_write; rewrite Hfw, Hw; reflexivity ].
Qed.

Lemma feed_file_written (tokens : list (caption * Q)) (st : ASSFormatter) :
  _current_lines st <> [] ->
  file_written (final (feed st tokens))
  = file_written st
    || (writable st && existsb (fun ct => opens_file (fst ct)) tokens).
Proof.
  revert st. induction tokens as [|[c t] tokens IH]; intros st Hl.
  - cbn [feed final existsb]. rewrite andb_false_r, orb_false_r. reflexivity.
  - cbn [feed existsb fst]. rewrite format_single.
    pose proof (handle_writable st c t) as Hw.
    destruct (opens_file c) eqn:Ec.
    + pose proof (handle_opens_file st c t Ec) as Ho.
      destruct (handle_outcome st c t Hl) as (st1 & Hl1 & [H | (H & _ & Hc)]);
        rewrite H in *; cbn [and_then final] in *.
      * rewrite (IH st1 Hl1), Ho, Hw. unfold can_write.
        destruct (file_written st), (writable st); reflexivity.
      * rewrite Ho, Hc. unfold can_write in Hc.
        apply orb_false_iff in Hc. destruct Hc as [-> ->]. reflexivity.
    + pose proof (handle_keeps_file st c t Ec) as Hk.
      destruct (handle_outcome st c t Hl) as (st1 & Hl1 & [H | (H & Ho & _)]);
        [|congruence].
      rewrite H in *. cbn [and_then final] in *.
      rewrite (IH st1 Hl1), Hk, Hw. reflexivity.
Qed.


(** ** The counts of a DRCS data unit *)

Lemma DRCSFont_init_mode (hash : string -> Z) (f rest : list byte)
    (font : DRCSFont) :
  DRCSFont_init hash f = Ok (font, rest) ->
  (_mode font = 0 \/ _mode font = 1) /\ _font_id font = 0.
Proof.
  unfold DRCSFont_init. intros H.
  unfold rbind at 1 in H.
  destruct (read.ucb f) as [[b f1]|] eqn:E1; [|discriminate H].
  destruct ((Z.land b 15 =? 0) || (Z.land b 15 =? 1)) eqn:Em;
    [|discriminate H].
  unfold rbind at 1 in H.
  destruct (read.ucb f1) as [[depth f2]|]; [|discriminate H].
  unfold rbind at 1 in H.
  destruct (read.ucb f2) as [[w f3]|]; [|discriminate H].
  unfold rbind at 1 in H.
  destruct (read.ucb f3) as [[h f4]|]; [|discriminate H].
  unfold rbind at 1 in H.
  destruct (times (Z.to_nat (Z.quot (w * h) 4)) read.ucb f4)
    as [[pixels f5]|]; [|discriminate H].
  unfold ret in H. injection H as <- <-. cbn [_mode _font_id].
  apply read_ucb_ok in E1. destruct E1 as (b0 & _ & ->).
  split; [|apply font_id_zero].
  apply orb_true_iff in Em. destruct Em as [Em | Em];
    apply Z.eqb_eq in Em; [left | right]; exact Em.
Qed.

Lemma DRCSCharacter_init_fonts (hash : string -> Z) (f rest : list byte)
    (c : DRCSCharacter) :
  DRCSCharacter_init hash f = Ok (c, rest) ->
  Z.of_nat (length (_fonts c)) = _number_of_font c
  /\ Forall (fun font => (_mode font = 0 \/ _mode font = 1) /\ _font_id font = 0)
       (_fonts c).
Proof.
  unfold DRCSCharacter_init. intros H.
  unfold rbind at 1 in H.
  destruct (read.usb f) as [[code f1]|]; [|discriminate H].
  unfold rbind at 1 in H.
  destruct (read.ucb f1) as [[n f2]|] eqn:En; [|discriminate H].
  unfold rbind at 1 in H.
  destruct (times (Z.to_nat n) (DRCSFont_init hash) f2) as [[fonts f3]|] eqn:Ef;
    [|discriminate H].
  unfold ret in H. injection H as <- <-. cbn [_fonts _number_of_font].
  apply read_ucb_ok in En. destruct En as (b & _ & ->).
  pose proof (byte_val_bounds b). split.
  - rewrite (times_length _ _ _ _ _ Ef). lia.
  - apply (times_Forall _ _ _ _ _ _ (fun f' a r Ha =>
             DRCSFont_init_mode hash f' r a Ha) Ef).
Qed.

(** X24. In a DRCS data unit that was read, the number of characters is
    the count byte of the unit, every character has as many fonts as its
    own count byte says, and every font has mode 0 or 1 and font id 0.  The
    declared size of the unit plays no part: the unit is read by its
    counts. *)
Theorem DRCS1ByteCharacter_init_counts (hash : string -> Z)
    (unit_separator data_unit_type data_unit_size : Z) (f rest : list byte)
    (d : DRCS1ByteCharacter) :
  DRCS1ByteCharacter_init hash unit_separator data_unit_type data_unit_size f
  = Ok (d, rest) ->
  data_unit_type = 0x30
  /\ Z.of_nat (length (_characters d)) = _number_of_code d
  /\ Forall (fun c =>
               Z.of_nat (length (_fonts c)) = _number_of_font c
               /\ Forall (fun font => (_mode font = 0 \/ _mode font = 1)
                                      /\ _font_id font = 0) (_fonts c))
       (_characters d)
  /\ forall other_size,
       DRCS1ByteCharacter_init hash unit_separator data_unit_type other_size f
       = Ok (mkDRCS1ByteCharacter (drcs_unit_separator d)
               (drcs_data_unit_type d) other_size (_characters d)
               (_number_of_code d), rest).
Proof.
  unfold DRCS1ByteCharacter_init. intros H.
  destruct (data_unit_type =? DRCS1ByteCharacter_ID) eqn:Et;
    cbn [negb] in *; [|discriminate H].
  unfold rbind at 1 in H. unfold rbind at 1.
  destruct (read.ucb f) as [[n f1]|] eqn:En; [|discriminate H].
  unfold rbind at 1 in H. unfold rbind at 1.
  destruct (times (Z.to_nat n) (DRCSCharacter_init hash) f1)
    as [[chars f2]|] eqn:Ec; [|discriminate H].
  unfold ret in *. injection H as <- <-.
  cbn [_characters _number_of_code drcs_unit_separator drcs_data_unit_type].
  apply read_ucb_ok in En. destruct En as (b & _ & ->).
  pose proof (byte_val_bounds b).
  split; [apply Z.eqb_eq, Et|].
  split; [rewrite (times_length _ _ _ _ _ Ec); lia|].
  split; [|reflexivity].
  apply (times_Forall _ _ _ _ _ _ (fun f' a r Ha =>
           DRCSCharacter_init_fonts hash f' r a Ha) Ec).
Qed.

Lemma DRCS1ByteCharacter_init_counts_witness :
  DRCS1ByteCharacter_init music_note_hash 0x1F 0x30 12
    [x01; x00; x41; x01; x01; x02; x04; x04; x05; x06; x07; xff]
  = Ok (mkDRCS1ByteCharacter 0x1F 0x30 12
          [mkDRCSCharacter 0x41 1
             [mkDRCSFont 0 1 2 4 4 [5; 6; 7; 255] (-3174437220813644284) "♬"]]
          1, [])
  /\ DRCS1ByteCharacter_init music_note_hash 0x1F 0x30 99
       [x01; x00; x41; x01; x01; x02; x04; x04; x05; x06; x07; xff]
     = Ok (mkDRCS1ByteCharacter 0x1F 0x30 99
             [mkDRCSCharacter 0x41 1
                [mkDRCSFont 0 1 2 4 4 [5; 6; 7; 255] (-3174437220813644284) "♬"]]
             1, []).
Proof.
  assert (H : DRCS1ByteCharacter_init music_note_hash 0x1F 0x30 12
                [x01; x00; x41; x01; x01; x02; x04; x04; x05; x06; x07; xff]
              = Ok (mkDRCS1ByteCharacter 0x1F 0x30 12
                      [mkDRCSCharacter 0x41 1
                         [mkDRCSFont 0 1 2 4 4 [5; 6; 7; 255]
                            (-3174437220813644284) "♬"]] 1, []))
    by reflexivity.
  split; [exact H|].
  exact (proj2 (proj2 (proj2 (DRCS1ByteCharacter_init_counts music_note_hash
                                0x1F 0x30 12 _ _ _ H))) 99).
Defined.
